(** * The user32 clipboard client (dlls/user32/clipboard.c)

    A shallow embedding of the clipboard client library: the codec layer
    ([marshal_data], [unmarshal_data]), the synthesis table and the session
    entry points ([OpenClipboard], [CloseClipboard], [EmptyClipboard],
    [SetClipboardData], [GetClipboardData]), followed by the properties of
    the natural-language specification that were checked against them.

    Conventions.
    - C integers are [Z] with the wrap-around written out ([wrap32] for
      [unsigned int], [sint32] for [int]); signed overflow wraps.
    - A block of global memory is the list of its bytes; bytes the code never
      wrote, and bytes read past the end of a block, read as 0.  Allocation
      ([GlobalAlloc], [HeapAlloc]) is taken to succeed, and freeing and
      unlocking are not modelled.
    - gdi32, the locale functions, the wineserver and window messaging are
      not part of the file under study.  They are parameters: a [Platform]
      of pure oracles and an [Env] of state transformers over an abstract
      world.  Window procedures and the driver callback act on that world
      only, never on the two client globals.
    - Every external call is appended to a trace so that properties about
      which calls are made can be stated. *)

From Stdlib Require Import ZArith List Bool Lia.
From stdpp Require Import base list.
Import ListNotations.

Local Open Scope Z_scope.

(** ** Machine integers and bytes *)

Abbreviation byte := Z (only parsing).
Abbreviation UINT := Z (only parsing).
Abbreviation HWND := Z (only parsing).
Abbreviation NTSTATUS := Z (only parsing).

Definition wrap32 (z : Z) : Z := z mod 2 ^ 32.
Definition wrap16 (z : Z) : Z := z mod 2 ^ 16.
Definition sint32 (z : Z) : Z := (z + 2 ^ 31) mod 2 ^ 32 - 2 ^ 31.

(** [abs] of <stdlib.h> on a 32-bit [int]. *)
Definition c_abs (z : Z) : Z := sint32 (Z.abs z).

Fixpoint le_decode (bs : list byte) : Z :=
  match bs with
  | [] => 0
  | b :: rest => b + 256 * le_decode rest
  end.

Fixpoint le_encode (n : nat) (z : Z) : list byte :=
  match n with
  | O => []
  | S n' => z mod 256 :: le_encode n' (z / 256)
  end.

Definition load (off len : Z) (mem : list byte) : Z :=
  le_decode (take (Z.to_nat len) (drop (Z.to_nat off) mem)).

Definition store (off len : Z) (v : Z) (mem : list byte) : list byte :=
  take (Z.to_nat off) mem ++ le_encode (Z.to_nat len) v
    ++ drop (Z.to_nat (off + len)) mem.

(** ** Clipboard formats (winuser.h) *)

Definition CF_TEXT : UINT := 1.
Definition CF_BITMAP : UINT := 2.
Definition CF_METAFILEPICT : UINT := 3.
Definition CF_OEMTEXT : UINT := 7.
Definition CF_DIB : UINT := 8.
Definition CF_PALETTE : UINT := 9.
Definition CF_UNICODETEXT : UINT := 13.
Definition CF_ENHMETAFILE : UINT := 14.
Definition CF_LOCALE : UINT := 16.
Definition CF_DIBV5 : UINT := 17.
Definition CF_MAX : UINT := 18.
Definition CF_DSPBITMAP : UINT := 130.
Definition CF_DSPMETAFILEPICT : UINT := 131.
Definition CF_DSPENHMETAFILE : UINT := 142.

(** ** Handles *)

Inductive HANDLE :=
| HNULL
| HGLOBAL (mem : list byte)
| HGDI (obj : Z).

Definition gdi_handle (obj : Z) : HANDLE :=
  if obj =? 0 then HNULL else HGDI obj.

Definition gdi_obj (h : HANDLE) : Z :=
  match h with HGDI obj => obj | _ => 0 end.

Definition is_null (h : HANDLE) : bool :=
  match h with HNULL => true | _ => false end.

Definition GlobalSize (h : HANDLE) : Z :=
  match h with HGLOBAL mem => Z.of_nat (length mem) | _ => 0 end.

Definition GlobalLock (h : HANDLE) : option (list byte) :=
  match h with HGLOBAL mem => Some mem | _ => None end.

Definition GlobalReAlloc (data : list byte) (size : Z) : list byte :=
  resize (Z.to_nat size) 0 data.

(** ** Structures of wingdi.h *)

Record BITMAP := {
  bmType : Z;
  bmWidth : Z;
  bmHeight : Z;
  bmWidthBytes : Z;
  bmPlanes : Z;
  bmBitsPixel : Z;
  bmBits : Z
}.

(** ** The platform: pointer width, gdi32 and locale oracles *)

Record Platform := {
  ptr_size : Z;
  GetObjectW : Z -> option BITMAP;
  GetBitmapBits : Z -> Z -> list byte;
  CreateBitmapIndirect : BITMAP -> list byte -> Z;
  GetPaletteEntries : Z -> list Z;
  CreatePalette : list byte -> Z;
  GetEnhMetaFileBits : Z -> list byte;
  SetEnhMetaFileBits : list byte -> Z;
  GetMetaFileBitsEx : Z -> list byte;
  SetMetaFileBitsEx : list byte -> Z;
  GetUserDefaultLCID : Z;
  GetLocaleInfoW : Z -> Z -> option Z;
  MultiByteToWideChar : Z -> list byte -> list byte;
  WideCharToMultiByte : Z -> list byte -> list byte;
  convert_bitmap : HANDLE -> UINT -> HANDLE;
  convert_dib : HANDLE -> UINT -> UINT -> HANDLE;
  convert_metafile : HANDLE -> HANDLE;
  convert_enhmetafile : HANDLE -> HANDLE
}.

Section Codec.

Context (P : Platform).

Definition align_up (n a : Z) : Z := (n + a - 1) / a * a.

(** BITMAP: four INTs, two WORDs, a pointer. *)
Definition offsetof_bmBits : Z := align_up 20 (ptr_size P).
Definition sizeof_BITMAP : Z := offsetof_bmBits + ptr_size P.

(** METAFILEPICT: three LONGs, a handle. *)
Definition offsetof_hMF : Z := align_up 12 (ptr_size P).
Definition sizeof_METAFILEPICT : Z := offsetof_hMF + ptr_size P.

(** LOGPALETTE: two WORDs and an array of 4-byte entries, declared with one. *)
Definition sizeof_LOGPALETTE : Z := 8.
Definition offsetof_palPalEntry (n : Z) : Z := 4 + 4 * n.

Definition decode_BITMAP (mem : list byte) : BITMAP :=
  {| bmType := sint32 (load 0 4 mem);
     bmWidth := sint32 (load 4 4 mem);
     bmHeight := sint32 (load 8 4 mem);
     bmWidthBytes := sint32 (load 12 4 mem);
     bmPlanes := load 16 2 mem;
     bmBitsPixel := load 18 2 mem;
     bmBits := load offsetof_bmBits (ptr_size P) mem |}.

Definition encode_BITMAP (bm : BITMAP) : list byte :=
  le_encode 4 (bmType bm) ++ le_encode 4 (bmWidth bm)
    ++ le_encode 4 (bmHeight bm) ++ le_encode 4 (bmWidthBytes bm)
    ++ le_encode 2 (bmPlanes bm) ++ le_encode 2 (bmBitsPixel bm)
    ++ replicate (Z.to_nat (offsetof_bmBits - 20)) 0
    ++ le_encode (Z.to_nat (ptr_size P)) (bmBits bm).

(** ** marshal_data: build the data to send to the server

    Returns the handle of the flat block and its size; [HNULL] is the
    source's [return 0]. *)

Definition bytes_at (ptr : list byte) (size : Z) : list byte :=
  resize (Z.to_nat size) 0 ptr.

Definition marshal_data (format : UINT) (handle : HANDLE) : HANDLE * Z :=
  if (format =? CF_BITMAP) || (format =? CF_DSPBITMAP) then
    match GetObjectW P (gdi_obj handle) with
    | None => (HNULL, 0)
    | Some bitmap =>
        let stride :=
          Z.land
            (Z.shiftr
               (sint32 (sint32 (bmWidth bitmap * bmBitsPixel bitmap) + 15)) 3)
            (Z.lnot 1) in
        let size := sint32 (c_abs (bmHeight bitmap) * stride) in
        let ret_size := wrap32 (sizeof_BITMAP + size) in
        let bm :=
          encode_BITMAP bitmap ++ GetBitmapBits P (gdi_obj handle) size in
        (HGLOBAL (bytes_at bm ret_size), ret_size)
    end
  else if format =? CF_PALETTE then
    let entries := GetPaletteEntries P (gdi_obj handle) in
    let size := wrap32 (Z.of_nat (length entries)) in
    if size =? 0 then (HNULL, 0)
    else
      let ret_size := wrap32 (offsetof_palPalEntry size) in
      let pal :=
        le_encode 2 768 ++ le_encode 2 (wrap16 size)
          ++ flat_map (le_encode 4) entries in
      (HGLOBAL (bytes_at pal ret_size), ret_size)
  else if (format =? CF_ENHMETAFILE) || (format =? CF_DSPENHMETAFILE) then
    let bits := GetEnhMetaFileBits P (gdi_obj handle) in
    let size := wrap32 (Z.of_nat (length bits)) in
    if size =? 0 then (HNULL, 0)
    else (HGLOBAL (bytes_at bits size), size)
  else if (format =? CF_METAFILEPICT) || (format =? CF_DSPMETAFILEPICT) then
    match GlobalLock handle with
    | None => (HNULL, 0)
    | Some mf =>
        let bits := GetMetaFileBitsEx P (load offsetof_hMF (ptr_size P) mf) in
        let size := wrap32 (Z.of_nat (length bits)) in
        if size =? 0 then (HNULL, 0)
        else
          let ret_size := wrap32 (sizeof_METAFILEPICT + size) in
          let mfbits := bytes_at mf sizeof_METAFILEPICT ++ bits in
          (HGLOBAL (bytes_at mfbits ret_size), ret_size)
    end
  else
    let size := GlobalSize handle in
    if size =? 0 then (HNULL, 0)
    else if negb (wrap32 size =? size) then (HNULL, 0)
    else (handle, size).

(** ** unmarshal_data: rebuild the target handle from the data received *)

Definition bitmap_bits_size (bm : BITMAP) : Z :=
  wrap32 (sint32 (bmWidthBytes bm * c_abs (bmHeight bm))).

Definition unmarshal_data (format : UINT) (data : list byte) (size : Z)
  : HANDLE :=
  let handle := GlobalReAlloc data size in
  if format =? CF_BITMAP then
    if size <? sizeof_BITMAP then HGLOBAL handle
    else
      let bm := decode_BITMAP handle in
      if size <? bitmap_bits_size bm then HGLOBAL handle
      else if negb (bmBits bm =? 0) then HGLOBAL handle
      else
        gdi_handle
          (CreateBitmapIndirect P bm (drop (Z.to_nat sizeof_BITMAP) handle))
  else if format =? CF_DSPBITMAP then HGLOBAL handle
  else if format =? CF_PALETTE then
    if size <? sizeof_LOGPALETTE then HGLOBAL handle
    else if size <? offsetof_palPalEntry (load 2 2 handle) then HGLOBAL handle
    else gdi_handle (CreatePalette P handle)
  else if (format =? CF_ENHMETAFILE) || (format =? CF_DSPENHMETAFILE) then
    gdi_handle (SetEnhMetaFileBits P handle)
  else if (format =? CF_METAFILEPICT) || (format =? CF_DSPMETAFILEPICT) then
    if size <=? sizeof_METAFILEPICT then HGLOBAL handle
    else
      let hMF :=
        SetMetaFileBitsEx P (drop (Z.to_nat sizeof_METAFILEPICT) handle) in
      HGLOBAL (store offsetof_hMF (ptr_size P) hMF handle)
  else HGLOBAL handle.

End Codec.

(** ** The wineserver, the driver and window messaging *)

Definition STATUS_BUFFER_OVERFLOW : NTSTATUS := 2147483653.
Definition WM_RENDERFORMAT : UINT := 773.
Definition WM_DESTROYCLIPBOARD : UINT := 775.
Definition WM_DRAWCLIPBOARD : UINT := 776.

Record get_reply := {
  get_status : NTSTATUS;
  get_total : Z;
  get_owner : HWND;
  get_data : list byte
}.

Record Env (World : Type) := {
  pUpdateClipboard : World -> World;
  open_clipboard : HWND -> World -> NTSTATUS * HWND * World;
  close_clipboard : World -> NTSTATUS * HWND * HWND * World;
  empty_clipboard : World -> NTSTATUS * World;
  set_clipboard_data : UINT -> list byte -> World -> NTSTATUS * World;
  get_clipboard_data : UINT -> Z -> World -> get_reply * World;
  get_clipboard_info : World -> NTSTATUS * HWND * World;
  get_clipboard_formats : UINT -> World -> NTSTATUS * Z * World;
  SendMessageW : HWND -> UINT -> Z -> World -> World
}.

Arguments pUpdateClipboard {World}.
Arguments open_clipboard {World}.
Arguments close_clipboard {World}.
Arguments empty_clipboard {World}.
Arguments set_clipboard_data {World}.
Arguments get_clipboard_data {World}.
Arguments get_clipboard_info {World}.
Arguments get_clipboard_formats {World}.
Arguments SendMessageW {World}.

Inductive event :=
| ev_UpdateClipboard
| ev_open_clipboard (window : HWND)
| ev_close_clipboard
| ev_empty_clipboard
| ev_set_clipboard_data (format : UINT) (data : list byte)
| ev_get_clipboard_data (format : UINT) (size : Z)
| ev_get_clipboard_info
| ev_get_clipboard_formats (format : UINT)
| ev_SendMessage (hwnd : HWND) (msg : UINT) (wparam : Z)
| ev_convert (format from : UINT).

(** ** Client state: the two globals, the world and the call trace *)

Record state (World : Type) := mkState {
  bCBHasChanged : bool;
  synthesized_formats : list UINT;
  world : World;
  trace : list event
}.

Arguments mkState {World}.
Arguments bCBHasChanged {World}.
Arguments synthesized_formats {World}.
Arguments world {World}.
Arguments trace {World}.

(** What a call that may loop or abort comes to. *)
Inductive outcome (A : Type) :=
| Done (a : A)
| Crashed
| OutOfFuel.

Arguments Done {A}.
Arguments Crashed {A}.
Arguments OutOfFuel {A}.

Section Client.

Context (P : Platform) {World : Type} (E : Env World).

Definition M (A : Type) : Type := state World -> A * state World.

Definition ret {A} (a : A) : M A := fun st => (a, st).

Definition bind {A B} (c : M A) (k : A -> M B) : M B :=
  fun st => let '(a, st') := c st in k a st'.

Definition get_state : M (state World) := fun st => (st, st).

Notation "'do' x <- c ; k" := (bind c (fun x => k))
  (at level 10, x pattern, c at level 100, k at level 200).

(** Continue only with a finished call. *)
Definition bind_outcome {A B} (c : M (outcome A))
    (k : A -> M (outcome B)) : M (outcome B) :=
  do r <- c;
  match r with
  | Done a => k a
  | Crashed => ret Crashed
  | OutOfFuel => ret OutOfFuel
  end.

Notation "'try' x <- c ; k" := (bind_outcome c (fun x => k))
  (at level 10, x pattern, c at level 100, k at level 200).

Definition emit (e : event) : M unit :=
  fun st =>
    (tt, mkState (bCBHasChanged st) (synthesized_formats st) (world st)
           (trace st ++ [e])).

(** A call into the environment: logged, then run on the world. *)
Definition extern {A} (e : event) (f : World -> A * World) : M A :=
  fun st =>
    let '(a, w) := f (world st) in
    (a, mkState (bCBHasChanged st) (synthesized_formats st) w
          (trace st ++ [e])).

Definition set_bCBHasChanged (b : bool) : M unit :=
  fun st =>
    (tt, mkState b (synthesized_formats st) (world st) (trace st)).

Definition set_synthesized_formats (tbl : list UINT) : M unit :=
  fun st => (tt, mkState (bCBHasChanged st) tbl (world st) (trace st)).

(** [synthesized_formats[format]] *)
Definition synthesized_from (tbl : list UINT) (format : UINT) : UINT :=
  default 0 (tbl !! Z.to_nat format).

(** [memset( synthesized_formats, 0, sizeof(synthesized_formats) )] *)
Definition no_synthesized_formats : list UINT :=
  replicate (Z.to_nat CF_MAX) 0.

Definition driver_update : M unit :=
  extern ev_UpdateClipboard (fun w => (tt, pUpdateClipboard E w)).

(** A message to a window of another party: its window procedure acts on
    the world.  A window procedure that runs in the calling process and
    calls back into the functions below is not part of this definition; its
    calls are runs of those functions in their own right. *)
Definition send_message (hwnd : HWND) (msg : UINT) (wparam : Z) : M unit :=
  extern (ev_SendMessage hwnd msg wparam)
         (fun w => (tt, SendMessageW E hwnd msg wparam w)).

(** ** SetClipboardData *)

Definition SetClipboardData_request (format : UINT) (data : HANDLE)
    (ptr : list byte) (size : Z) : M HANDLE :=
  do status <- extern (ev_set_clipboard_data format (bytes_at ptr size))
                 (set_clipboard_data E format (bytes_at ptr size));
  if status =? 0 then
    do _ <- set_bCBHasChanged true;
    do st <- get_state;
    do _ <- (if format <? CF_MAX
             then set_synthesized_formats
                    (<[Z.to_nat format := 0]> (synthesized_formats st))
             else ret tt);
    ret data
  else ret HNULL.

Definition SetClipboardData (format : UINT) (data : HANDLE) : M HANDLE :=
  if is_null data then SetClipboardData_request format data [] 0
  else
    let '(handle, size) := marshal_data P format data in
    if is_null handle then ret HNULL
    else
      match GlobalLock handle with
      | None => ret HNULL
      | Some ptr => SetClipboardData_request format data ptr size
      end.

(** ** IsClipboardFormatAvailable, GetClipboardOwner *)

Definition IsClipboardFormatAvailable (format : UINT) : M bool :=
  if format =? 0 then ret false
  else
    do _ <- driver_update;
    do r <- extern (ev_get_clipboard_formats format)
              (get_clipboard_formats E format);
    let '(status, count) := r in
    ret (if status =? 0 then 0 <? count else false).

Definition GetClipboardOwner : M HWND :=
  do r <- extern ev_get_clipboard_info (get_clipboard_info E);
  let '(status, owner) := r in
  ret (if status =? 0 then owner else 0).

(** ** The synthesis pass *)

Definition add_synthesized_format (format from : UINT) : M unit :=
  do _ <- SetClipboardData format HNULL;
  do st <- get_state;
  set_synthesized_formats
    (<[Z.to_nat format := from]> (synthesized_formats st)).

Definition set_clipboard_locale : M unit :=
  do _ <- SetClipboardData CF_LOCALE
            (HGLOBAL (le_encode 4 (GetUserDefaultLCID P)));
  ret tt.

Definition when (b : bool) (c : M unit) : M unit :=
  if b then c else ret tt.

Definition add_synthesized_text : M unit :=
  do has_text <- IsClipboardFormatAvailable CF_TEXT;
  do has_oemtext <- IsClipboardFormatAvailable CF_OEMTEXT;
  do has_unicode <- IsClipboardFormatAvailable CF_UNICODETEXT;
  if negb has_text && negb has_oemtext && negb has_unicode then ret tt
  else
    do has_locale <- IsClipboardFormatAvailable CF_LOCALE;
    do _ <- when (negb has_locale) set_clipboard_locale;
    if has_unicode then
      do _ <- when (negb has_text)
                (add_synthesized_format CF_TEXT CF_UNICODETEXT);
      when (negb has_oemtext)
        (add_synthesized_format CF_OEMTEXT CF_UNICODETEXT)
    else if has_text then
      do _ <- when (negb has_oemtext)
                (add_synthesized_format CF_OEMTEXT CF_TEXT);
      when (negb has_unicode)
        (add_synthesized_format CF_UNICODETEXT CF_TEXT)
    else
      do _ <- when (negb has_text)
                (add_synthesized_format CF_TEXT CF_OEMTEXT);
      when (negb has_unicode)
        (add_synthesized_format CF_UNICODETEXT CF_OEMTEXT).

Definition add_synthesized_bitmap : M unit :=
  do has_dib <- IsClipboardFormatAvailable CF_DIB;
  do has_dibv5 <- IsClipboardFormatAvailable CF_DIBV5;
  do has_bitmap <- IsClipboardFormatAvailable CF_BITMAP;
  if negb has_bitmap && negb has_dib && negb has_dibv5 then ret tt
  else if has_bitmap && has_dib && has_dibv5 then ret tt
  else if has_bitmap then
    do _ <- when (negb has_dib) (add_synthesized_format CF_DIB CF_BITMAP);
    when (negb has_dibv5) (add_synthesized_format CF_DIBV5 CF_BITMAP)
  else if has_dib then
    do _ <- when (negb has_bitmap) (add_synthesized_format CF_BITMAP CF_DIB);
    when (negb has_dibv5) (add_synthesized_format CF_DIBV5 CF_DIB)
  else
    do _ <- when (negb has_bitmap)
              (add_synthesized_format CF_BITMAP CF_DIBV5);
    when (negb has_dib) (add_synthesized_format CF_DIB CF_DIBV5).

Definition add_synthesized_metafile : M unit :=
  do has_mf <- IsClipboardFormatAvailable CF_METAFILEPICT;
  do has_emf <- IsClipboardFormatAvailable CF_ENHMETAFILE;
  if negb has_mf && has_emf
  then add_synthesized_format CF_METAFILEPICT CF_ENHMETAFILE
  else if negb has_emf && has_mf
  then add_synthesized_format CF_ENHMETAFILE CF_METAFILEPICT
  else ret tt.

(** ** Rendering synthesized formats *)

Definition LOCALE_IDEFAULTANSICODEPAGE : Z := 4100.
Definition LOCALE_IDEFAULTCODEPAGE : Z := 11.
Definition LOCALE_RETURN_NUMBER : Z := 536870912.
Definition CP_ACP : Z := 0.
Definition CP_OEMCP : Z := 1.

Definition get_format_codepage (lcid : Z) (format : UINT) : Z :=
  let type :=
    if format =? CF_TEXT then LOCALE_IDEFAULTANSICODEPAGE
    else LOCALE_IDEFAULTCODEPAGE in
  match GetLocaleInfoW P lcid (Z.lor type LOCALE_RETURN_NUMBER) with
  | Some cp => cp
  | None => if format =? CF_TEXT then CP_ACP else CP_OEMCP
  end.

(** The functions below call back into [GetClipboardData]; they take it as
    [get], which [GetClipboardData] instantiates with itself at smaller
    fuel. *)
Section Render.

Variable get : UINT -> M (outcome HANDLE).

Definition get_clipboard_locale : M (outcome Z) :=
  let lcid := GetUserDefaultLCID P in
  try data <- get CF_LOCALE;
  ret (Done
         (if is_null data then lcid
          else
            match GlobalLock data with
            | Some ptr => if 4 <=? GlobalSize data then load 0 4 ptr else lcid
            | None => lcid
            end)).

Definition render_synthesized_textA (data : HANDLE) (format from : UINT)
  : M (outcome HANDLE) :=
  try lcid <- get_clipboard_locale;
  let codepage := get_format_codepage lcid format in
  let size := wrap32 (GlobalSize data) in
  match GlobalLock data with
  | None => ret (Done HNULL)
  | Some src =>
      let '(src, size) :=
        if negb (from =? CF_UNICODETEXT) then
          let from_codepage := get_format_codepage lcid from in
          let srcW := MultiByteToWideChar P from_codepage (bytes_at src size) in
          (srcW, wrap32 (Z.of_nat (length srcW)))
        else (src, size) in
      ret (Done
             (HGLOBAL
                (WideCharToMultiByte P codepage
                   (bytes_at src (2 * (size / 2))))))
  end.

Definition render_synthesized_textW (data : HANDLE) (from : UINT)
  : M (outcome HANDLE) :=
  let size := wrap32 (GlobalSize data) in
  try lcid <- get_clipboard_locale;
  let codepage := get_format_codepage lcid from in
  match GlobalLock data with
  | None => ret (Done HNULL)
  | Some src =>
      ret (Done (HGLOBAL (MultiByteToWideChar P codepage (bytes_at src size))))
  end.

Definition render_synthesized_format (format from : UINT)
  : M (outcome HANDLE) :=
  try data <- get from;
  if is_null data then ret (Done HNULL)
  else
    try data <-
      (if (format =? CF_TEXT) || (format =? CF_OEMTEXT) then
         do _ <- emit (ev_convert format from);
         render_synthesized_textA data format from
       else if format =? CF_UNICODETEXT then
         do _ <- emit (ev_convert format from);
         render_synthesized_textW data from
       else if format =? CF_BITMAP then
         do _ <- emit (ev_convert format from);
         ret (Done (convert_bitmap P data from))
       else if (format =? CF_DIB) || (format =? CF_DIBV5) then
         do _ <- emit (ev_convert format from);
         ret (Done (convert_dib P data format from))
       else if format =? CF_METAFILEPICT then
         do _ <- emit (ev_convert format from);
         ret (Done (convert_metafile P data))
       else if format =? CF_ENHMETAFILE then
         do _ <- emit (ev_convert format from);
         ret (Done (convert_enhmetafile P data))
       else ret Crashed);
    if is_null data then ret (Done HNULL)
    else
      do _ <- SetClipboardData format data;
      ret (Done data).

End Render.

(** ** GetClipboardData *)

(** The [for (;;)] loop; [size] is the buffer size of the next request and
    [render] tells whether the owner may still be asked to render. *)
Fixpoint GetClipboardData_loop (fuel : nat) (format : UINT) (size : Z)
    (render : bool) : M (outcome HANDLE) :=
  match fuel with
  | O => ret OutOfFuel
  | S fuel' =>
      do reply <- extern (ev_get_clipboard_data format size)
                    (get_clipboard_data E format size);
      let data := bytes_at (get_data reply) size in
      let status := get_status reply in
      let size := get_total reply in
      let owner := get_owner reply in
      if (status =? 0) && negb (size =? 0) then
        ret (Done (unmarshal_data P format data size))
      else if status =? STATUS_BUFFER_OVERFLOW then
        GetClipboardData_loop fuel' format size render
      else if negb (status =? 0) then ret (Done HNULL)
      else if render && negb (owner =? 0) then
        do _ <- send_message owner WM_RENDERFORMAT format;
        GetClipboardData_loop fuel' format size false
      else ret (Done HNULL)
  end.

Fixpoint GetClipboardData (fuel : nat) (format : UINT) : M (outcome HANDLE) :=
  match fuel with
  | O => ret OutOfFuel
  | S fuel' =>
      do st <- get_state;
      let from := synthesized_from (synthesized_formats st) format in
      if (format <? CF_MAX) && negb (from =? 0) then
        render_synthesized_format (GetClipboardData fuel') format from
      else GetClipboardData_loop fuel' format 1024 true
  end.

(** ** OpenClipboard, CloseClipboard, EmptyClipboard *)

Definition OpenClipboard (hwnd : HWND) : M bool :=
  do _ <- driver_update;
  do r <- extern (ev_open_clipboard hwnd) (open_clipboard E hwnd);
  let '(status, owner) := r in
  if status =? 0 then
    do _ <- (if owner =? 0 then
               do _ <- set_bCBHasChanged false;
               set_synthesized_formats no_synthesized_formats
             else ret tt);
    ret true
  else ret false.

Definition CloseClipboard : M bool :=
  do st <- get_state;
  do _ <- (if bCBHasChanged st then
             do _ <- set_synthesized_formats no_synthesized_formats;
             do _ <- add_synthesized_text;
             do _ <- add_synthesized_bitmap;
             add_synthesized_metafile
           else ret tt);
  do r <- extern ev_close_clipboard (close_clipboard E);
  let '(status, viewer, owner) := r in
  if status =? 0 then
    do _ <- set_bCBHasChanged false;
    do _ <- when (negb (viewer =? 0))
              (send_message viewer WM_DRAWCLIPBOARD owner);
    ret true
  else ret false.

Definition EmptyClipboard : M bool :=
  do owner <- GetClipboardOwner;
  do _ <- when (negb (owner =? 0))
            (send_message owner WM_DESTROYCLIPBOARD 0);
  do status <- extern ev_empty_clipboard (empty_clipboard E);
  if status =? 0 then
    do _ <- set_bCBHasChanged true;
    do _ <- set_synthesized_formats no_synthesized_formats;
    ret true
  else ret false.

End Client.

(** ** The session arbiter *)

Module Arbiter.

(** Modelled from the spec: the two failures a request can report (section
    7), as non-zero statuses other than STATUS_BUFFER_OVERFLOW. *)
Definition SessionStateError : NTSTATUS := 3221225473.
Definition NotFound : NTSTATUS := 3221225524.

(** Modelled from the spec: the arbiter's state (spec sections 3 and 6),
    which the wineserver keeps and clipboard.c only reaches through
    requests: the format directory in directory order with at most one
    entry per id (an entry with no bytes is a format announced but not yet
    rendered), the current owner (0 for none), the window holding the open
    session, the viewer to notify and the sequence number. *)
Record arbiter := mkArbiter {
  arb_directory : list (Z * list Z);
  arb_owner : Z;
  arb_opener : option Z;
  arb_viewer : Z;
  arb_seqno : Z
}.

(** Modelled from the spec: the entry of a format, and its insertion or
    replacement in place (sections 3 and 4.3). *)
Fixpoint dir_lookup (format : UINT) (dir : list (Z * list Z))
  : option (list byte) :=
  match dir with
  | [] => None
  | (id, bytes) :: rest =>
      if id =? format then Some bytes else dir_lookup format rest
  end.

Fixpoint dir_put (format : UINT) (bytes : list byte)
    (dir : list (Z * list Z)) : list (Z * list Z) :=
  match dir with
  | [] => [(format, bytes)]
  | (id, old) :: rest =>
      if id =? format then (id, bytes) :: rest
      else (id, old) :: dir_put format bytes rest
  end.

(** Modelled from the spec: [open] (section 6) reports the prior owner; a
    second open of an open session is a session-state error (section 7). *)
Definition arb_open (hwnd : HWND) (a : arbiter) : NTSTATUS * HWND * arbiter :=
  match arb_opener a with
  | Some _ => (SessionStateError, 0, a)
  | None =>
      (0, arb_owner a,
       mkArbiter (arb_directory a) (arb_owner a) (Some hwnd) (arb_viewer a)
         (arb_seqno a))
  end.

(** Modelled from the spec: [close] (section 6) ends the session and names
    the viewer to notify and the owner. *)
Definition arb_close (a : arbiter) : NTSTATUS * HWND * HWND * arbiter :=
  match arb_opener a with
  | None => (SessionStateError, 0, 0, a)
  | Some _ =>
      (0, arb_viewer a, arb_owner a,
       mkArbiter (arb_directory a) (arb_owner a) None (arb_viewer a)
         (arb_seqno a))
  end.

(** Modelled from the spec: [empty] (sections 4.5 and 6) clears the
    directory, makes the caller the owner and bumps the sequence number. *)
Definition arb_empty (a : arbiter) : NTSTATUS * arbiter :=
  match arb_opener a with
  | None => (SessionStateError, a)
  | Some hwnd =>
      (0, mkArbiter [] hwnd (Some hwnd) (arb_viewer a) (arb_seqno a + 1))
  end.

(** Modelled from the spec: [put] (section 6) inserts or replaces the entry
    of the format and bumps the sequence number. *)
Definition arb_put (format : UINT) (bytes : list byte) (a : arbiter)
  : NTSTATUS * arbiter :=
  match arb_opener a with
  | None => (SessionStateError, a)
  | Some _ =>
      (0, mkArbiter (dir_put format bytes (arb_directory a)) (arb_owner a)
            (arb_opener a) (arb_viewer a) (arb_seqno a + 1))
  end.

(** Modelled from the spec: [get] (section 6) answers with the bytes, with
    the required size when the buffer is too small, or with not-found. *)
Definition arb_get (format : UINT) (size : Z) (a : arbiter)
  : get_reply * arbiter :=
  match arb_opener a with
  | None => (Build_get_reply SessionStateError 0 0 [], a)
  | Some _ =>
      match dir_lookup format (arb_directory a) with
      | None => (Build_get_reply NotFound 0 (arb_owner a) [], a)
      | Some bytes =>
          let total := Z.of_nat (length bytes) in
          if total <=? size
          then (Build_get_reply 0 total (arb_owner a) bytes, a)
          else (Build_get_reply STATUS_BUFFER_OVERFLOW total (arb_owner a) [],
                a)
      end
  end.

(** Modelled from the spec: the current owner can always be asked for. *)
Definition arb_info (a : arbiter) : NTSTATUS * HWND * arbiter :=
  (0, arb_owner a, a).

(** Modelled from the spec: a format is available when the directory has an
    entry for it, rendered or not (section 4.3); with no format the count is
    that of the whole directory. *)
Definition arb_formats (format : UINT) (a : arbiter)
  : NTSTATUS * Z * arbiter :=
  (0,
   if format =? 0 then Z.of_nat (length (arb_directory a))
   else match dir_lookup format (arb_directory a) with
        | Some _ => 1
        | None => 0
        end,
   a).

(** The environment made of the arbiter, a driver callback and the window
    procedures of the other parties. *)
Definition arbiter_env (driver : arbiter -> arbiter)
    (wndproc : HWND -> UINT -> Z -> arbiter -> arbiter) : Env arbiter :=
  {| pUpdateClipboard := driver;
     open_clipboard := arb_open;
     close_clipboard := arb_close;
     empty_clipboard := arb_empty;
     set_clipboard_data := arb_put;
     get_clipboard_data := arb_get;
     get_clipboard_info := arb_info;
     get_clipboard_formats := arb_formats;
     SendMessageW := wndproc |}.

(** Parties that ignore every message, and a driver with nothing to import. *)
Definition quiet_env : Env arbiter :=
  arbiter_env (fun a => a) (fun _ _ _ a => a).

(** A client that has not touched the clipboard yet. *)
Definition initial_state (a : arbiter) : state arbiter :=
  mkState false no_synthesized_formats a [].

End Arbiter.

(** ** Vocabulary of the statements *)

(** The static array has [CF_MAX] slots. *)
Definition table_ok (tbl : list Z) : Prop :=
  length tbl = Z.to_nat CF_MAX.

(** The state after the server round-trip of [SetClipboardData]. *)
Definition after_set_request {World : Type} (E : Env World) (format : UINT)
    (payload : list byte) (st : state World) : state World :=
  let '(status, w) := set_clipboard_data E format payload (world st) in
  mkState
    (if status =? 0 then true else bCBHasChanged st)
    (if (status =? 0) && (format <? CF_MAX)
     then <[Z.to_nat format := 0]> (synthesized_formats st)
     else synthesized_formats st)
    w
    (trace st ++ [ev_set_clipboard_data format payload]).

(** The state after an external call [e] that left the world as [w]. *)
Definition logged {World : Type} (e : event) (w : World) (st : state World)
  : state World :=
  mkState (bCBHasChanged st) (synthesized_formats st) w (trace st ++ [e]).

Definition is_convert (e : event) : bool :=
  match e with ev_convert _ _ => true | _ => false end.

Definition is_render_request (e : event) : bool :=
  match e with
  | ev_SendMessage _ msg _ => msg =? WM_RENDERFORMAT
  | _ => false
  end.

Fixpoint count_events (p : event -> bool) (t : list event) : nat :=
  match t with
  | [] => O
  | e :: t' => ((if p e then 1 else 0) + count_events p t')%nat
  end.

(** The payloads that [unmarshal_data] turns down, format by format. *)
Definition fails_validation (P : Platform) (format : UINT)
    (data : list byte) (size : Z) : Prop :=
  let mem := GlobalReAlloc data size in
  (format = CF_BITMAP
   /\ (size < sizeof_BITMAP P
       \/ size < bitmap_bits_size (decode_BITMAP P mem)
       \/ bmBits (decode_BITMAP P mem) <> 0))
  \/ format = CF_DSPBITMAP
  \/ (format = CF_PALETTE
      /\ (size < sizeof_LOGPALETTE
          \/ size < offsetof_palPalEntry (load 2 2 mem)))
  \/ ((format = CF_METAFILEPICT \/ format = CF_DSPMETAFILEPICT)
      /\ size <= sizeof_METAFILEPICT P).

(** The bytes [SetClipboardData] puts in its request, if it gets that far. *)
Definition request_payload (P : Platform) (format : UINT) (data : HANDLE)
  : option (list byte) :=
  if is_null data then Some []
  else
    let '(handle, size) := marshal_data P format data in
    if is_null handle then None
    else
      match GlobalLock handle with
      | None => None
      | Some ptr => Some (bytes_at ptr size)
      end.

(** [st'] differs from [st] by world and trace only, and the trace has
    gained no conversion. *)
Definition same_client {World : Type} (st st' : state World) : Prop :=
  bCBHasChanged st' = bCBHasChanged st
  /\ synthesized_formats st' = synthesized_formats st
  /\ count_events is_convert (trace st') = count_events is_convert (trace st).

(** The state in which the text members are marked: after the four
    availability queries and the locale entry. *)
Definition text_pass_start (P : Platform) {World : Type} (E : Env World)
    (st : state World) : state World :=
  let st3 :=
    snd (IsClipboardFormatAvailable E CF_UNICODETEXT
           (snd (IsClipboardFormatAvailable E CF_OEMTEXT
                   (snd (IsClipboardFormatAvailable E CF_TEXT st))))) in
  let q := IsClipboardFormatAvailable E CF_LOCALE st3 in
  snd (when (negb (fst q)) (set_clipboard_locale P E) (snd q)).

(** The state after [k] further reads of [format]. *)
Fixpoint reread (P : Platform) {World : Type} (E : Env World) (fuel : nat)
    (format : UINT) (k : nat) (st : state World) : state World :=
  match k with
  | O => st
  | S k' => reread P E fuel format k' (snd (GetClipboardData P E fuel format st))
  end.

(** No mark points at a format that is itself marked, and CF_LOCALE is never
    marked. *)
Definition marks_grounded (tbl : list Z) : Prop :=
  (forall f, 0 <= f ->
     synthesized_from tbl f <> 0 ->
     0 <= synthesized_from tbl f
     /\ synthesized_from tbl (synthesized_from tbl f) = 0)
  /\ synthesized_from tbl CF_LOCALE = 0.

Definition grounded_check (tbl : list Z) : bool :=
  forallb
    (fun from =>
       (from =? 0) || ((0 <=? from) && (synthesized_from tbl from =? 0)))
    tbl
  && (synthesized_from tbl CF_LOCALE =? 0).

(** [tbl'] is [tbl] with some entries set to 0. *)
Definition cleared (tbl tbl' : list Z) : Prop :=
  length tbl' = length tbl
  /\ forall f, synthesized_from tbl' f = synthesized_from tbl f
               \/ synthesized_from tbl' f = 0.

(** The marks the three passes of CloseClipboard leave, as functions of what
    IsClipboardFormatAvailable answered. *)
Definition mark (format from : UINT) (tbl : list Z) : list Z :=
  <[Z.to_nat format := from]> tbl.

Definition mark_unless (present : bool) (format from : UINT)
    (tbl : list Z) : list Z :=
  if present then tbl else mark format from tbl.

Definition text_marks (has_text has_oemtext has_unicode : bool)
    (tbl : list Z) : list Z :=
  if negb has_text && negb has_oemtext && negb has_unicode then tbl
  else if has_unicode then
    mark_unless has_oemtext CF_OEMTEXT CF_UNICODETEXT
      (mark_unless has_text CF_TEXT CF_UNICODETEXT tbl)
  else if has_text then
    mark_unless has_unicode CF_UNICODETEXT CF_TEXT
      (mark_unless has_oemtext CF_OEMTEXT CF_TEXT tbl)
  else
    mark_unless has_unicode CF_UNICODETEXT CF_OEMTEXT
      (mark_unless has_text CF_TEXT CF_OEMTEXT tbl).

Definition bitmap_marks (has_dib has_dibv5 has_bitmap : bool)
    (tbl : list Z) : list Z :=
  if negb has_bitmap && negb has_dib && negb has_dibv5 then tbl
  else if has_bitmap && has_dib && has_dibv5 then tbl
  else if has_bitmap then
    mark_unless has_dibv5 CF_DIBV5 CF_BITMAP
      (mark_unless has_dib CF_DIB CF_BITMAP tbl)
  else if has_dib then
    mark_unless has_dibv5 CF_DIBV5 CF_DIB
      (mark_unless has_bitmap CF_BITMAP CF_DIB tbl)
  else
    mark_unless has_dib CF_DIB CF_DIBV5
      (mark_unless has_bitmap CF_BITMAP CF_DIBV5 tbl).

Definition metafile_marks (has_mf has_emf : bool) (tbl : list Z) : list Z :=
  if negb has_mf && has_emf then mark CF_METAFILEPICT CF_ENHMETAFILE tbl
  else if negb has_emf && has_mf then mark CF_ENHMETAFILE CF_METAFILEPICT tbl
  else tbl.

(** The table and mark invariant of a client state. *)
Definition session_invariant {World : Type} (st : state World) : Prop :=
  table_ok (synthesized_formats st)
  /\ marks_grounded (synthesized_formats st).

(** The entry points a client can call. *)
Inductive call :=
| call_OpenClipboard (hwnd : HWND)
| call_CloseClipboard
| call_EmptyClipboard
| call_SetClipboardData (format : UINT) (data : HANDLE)
| call_GetClipboardData (fuel : nat) (format : UINT).

Definition run_call (P : Platform) {World : Type} (E : Env World)
    (c : call) (st : state World) : state World :=
  match c with
  | call_OpenClipboard hwnd => snd (OpenClipboard E hwnd st)
  | call_CloseClipboard => snd (CloseClipboard P E st)
  | call_EmptyClipboard => snd (EmptyClipboard E st)
  | call_SetClipboardData format data =>
      snd (SetClipboardData P E format data st)
  | call_GetClipboardData fuel format =>
      snd (GetClipboardData P E fuel format st)
  end.

(** ** A concrete platform for examples

    A 32-bit target.  The gdi32 stand-ins hand out fixed handle values and
    the code-page stand-ins widen and narrow Latin-1 text. *)

Fixpoint narrow (ws : list byte) : list byte :=
  match ws with
  | lo :: _ :: rest => lo :: narrow rest
  | _ => []
  end.

Definition sample_platform : Platform :=
  {| ptr_size := 4;
     GetObjectW := fun _ => None;
     GetBitmapBits := fun _ _ => [];
     CreateBitmapIndirect := fun _ _ => 4660;
     GetPaletteEntries := fun _ => [];
     CreatePalette := fun _ => 4661;
     GetEnhMetaFileBits := fun _ => [];
     SetEnhMetaFileBits := fun _ => 4662;
     GetMetaFileBitsEx := fun _ => [];
     SetMetaFileBitsEx := fun _ => 4663;
     GetUserDefaultLCID := 1033;
     GetLocaleInfoW := fun _ _ => None;
     MultiByteToWideChar := fun _ bs => flat_map (fun b => [b; 0]) bs;
     WideCharToMultiByte := fun _ ws => narrow ws;
     convert_bitmap := fun _ _ => HNULL;
     convert_dib := fun _ _ _ => HNULL;
     convert_metafile := fun _ => HNULL;
     convert_enhmetafile := fun _ => HNULL |}.

(** A CF_BITMAP payload of three bytes: shorter than the header. *)
Definition short_bitmap_payload : list byte := [1; 2; 3].

(** A CF_BITMAP payload that is exactly one 24-byte header announcing one
    row of two bytes, with no pixel bytes after it. *)
Definition headless_bitmap_payload : list byte :=
  le_encode 4 0 ++ le_encode 4 1 ++ le_encode 4 1 ++ le_encode 4 2
    ++ le_encode 2 1 ++ le_encode 2 16 ++ le_encode 4 0.

(** A session opened by window 1 on an empty clipboard that nobody owns. *)
Definition fresh_session : state Arbiter.arbiter :=
  Arbiter.initial_state (Arbiter.mkArbiter [] 0 (Some 1) 0 0).

(** A session opened by window 1 while window 9 owns a text entry. *)
Definition owned_session : state Arbiter.arbiter :=
  mkState true (<[1%nat := 13]> no_synthesized_formats)
    (Arbiter.mkArbiter [(13, [104; 0; 105; 0; 0; 0])] 9 (Some 1) 0 4) [].

(** A client with a stale flag and table in front of a closed clipboard that
    nobody owns. *)
Definition stale_client : state Arbiter.arbiter :=
  mkState true (<[1%nat := 13]> no_synthesized_formats)
    (Arbiter.mkArbiter [] 0 None 0 0) [].

(** Window 1 holds the session, window 9 owns a text entry and does not
    answer; the client's flag is clear. *)
Definition unanswered_owner : state Arbiter.arbiter :=
  mkState false no_synthesized_formats
    (Arbiter.mkArbiter [(13, [104; 0; 105; 0; 0; 0])] 9 (Some 1) 0 4) [].

(** Window 1 holds the session; window 9 has announced a text format that it
    never renders. *)
Definition announced_text : state Arbiter.arbiter :=
  Arbiter.initial_state (Arbiter.mkArbiter [(1, [])] 9 (Some 1) 0 1).

(** Window 1 holds the session; the stored CF_BITMAP entry is three bytes. *)
Definition short_bitmap_session : state Arbiter.arbiter :=
  Arbiter.initial_state
    (Arbiter.mkArbiter [(2, short_bitmap_payload)] 9 (Some 1) 0 1).

(** A session from end to end: window 1 opens and empties an unowned
    clipboard, stores the two letters h and i as CF_UNICODETEXT and closes;
    window 2 then opens. *)

Definition text_session : list call :=
  [call_OpenClipboard 1; call_EmptyClipboard;
   call_SetClipboardData CF_UNICODETEXT (HGLOBAL [104; 0; 105; 0; 0; 0]);
   call_CloseClipboard; call_OpenClipboard 2].

Definition after_text_session : state Arbiter.arbiter :=
  fold_left (fun s c => run_call sample_platform Arbiter.quiet_env c s)
    text_session (Arbiter.initial_state (Arbiter.mkArbiter [] 0 None 0 0)).

(** ** More of clipboard.c: CountClipboardFormats, GetPriorityClipboardFormat *)

Section Priority.

Context {World : Type} (E : Env World).

(** The request carries no format (the request block is zeroed), and the
    count is returned whatever the status. *)
Definition CountClipboardFormats : M (World:=World) Z :=
  bind (driver_update E) (fun _ =>
  bind (extern (ev_get_clipboard_formats 0) (get_clipboard_formats E 0))
       (fun r => let '(_, count) := r in ret (sint32 count))).

(** The [for] loop of GetPriorityClipboardFormat over the entries still to
    be tried. *)
Fixpoint priority_scan (list : list Z) : M (World:=World) Z :=
  match list with
  | [] => ret (-1)
  | format :: rest =>
      bind (IsClipboardFormatAvailable E format) (fun available =>
      if available then ret (sint32 format) else priority_scan rest)
  end.

(** [list] holds at least [nCount] entries. *)
Definition GetPriorityClipboardFormat (list : list Z) (nCount : Z)
  : M (World:=World) Z :=
  bind CountClipboardFormats (fun count =>
  if count =? 0 then ret 0
  else priority_scan (take (Z.to_nat nCount) list)).

End Priority.

(** ** More of clipboard.c: render_synthesized_dib

    The body of the conversion that [convert_dib] stands for in
    [render_synthesized_format].  bitmap_info_size and GetDIBits are gdi32's
    and stay oracles; the sizes are those of wingdi.h. *)

Record DibOracle := {
  bitmap_info_size : list byte -> Z;
  GetDIBits_header : Z -> list byte -> option (list byte);
  GetDIBits_bits : Z -> Z -> list byte -> Z -> list byte
}.

Definition sizeof_BITMAPINFOHEADER : Z := 40.
Definition sizeof_BITMAPINFO : Z := 44.
Definition sizeof_BITMAPV5HEADER : Z := 124.
Definition BI_BITFIELDS : Z := 3.

(** [offsetof( BITMAPINFO, bmiColors[n] )] *)
Definition offsetof_bmiColors (n : Z) : Z := sizeof_BITMAPINFOHEADER + 4 * n.

Definition render_synthesized_dib (D : DibOracle) (data : HANDLE)
    (format from : UINT) : HANDLE :=
  if from =? CF_BITMAP then
    let header0 :=
      store 0 4
        (if format =? CF_DIBV5 then sizeof_BITMAPV5HEADER
         else sizeof_BITMAPINFOHEADER)
        (replicate (Z.to_nat sizeof_BITMAPV5HEADER) 0) in
    match GetDIBits_header D (gdi_obj data) header0 with
    | None => HNULL
    | Some header =>
        let header_size := wrap32 (bitmap_info_size D header) in
        let total := wrap32 (header_size + load 20 4 header) in
        let copied := bytes_at header (load 0 4 header) in
        let bmi :=
          bytes_at
            (copied ++ drop (length copied)
                         (replicate (Z.to_nat header_size) 0))
            total in
        HGLOBAL
          (bytes_at
             (GetDIBits_bits D (gdi_obj data)
                (c_abs (sint32 (load 8 4 header))) bmi header_size)
             total)
    end
  else
    let size := GlobalSize data in
    if size <? sizeof_BITMAPINFO then HNULL
    else
      match GlobalLock data with
      | None => HNULL
      | Some src =>
          let src_size := wrap32 (bitmap_info_size D src) in
          if size <=? src_size then HNULL
          else
            let bits_size := wrap32 (size - src_size) in
            let header_size :=
              if format =? CF_DIBV5 then sizeof_BITMAPV5HEADER
              else offsetof_bmiColors
                     (if load 16 4 src =? BI_BITFIELDS then 3 else 0) in
            let bmi :=
              store 0 4 header_size
                (bytes_at (bytes_at src (Z.min header_size src_size))
                   header_size) in
            HGLOBAL
              (bytes_at (bmi ++ bytes_at (drop (Z.to_nat src_size) src)
                                  bits_size)
                 (wrap32 (header_size + bits_size)))
      end.

(** ** More vocabulary *)

Definition is_write (e : event) : bool :=
  match e with ev_set_clipboard_data _ _ => true | _ => false end.

(** The set_clipboard_data requests of a trace, in order. *)
Definition writes (t : list event) : list event := List.filter is_write t.

(** The events a plain read of [format] may produce. *)
Definition is_read_event (format : UINT) (e : event) : bool :=
  match e with
  | ev_get_clipboard_data f _ => f =? format
  | ev_SendMessage _ msg wparam =>
      (msg =? WM_RENDERFORMAT) && (wparam =? format)
  | _ => false
  end.

(** The formats render_synthesized_format has a case for. *)
Definition synthesizable (format : UINT) : bool :=
  (format =? CF_TEXT) || (format =? CF_OEMTEXT) || (format =? CF_UNICODETEXT)
  || (format =? CF_BITMAP) || (format =? CF_DIB) || (format =? CF_DIBV5)
  || (format =? CF_METAFILEPICT) || (format =? CF_ENHMETAFILE).

Definition marks_synthesizable (tbl : list Z) : Prop :=
  forall f, 0 <= f -> synthesized_from tbl f <> 0 -> synthesizable f = true.

Fixpoint synthesizable_check (i : Z) (tbl : list Z) : bool :=
  match tbl with
  | [] => true
  | from :: rest =>
      ((from =? 0) || synthesizable i) && synthesizable_check (i + 1) rest
  end.

(** What IsClipboardFormatAvailable answers on a given world. *)
Definition available_in {World : Type} (E : Env World) (w : World)
    (format : UINT) : bool :=
  negb (format =? 0)
  && (let '(status, count, _) :=
        get_clipboard_formats E format (pUpdateClipboard E w) in
      (status =? 0) && (0 <? count)).


(** The row stride marshal_data uses: the bits of a row rounded up to a
    multiple of two bytes. *)
Definition bitmap_stride (bm : BITMAP) : Z :=
  2 * ((bmWidth bm * bmBitsPixel bm + 15) / 16).

(** A platform with a few gdi32 objects: bitmap 7 (3 by 2 pixels of 4 bits,
    top-down), the same bitmap as DIB section 8, palette 9, enhanced
    metafile 10 and metafile 11. *)
Definition sample_bitmap : BITMAP :=
  {| bmType := 0; bmWidth := 3; bmHeight := -2; bmWidthBytes := 2;
     bmPlanes := 1; bmBitsPixel := 4; bmBits := 0 |}.

Definition sample_dib_section : BITMAP :=
  {| bmType := 0; bmWidth := 3; bmHeight := -2; bmWidthBytes := 2;
     bmPlanes := 1; bmBitsPixel := 4; bmBits := 4096 |}.

Definition gdi_platform : Platform :=
  {| ptr_size := 4;
     GetObjectW := fun obj =>
       if obj =? 7 then Some sample_bitmap
       else if obj =? 8 then Some sample_dib_section else None;
     GetBitmapBits := fun _ _ => [18; 48; 69; 96];
     CreateBitmapIndirect := fun _ _ => 4660;
     GetPaletteEntries := fun obj =>
       if obj =? 9 then [255; 65280; 16711680] else [];
     CreatePalette := fun _ => 4661;
     GetEnhMetaFileBits := fun obj => if obj =? 10 then [1; 0; 0; 0] else [];
     SetEnhMetaFileBits := fun _ => 4662;
     GetMetaFileBitsEx := fun obj => if obj =? 11 then [1; 0; 9; 0] else [];
     SetMetaFileBitsEx := fun _ => 4663;
     GetUserDefaultLCID := 1033;
     GetLocaleInfoW := fun _ _ => None;
     MultiByteToWideChar := fun _ bs => flat_map (fun b => [b; 0]) bs;
     WideCharToMultiByte := fun _ ws => narrow ws;
     convert_bitmap := fun _ _ => HNULL;
     convert_dib := fun _ _ _ => HNULL;
     convert_metafile := fun _ => HNULL;
     convert_enhmetafile := fun _ => HNULL |}.


(** Window 1 holds the session; the directory has a CF_DIB entry only. *)
Definition dib_session : state Arbiter.arbiter :=
  Arbiter.initial_state
    (Arbiter.mkArbiter [(8, [40; 0; 0; 0])] 1 (Some 1) 0 2).

(** Window 1 holds the session; the directory has a CF_ENHMETAFILE entry
    only. *)
Definition emf_session : state Arbiter.arbiter :=
  Arbiter.initial_state
    (Arbiter.mkArbiter [(14, [1; 0; 0; 0])] 1 (Some 1) 0 2).

(** ** Vocabulary for traces and frames *)

(** Every run of [c] relates the state it starts in to the state it ends
    in. *)
Definition keeps {World A : Type} (R : state World -> state World -> Prop)
    (c : state World -> A * state World) : Prop :=
  forall st, R st (snd (c st)).

(** [st'] continues the trace of [st] with events that all satisfy [p]. *)
Definition emits {World : Type} (p : event -> bool)
    (st st' : state World) : Prop :=
  exists t, trace st' = trace st ++ t /\ forallb p t = true.

(** A flag that is set stays set. *)
Definition flag_stays {World : Type} (st st' : state World) : Prop :=
  bCBHasChanged st = true -> bCBHasChanged st' = true.

(** The events CloseClipboard may cause: availability queries, announcements
    with no data of formats that can be synthesized, the locale entry, the
    close request and the notification of the viewer. *)
Definition close_event (P : Platform) (e : event) : bool :=
  match e with
  | ev_UpdateClipboard => true
  | ev_close_clipboard => true
  | ev_get_clipboard_formats _ => true
  | ev_set_clipboard_data format data =>
      (synthesizable format && bool_decide (data = []))
      || ((format =? CF_LOCALE)
          && bool_decide (data = le_encode 4 (GetUserDefaultLCID P)))
  | ev_SendMessage _ msg _ => msg =? WM_DRAWCLIPBOARD
  | _ => false
  end.

(** The events a read of an unmarked [format] may cause. *)
Definition read_event (format : UINT) (e : event) : bool :=
  match e with
  | ev_get_clipboard_data f _ => f =? format
  | ev_SendMessage _ msg wparam =>
      (msg =? WM_RENDERFORMAT) && (wparam =? format)
  | _ => false
  end.

Definition is_get_request (e : event) : bool :=
  match e with ev_get_clipboard_data _ _ => true | _ => false end.


(** Window 1 holds the session; the stored CF_UNICODETEXT entry is 1100
    bytes long, more than the 1024 a first request offers. *)
Definition large_text_session : state Arbiter.arbiter :=
  Arbiter.initial_state
    (Arbiter.mkArbiter [(13, replicate 1100 65)] 9 (Some 1) 0 1).

(** A gdi32 stand-in whose headers carry no colour table, and a DIB with a
    40-byte header and four bytes of pixels. *)
Definition sample_dib_oracle : DibOracle :=
  {| bitmap_info_size := fun bmi => load 0 4 bmi;
     GetDIBits_header := fun _ _ => None;
     GetDIBits_bits := fun _ _ bmi _ => bmi |}.

Definition sample_dib : list byte :=
  le_encode 4 40 ++ replicate 36 0 ++ [1; 2; 3; 4].

(** A reader on a machine whose own locale is 1036, in front of a session
    (held by window 1) whose CF_LOCALE entry was stored by a writer with
    locale 1033. *)
Definition french_reader : Platform :=
  {| ptr_size := 4;
     GetObjectW := fun _ => None;
     GetBitmapBits := fun _ _ => [];
     CreateBitmapIndirect := fun _ _ => 4660;
     GetPaletteEntries := fun _ => [];
     CreatePalette := fun _ => 4661;
     GetEnhMetaFileBits := fun _ => [];
     SetEnhMetaFileBits := fun _ => 4662;
     GetMetaFileBitsEx := fun _ => [];
     SetMetaFileBitsEx := fun _ => 4663;
     GetUserDefaultLCID := 1036;
     GetLocaleInfoW := fun _ _ => None;
     MultiByteToWideChar := fun _ bs => flat_map (fun b => [b; 0]) bs;
     WideCharToMultiByte := fun _ ws => narrow ws;
     convert_bitmap := fun _ _ => HNULL;
     convert_dib := fun _ _ _ => HNULL;
     convert_metafile := fun _ => HNULL;
     convert_enhmetafile := fun _ => HNULL |}.

Definition locale_session : state Arbiter.arbiter :=
  Arbiter.initial_state
    (Arbiter.mkArbiter [(16, [9; 4; 0; 0])] 9 (Some 1) 0 1).

(** The state in which CloseClipboard sends its request: the state it was
    called in when the changed-flag is clear, and the state the synthesis
    pass leaves when it is set. *)
Definition close_pass (P : Platform) {World : Type} (E : Env World)
    (st : state World) : state World :=
  snd ((if bCBHasChanged st then
          bind (set_synthesized_formats no_synthesized_formats) (fun _ =>
          bind (add_synthesized_text P E) (fun _ =>
          bind (add_synthesized_bitmap P E) (fun _ =>
          add_synthesized_metafile P E)))
        else ret tt) st).

(** Window 1 holds the session; the stored CF_BITMAP entry is the header of
    a DIB section (bmBits set) followed by 1100 bytes, more than the 1024 a
    first request offers. *)
Definition large_dib_section_payload : list byte :=
  le_encode 4 0 ++ le_encode 4 3 ++ le_encode 4 (-2) ++ le_encode 4 2
    ++ le_encode 2 1 ++ le_encode 2 4 ++ le_encode 4 4096
    ++ replicate 1100 7.

Definition large_dib_section_session : state Arbiter.arbiter :=
  Arbiter.initial_state
    (Arbiter.mkArbiter [(2, large_dib_section_payload)] 9 (Some 1) 0 1).

(** The window holding the session is the same in both states. *)
Definition same_opener (st st' : state Arbiter.arbiter) : Prop :=
  Arbiter.arb_opener (world st') = Arbiter.arb_opener (world st).

(** Window 1 holds the session; the stored CF_UNICODETEXT entry is a single
    byte, less than one character, and CF_TEXT is marked as synthesized from
    it. *)
Definition odd_text_session : state Arbiter.arbiter :=
  mkState true (<[1%nat := 13]> no_synthesized_formats)
    (Arbiter.mkArbiter [(13, [104]); (1, [])] 1 (Some 1) 0 4) [].





(** Both states see the same directory. *)
Definition same_directory (st st' : state Arbiter.arbiter) : Prop :=
  Arbiter.arb_directory (world st') = Arbiter.arb_directory (world st).

(** Unfolds the monad and projects the records that appear. *)
Ltac run_monad :=
  repeat
    (progress
       (unfold bind, ret, when, extern, emit, send_message, driver_update,
          get_state, set_bCBHasChanged, set_synthesized_formats in *;
        cbn [fst snd world trace bCBHasChanged synthesized_formats Z.eqb
             negb andb] in *)).

(** ** Properties of the codec layer *)

Example sizeof_BITMAP_32 : sizeof_BITMAP sample_platform = 24.
Proof. reflexivity. Qed.

Example sizeof_METAFILEPICT_32 : sizeof_METAFILEPICT sample_platform = 16.
Proof. reflexivity. Qed.

Example decode_headless_bitmap :
  decode_BITMAP sample_platform headless_bitmap_payload
  = {| bmType := 0; bmWidth := 1; bmHeight := 1; bmWidthBytes := 2;
       bmPlanes := 1; bmBitsPixel := 16; bmBits := 0 |}.
Proof. reflexivity. Qed.

Section CodecFacts.

Context (P : Platform).

Lemma unmarshal_data_realloc format data size :
  unmarshal_data P format (GlobalReAlloc data size) size
  = unmarshal_data P format data size.
Proof.
  unfold unmarshal_data.
  assert (Hidem : GlobalReAlloc (GlobalReAlloc data size) size
                  = GlobalReAlloc data size).
  { unfold GlobalReAlloc. apply resize_idemp. }
  rewrite Hidem. reflexivity.
Qed.


End CodecFacts.

(** C1 (as amended).  A CF_BITMAP payload whose received size is smaller than
    the BITMAP header, or smaller than the stride times |height| bit-buffer
    size, or whose bmBits field is set, is never turned into a bitmap:
    [unmarshal_data] returns the received bytes as a plain memory handle, and
    that handle is not NULL. *)
Theorem unmarshal_bitmap_rejected (P : Platform) (data : list byte) (size : Z) :
  size < sizeof_BITMAP P
  \/ size < bitmap_bits_size (decode_BITMAP P (GlobalReAlloc data size))
  \/ bmBits (decode_BITMAP P (GlobalReAlloc data size)) <> 0 ->
  unmarshal_data P CF_BITMAP data size = HGLOBAL (GlobalReAlloc data size).
Proof.
  intros H. unfold unmarshal_data. rewrite Z.eqb_refl.
  destruct (Z.ltb_spec size (sizeof_BITMAP P)) as [Hs|Hs]; [reflexivity|].
  destruct (Z.ltb_spec size
              (bitmap_bits_size (decode_BITMAP P (GlobalReAlloc data size))))
    as [Hb|Hb]; [reflexivity|].
  destruct (Z.eqb_spec
              (bmBits (decode_BITMAP P (GlobalReAlloc data size))) 0)
    as [Hz|Hz]; [|reflexivity].
  exfalso. destruct H as [H|[H|H]]; [lia|lia|congruence].
Qed.

Lemma unmarshal_bitmap_rejected_witness :
  unmarshal_data sample_platform CF_BITMAP short_bitmap_payload 3
  = HGLOBAL short_bitmap_payload.
Proof.
  apply (unmarshal_bitmap_rejected sample_platform short_bitmap_payload 3).
  left. vm_compute. reflexivity.
Defined.

(** C1 as stated fails twice.  The three-byte payload is below the header
    size, yet the result is a memory handle, not a failure.  The header-only
    payload is shorter than header plus stride times height (24 < 24 + 2) and
    has no bmBits, yet it reaches CreateBitmapIndirect. *)
Lemma unmarshal_bitmap_counterexample :
  (3 < sizeof_BITMAP sample_platform
   /\ unmarshal_data sample_platform CF_BITMAP short_bitmap_payload 3
      = HGLOBAL [1; 2; 3])
  /\ (let bm := decode_BITMAP sample_platform headless_bitmap_payload in
      24 < sizeof_BITMAP sample_platform + bmWidthBytes bm * Z.abs (bmHeight bm)
      /\ bmBits bm = 0
      /\ unmarshal_data sample_platform CF_BITMAP headless_bitmap_payload 24
         = HGDI 4660).
Proof. vm_compute. repeat split; reflexivity. Qed.

(** ** Properties of the session layer, for every environment *)

Section ClientFacts.

Context (P : Platform) {World : Type} (E : Env World).

Lemma table_ok_none : table_ok no_synthesized_formats.
Proof. reflexivity. Qed.


Lemma synthesized_from_insert_eq tbl format v :
  table_ok tbl -> 0 <= format < CF_MAX ->
  synthesized_from (<[Z.to_nat format := v]> tbl) format = v.
Proof.
  unfold table_ok, synthesized_from. intros Hlen Hf.
  rewrite list_lookup_insert_eq; [reflexivity|].
  rewrite Hlen. apply Z2Nat.inj_lt; lia.
Qed.

Lemma synthesized_from_insert_ne tbl f g v :
  0 <= f -> 0 <= g -> f <> g ->
  synthesized_from (<[Z.to_nat f := v]> tbl) g = synthesized_from tbl g.
Proof.
  unfold synthesized_from. intros Hf Hg Hne.
  rewrite list_lookup_insert_ne; [reflexivity|].
  intros Heq. apply Hne. apply Z2Nat.inj; assumption.
Qed.


(** *** SetClipboardData *)

Lemma SetClipboardData_request_eq format data ptr size st :
  SetClipboardData_request E format data ptr size st
  = (if fst (set_clipboard_data E format (bytes_at ptr size) (world st)) =? 0
     then data else HNULL,
     after_set_request E format (bytes_at ptr size) st).
Proof.
  unfold SetClipboardData_request, after_set_request, bind, extern,
    set_bCBHasChanged, get_state, set_synthesized_formats, ret.
  destruct (set_clipboard_data E format (bytes_at ptr size) (world st))
    as [status w].
  simpl. destruct (status =? 0); simpl; [|reflexivity].
  destruct (format <? CF_MAX); reflexivity.
Qed.

Lemma SetClipboardData_null_eq format st :
  SetClipboardData P E format HNULL st
  = (HNULL, after_set_request E format [] st).
Proof.
  unfold SetClipboardData. simpl. rewrite SetClipboardData_request_eq.
  change (bytes_at [] 0) with (@nil byte).
  destruct (fst (set_clipboard_data E format [] (world st)) =? 0);
    reflexivity.
Qed.

Lemma SetClipboardData_cases format data st :
  SetClipboardData P E format data st = (HNULL, st)
  \/ exists payload,
       SetClipboardData P E format data st
       = (if fst (set_clipboard_data E format payload (world st)) =? 0
          then data else HNULL,
          after_set_request E format payload st).
Proof.
  unfold SetClipboardData. destruct (is_null data) eqn:Hd.
  - right. exists (bytes_at [] 0). destruct data; try discriminate.
    apply SetClipboardData_request_eq.
  - destruct (marshal_data P format data) as [handle size].
    destruct (is_null handle); [left; reflexivity|].
    destruct (GlobalLock handle) as [ptr|]; [|left; reflexivity].
    right. exists (bytes_at ptr size). apply SetClipboardData_request_eq.
Qed.

Lemma SetClipboardData_no_marshal format data st :
  data <> HNULL ->
  fst (marshal_data P format data) = HNULL ->
  SetClipboardData P E format data st = (HNULL, st).
Proof.
  intros Hdata Hfail. unfold SetClipboardData.
  destruct data as [|mem|obj]; [congruence| |];
    simpl is_null; cbv iota;
    destruct (marshal_data P format _) as [handle size];
    simpl in Hfail; subst handle; reflexivity.
Qed.

End ClientFacts.

(** C7.  When the marshal step of [SetClipboardData] fails, the call returns
    NULL and the state is the one it started from: no request was added to
    the trace, the world is untouched, and the changed-flag and the synthesis
    table are unchanged. *)
Theorem SetClipboardData_marshal_failure (P : Platform) {World : Type}
    (E : Env World) (format : UINT) (data : HANDLE) (st : state World) :
  data <> HNULL ->
  fst (marshal_data P format data) = HNULL ->
  SetClipboardData P E format data st = (HNULL, st).
Proof.
  intros Hdata Hfail. apply SetClipboardData_no_marshal; assumption.
Qed.

Lemma SetClipboardData_marshal_failure_witness :
  SetClipboardData sample_platform Arbiter.quiet_env CF_BITMAP (HGDI 7)
    fresh_session
  = (HNULL, fresh_session).
Proof.
  apply SetClipboardData_marshal_failure; [discriminate|reflexivity].
Defined.

(** C10.  [SetClipboardData] with a NULL handle never consults the codec
    layer (the outcome is the same on every platform), sends exactly one
    set_clipboard_data request with an empty payload, sets the changed-flag
    when the server accepts it, and returns NULL in every case. *)
Theorem SetClipboardData_null_handle (P P' : Platform) {World : Type}
    (E : Env World) (format : UINT) (st : state World) :
  let reply := set_clipboard_data E format [] (world st) in
  let r := SetClipboardData P E format HNULL st in
  fst r = HNULL
  /\ SetClipboardData P' E format HNULL st = r
  /\ trace (snd r) = trace st ++ [ev_set_clipboard_data format []]
  /\ world (snd r) = snd reply
  /\ bCBHasChanged (snd r)
     = (if fst reply =? 0 then true else bCBHasChanged st).
Proof.
  cbv zeta. rewrite !SetClipboardData_null_eq. unfold after_set_request.
  destruct (set_clipboard_data E format [] (world st)) as [status w].
  simpl. repeat split; reflexivity.
Qed.

(** ** The request loop of GetClipboardData *)

Lemma count_events_app p t1 t2 :
  count_events p (t1 ++ t2) = (count_events p t1 + count_events p t2)%nat.
Proof. induction t1 as [|e t1 IH]; simpl; [reflexivity|]. rewrite IH. lia. Qed.

Section LoopFacts.

Context (P : Platform) {World : Type} (E : Env World).

(** One turn of the loop, with the monad unfolded. *)
Lemma GetClipboardData_loop_step fuel format size render st :
  GetClipboardData_loop P E (S fuel) format size render st
  = let reply := fst (get_clipboard_data E format size (world st)) in
    let st1 := logged (ev_get_clipboard_data format size)
                 (snd (get_clipboard_data E format size (world st))) st in
    if (get_status reply =? 0) && negb (get_total reply =? 0) then
      (Done (unmarshal_data P format (bytes_at (get_data reply) size)
               (get_total reply)), st1)
    else if get_status reply =? STATUS_BUFFER_OVERFLOW then
      GetClipboardData_loop P E fuel format (get_total reply) render st1
    else if negb (get_status reply =? 0) then (Done HNULL, st1)
    else if render && negb (get_owner reply =? 0) then
      GetClipboardData_loop P E fuel format (get_total reply) false
        (logged (ev_SendMessage (get_owner reply) WM_RENDERFORMAT format)
           (SendMessageW E (get_owner reply) WM_RENDERFORMAT format
              (world st1)) st1)
    else (Done HNULL, st1).
Proof.
  cbn [GetClipboardData_loop]. unfold bind, extern, logged, send_message, ret.
  destruct (get_clipboard_data E format size (world st)) as [reply w].
  cbn [fst snd]. cbv zeta.
  destruct ((get_status reply =? 0) && negb (get_total reply =? 0));
    [reflexivity|].
  destruct (get_status reply =? STATUS_BUFFER_OVERFLOW); [reflexivity|].
  destruct (negb (get_status reply =? 0)); [reflexivity|].
  destruct (render && negb (get_owner reply =? 0)); reflexivity.
Qed.

Lemma count_events_logged p e (w : World) st :
  count_events p (trace (logged e w st))
  = (count_events p (trace st) + (if p e then 1 else 0))%nat.
Proof. unfold logged. simpl. rewrite count_events_app. simpl. lia. Qed.

(** The loop touches neither global, performs no conversion, and sends
    WM_RENDERFORMAT only while [render] is still set. *)
Lemma GetClipboardData_loop_frame fuel : forall format size render st,
  let st' := snd (GetClipboardData_loop P E fuel format size render st) in
  bCBHasChanged st' = bCBHasChanged st
  /\ synthesized_formats st' = synthesized_formats st
  /\ count_events is_convert (trace st') = count_events is_convert (trace st)
  /\ (count_events is_render_request (trace st')
      <= count_events is_render_request (trace st)
         + (if render then 1 else 0))%nat.
Proof.
  induction fuel as [|fuel IH]; intros format size render st; cbv zeta.
  - simpl. repeat split; try reflexivity; try lia; destruct render; lia.
  - rewrite GetClipboardData_loop_step. cbv zeta.
    set (reply := fst (get_clipboard_data E format size (world st))).
    set (st1 := logged _ _ st).
    assert (Hc1 : count_events is_convert (trace st1)
                  = count_events is_convert (trace st)).
    { unfold st1. rewrite count_events_logged. simpl. lia. }
    assert (Hr1 : count_events is_render_request (trace st1)
                  = count_events is_render_request (trace st)).
    { unfold st1. rewrite count_events_logged. simpl. lia. }
    destruct ((get_status reply =? 0) && negb (get_total reply =? 0)).
    { cbn [snd]. repeat split; try reflexivity; try lia;
        destruct render; lia. }
    destruct (get_status reply =? STATUS_BUFFER_OVERFLOW).
    { destruct (IH format (get_total reply) render st1) as (H1 & H2 & H3 & H4).
      repeat split; [exact H1|exact H2|lia|].
      rewrite <- Hr1. exact H4. }
    destruct (negb (get_status reply =? 0)).
    { cbn [snd]. repeat split; try reflexivity; try lia;
        destruct render; lia. }
    destruct (render && negb (get_owner reply =? 0)) eqn:Hrender.
    { set (st2 := logged _ _ st1).
      destruct (IH format (get_total reply) false st2) as (H1 & H2 & H3 & H4).
      assert (Hc2 : count_events is_convert (trace st2)
                    = count_events is_convert (trace st)).
      { unfold st2. rewrite count_events_logged, Hc1. cbn [is_convert]. lia. }
      assert (Hr2 : count_events is_render_request (trace st2)
                    = S (count_events is_render_request (trace st))).
      { unfold st2. rewrite count_events_logged, Hr1.
        cbn [is_render_request]. rewrite Z.eqb_refl. lia. }
      destruct render; [|discriminate].
      rewrite Hr2 in H4. cbv iota in H4.
      repeat split; [exact H1|exact H2|lia|lia]. }
    cbn [snd]. repeat split; try reflexivity; try lia;
      destruct render; lia.
Qed.

Lemma GetClipboardData_not_synthesized fuel format st :
  CF_MAX <= format \/ synthesized_from (synthesized_formats st) format = 0 ->
  GetClipboardData P E (S fuel) format st
  = GetClipboardData_loop P E fuel format 1024 true st.
Proof.
  intros H. cbn [GetClipboardData]. unfold bind, get_state.
  destruct H as [H|H].
  - destruct (Z.ltb_spec format CF_MAX); [lia|]. reflexivity.
  - rewrite H. rewrite andb_false_r. reflexivity.
Qed.

End LoopFacts.

(** ** OpenClipboard and EmptyClipboard *)

(** C5.  When [OpenClipboard] succeeds, the changed-flag and the synthesis
    table are reset exactly when the server reports no prior owner; with a
    prior owner both are left as they were.  Either way the client has only
    run the driver update and the open_clipboard request, so it has sent
    nothing that alters the directory. *)
Theorem OpenClipboard_reset_boundary {World : Type} (E : Env World)
    (hwnd : HWND) (st st' : state World) :
  OpenClipboard E hwnd st = (true, st') ->
  let reply := open_clipboard E hwnd (pUpdateClipboard E (world st)) in
  let prior_owner := snd (fst reply) in
  (prior_owner = 0 ->
   bCBHasChanged st' = false
   /\ synthesized_formats st' = no_synthesized_formats)
  /\ (prior_owner <> 0 ->
      bCBHasChanged st' = bCBHasChanged st
      /\ synthesized_formats st' = synthesized_formats st)
  /\ trace st' = trace st ++ [ev_UpdateClipboard; ev_open_clipboard hwnd]
  /\ world st' = snd reply.
Proof.
  unfold OpenClipboard, bind, driver_update, extern, ret,
    set_bCBHasChanged, set_synthesized_formats.
  cbn [world trace bCBHasChanged synthesized_formats].
  destruct (open_clipboard E hwnd (pUpdateClipboard E (world st)))
    as [[status owner] w].
  cbn [fst snd]. intros H.
  destruct (status =? 0); [|discriminate].
  destruct (Z.eqb_spec owner 0) as [Ho|Ho]; inversion H; subst st'; clear H;
    cbn [world trace bCBHasChanged synthesized_formats];
    rewrite <- app_assoc; repeat split; try reflexivity; intros; congruence.
Qed.

Lemma OpenClipboard_reset_boundary_witness :
  bCBHasChanged (snd (OpenClipboard Arbiter.quiet_env 1 stale_client)) = false
  /\ synthesized_formats (snd (OpenClipboard Arbiter.quiet_env 1 stale_client))
     = no_synthesized_formats.
Proof.
  assert (H : OpenClipboard Arbiter.quiet_env 1 stale_client
              = (true, snd (OpenClipboard Arbiter.quiet_env 1 stale_client)))
    by reflexivity.
  exact (proj1 (OpenClipboard_reset_boundary Arbiter.quiet_env 1 _ _ H)
           eq_refl).
Defined.

(** A failed [OpenClipboard] leaves both globals alone. *)
Lemma OpenClipboard_failure {World : Type} (E : Env World)
    (hwnd : HWND) (st st' : state World) :
  OpenClipboard E hwnd st = (false, st') ->
  bCBHasChanged st' = bCBHasChanged st
  /\ synthesized_formats st' = synthesized_formats st.
Proof.
  unfold OpenClipboard, bind, driver_update, extern, ret,
    set_bCBHasChanged, set_synthesized_formats.
  cbn [world trace bCBHasChanged synthesized_formats].
  destruct (open_clipboard E hwnd (pUpdateClipboard E (world st)))
    as [[status owner] w].
  intros H. destruct (status =? 0).
  - destruct (owner =? 0); discriminate.
  - inversion H. split; reflexivity.
Qed.

(** The arbiter's [open] does not touch the directory. *)
Lemma arb_open_directory hwnd a :
  Arbiter.arb_directory (snd (Arbiter.arb_open hwnd a))
  = Arbiter.arb_directory a.
Proof. unfold Arbiter.arb_open. destruct (Arbiter.arb_opener a); reflexivity. Qed.

(** C3 (as amended).  After a successful [EmptyClipboard] the synthesis
    table is cleared and the changed-flag is set, the arbiter's directory is
    empty and the window holding the session is the owner, whatever the
    previous owner did with WM_DESTROYCLIPBOARD. *)
Theorem EmptyClipboard_success
    (driver : Arbiter.arbiter -> Arbiter.arbiter)
    (wndproc : HWND -> UINT -> Z -> Arbiter.arbiter -> Arbiter.arbiter)
    (st st' : state Arbiter.arbiter) :
  EmptyClipboard (Arbiter.arbiter_env driver wndproc) st = (true, st') ->
  bCBHasChanged st' = true
  /\ synthesized_formats st' = no_synthesized_formats
  /\ Arbiter.arb_directory (world st') = []
  /\ Arbiter.arb_opener (world st') = Some (Arbiter.arb_owner (world st')).
Proof.
  unfold EmptyClipboard, GetClipboardOwner. run_monad.
  cbn [get_clipboard_info empty_clipboard SendMessageW Arbiter.arbiter_env
       Arbiter.arb_info]. run_monad.
  destruct (negb (Arbiter.arb_owner (world st) =? 0)); run_monad;
    unfold Arbiter.arb_empty;
    match goal with
    | |- context [Arbiter.arb_opener ?a] =>
        destruct (Arbiter.arb_opener a) as [hwnd|]
    end;
    run_monad; intros H; inversion H; subst;
    repeat split; reflexivity.
Qed.

Lemma EmptyClipboard_success_witness :
  bCBHasChanged (snd (EmptyClipboard Arbiter.quiet_env unanswered_owner))
  = true
  /\ Arbiter.arb_directory
       (world (snd (EmptyClipboard Arbiter.quiet_env unanswered_owner)))
     = [].
Proof.
  assert (H : EmptyClipboard Arbiter.quiet_env unanswered_owner
              = (true,
                 snd (EmptyClipboard Arbiter.quiet_env unanswered_owner)))
    by reflexivity.
  destruct (EmptyClipboard_success _ _ _ _ H) as (Hflag & _ & Hdir & _).
  exact (conj Hflag Hdir).
Defined.

(** C3 as stated fails: the call succeeds and leaves the changed-flag set,
    although it was clear before. *)
Lemma EmptyClipboard_counterexample :
  bCBHasChanged unanswered_owner = false
  /\ fst (EmptyClipboard Arbiter.quiet_env unanswered_owner) = true
  /\ bCBHasChanged (snd (EmptyClipboard Arbiter.quiet_env unanswered_owner))
     <> false.
Proof. vm_compute. repeat split; discriminate. Qed.

(** ** The render handoff *)

(** C8.  A [GetClipboardData] on a format that is not marked as synthesized
    sends WM_RENDERFORMAT at most once, however long it runs.  When the
    server reports no data and no owner it returns NULL after that single
    request; when it reports an owner and, once the owner has been asked,
    still no data, it returns NULL after the second request without asking
    again; when it reports an error other than a short buffer it returns
    NULL at once. *)
Theorem GetClipboardData_render_handoff (P : Platform) {World : Type}
    (E : Env World) (fuel : nat) (format : UINT) (st : state World) :
  CF_MAX <= format \/ synthesized_from (synthesized_formats st) format = 0 ->
  let reply := fst (get_clipboard_data E format 1024 (world st)) in
  let st1 :=
    logged (ev_get_clipboard_data format 1024)
      (snd (get_clipboard_data E format 1024 (world st))) st in
  let st2 :=
    logged (ev_SendMessage (get_owner reply) WM_RENDERFORMAT format)
      (SendMessageW E (get_owner reply) WM_RENDERFORMAT format (world st1))
      st1 in
  let reply2 := fst (get_clipboard_data E format 0 (world st2)) in
  let st3 :=
    logged (ev_get_clipboard_data format 0)
      (snd (get_clipboard_data E format 0 (world st2))) st2 in
  (count_events is_render_request
     (trace (snd (GetClipboardData P E fuel format st)))
   <= count_events is_render_request (trace st) + 1)%nat
  /\ (get_status reply = 0 -> get_total reply = 0 -> get_owner reply = 0 ->
      GetClipboardData P E (S (S fuel)) format st = (Done HNULL, st1))
  /\ (get_status reply = 0 -> get_total reply = 0 -> get_owner reply <> 0 ->
      get_status reply2 = 0 -> get_total reply2 = 0 ->
      GetClipboardData P E (S (S (S fuel))) format st = (Done HNULL, st3))
  /\ (get_status reply <> 0 -> get_status reply <> STATUS_BUFFER_OVERFLOW ->
      GetClipboardData P E (S (S fuel)) format st = (Done HNULL, st1)).
Proof.
  intros Hns reply st1 st2 reply2 st3. split; [|split; [|split]].
  - destruct fuel as [|fuel]; [simpl; lia|].
    rewrite GetClipboardData_not_synthesized by exact Hns.
    apply (GetClipboardData_loop_frame P E fuel format 1024 true st).
  - intros Hs Ht Ho.
    rewrite GetClipboardData_not_synthesized by exact Hns.
    rewrite GetClipboardData_loop_step. cbv zeta. fold reply. fold st1.
    rewrite Hs, Ht, Ho. reflexivity.
  - intros Hs Ht Ho Hs2 Ht2.
    rewrite GetClipboardData_not_synthesized by exact Hns.
    rewrite GetClipboardData_loop_step. cbv zeta.
    unfold st3, reply2, st2, st1, reply in *.
    rewrite Hs, Ht.
    change (0 =? STATUS_BUFFER_OVERFLOW) with false.
    change (0 =? 0) with true. cbn [andb negb].
    destruct (Z.eqb_spec
                (get_owner (fst (get_clipboard_data E format 1024 (world st))))
                0) as [|_]; [contradiction|].
    cbn [negb].
    rewrite GetClipboardData_loop_step. cbv zeta.
    rewrite Hs2, Ht2. reflexivity.
  - intros Hs Ho.
    rewrite GetClipboardData_not_synthesized by exact Hns.
    rewrite GetClipboardData_loop_step. cbv zeta. fold reply. fold st1.
    destruct (Z.eqb_spec (get_status reply) 0) as [|_]; [contradiction|].
    destruct (Z.eqb_spec (get_status reply) STATUS_BUFFER_OVERFLOW) as [|_];
      [contradiction|].
    reflexivity.
Qed.

Lemma GetClipboardData_render_handoff_witness :
  fst (GetClipboardData sample_platform Arbiter.quiet_env 3 CF_TEXT
         announced_text)
  = Done HNULL
  /\ (count_events is_render_request
        (trace (snd (GetClipboardData sample_platform Arbiter.quiet_env 3
                       CF_TEXT announced_text)))
      <= 1)%nat.
Proof.
  destruct (GetClipboardData_render_handoff sample_platform Arbiter.quiet_env
              0 CF_TEXT announced_text (or_intror eq_refl))
    as (_ & _ & Hdone & _).
  destruct (GetClipboardData_render_handoff sample_platform Arbiter.quiet_env
              3 CF_TEXT announced_text (or_intror eq_refl))
    as (Hcount & _).
  split.
  - rewrite Hdone; [reflexivity|reflexivity|reflexivity|discriminate
                   |reflexivity|reflexivity].
  - exact Hcount.
Defined.

(** ** The synthesis pass and the table *)

Section SynthesisFacts.

Context (P : Platform) {World : Type} (E : Env World).

Lemma bind_run {A B} (c : M A) (k : A -> M (World:=World) B) st :
  bind c k st = k (fst (c st)) (snd (c st)).
Proof. unfold bind. destruct (c st). reflexivity. Qed.

Lemma IsClipboardFormatAvailable_table format st :
  synthesized_formats (snd (IsClipboardFormatAvailable E format st))
  = synthesized_formats st.
Proof.
  unfold IsClipboardFormatAvailable.
  destruct (format =? 0); [reflexivity|]. run_monad.
  destruct (get_clipboard_formats E format (pUpdateClipboard E (world st)))
    as [[status count] w].
  reflexivity.
Qed.



Lemma add_synthesized_format_table format from st :
  synthesized_formats (snd (add_synthesized_format P E format from st))
  = <[Z.to_nat format := from]>
      (synthesized_formats (snd (SetClipboardData P E format HNULL st))).
Proof.
  unfold add_synthesized_format. rewrite bind_run. reflexivity.
Qed.








End SynthesisFacts.



(** ** Structural validation in unmarshal_data *)

Lemma unmarshal_data_rejected P format data size :
  fails_validation P format data size ->
  unmarshal_data P format data size = HGLOBAL (GlobalReAlloc data size).
Proof.
  unfold fails_validation. cbv zeta.
  intros [[-> H]|[->|[[-> H]|[[-> | ->] H]]]]; unfold unmarshal_data.
  - rewrite Z.eqb_refl.
    destruct (Z.ltb_spec size (sizeof_BITMAP P)); [reflexivity|].
    destruct (Z.ltb_spec size
                (bitmap_bits_size (decode_BITMAP P (GlobalReAlloc data size))));
      [reflexivity|].
    destruct (Z.eqb_spec
                (bmBits (decode_BITMAP P (GlobalReAlloc data size))) 0);
      [|reflexivity].
    exfalso. destruct H as [H|[H|H]]; [lia|lia|congruence].
  - reflexivity.
  - change (CF_PALETTE =? CF_BITMAP) with false.
    change (CF_PALETTE =? CF_DSPBITMAP) with false.
    rewrite Z.eqb_refl. cbv iota.
    destruct (Z.ltb_spec size sizeof_LOGPALETTE); [reflexivity|].
    destruct (Z.ltb_spec size
                (offsetof_palPalEntry (load 2 2 (GlobalReAlloc data size))));
      [reflexivity|].
    exfalso. destruct H; lia.
  - change (CF_METAFILEPICT =? CF_BITMAP) with false.
    change (CF_METAFILEPICT =? CF_DSPBITMAP) with false.
    change (CF_METAFILEPICT =? CF_PALETTE) with false.
    change ((CF_METAFILEPICT =? CF_ENHMETAFILE)
            || (CF_METAFILEPICT =? CF_DSPENHMETAFILE)) with false.
    rewrite Z.eqb_refl. cbn [orb]. cbv iota.
    destruct (Z.leb_spec size (sizeof_METAFILEPICT P)); [reflexivity|lia].
  - change (CF_DSPMETAFILEPICT =? CF_BITMAP) with false.
    change (CF_DSPMETAFILEPICT =? CF_DSPBITMAP) with false.
    change (CF_DSPMETAFILEPICT =? CF_PALETTE) with false.
    change ((CF_DSPMETAFILEPICT =? CF_ENHMETAFILE)
            || (CF_DSPMETAFILEPICT =? CF_DSPENHMETAFILE)) with false.
    rewrite Z.eqb_refl. rewrite orb_true_r. cbv iota.
    destruct (Z.leb_spec size (sizeof_METAFILEPICT P)); [reflexivity|lia].
Qed.

Section ServedReplies.

Context (P : Platform) {World : Type} (E : Env World).

(** Whatever the loop returns is NULL or what [unmarshal_data] makes of a
    reply the server served, and that reply is the answer to the last
    request of the loop. *)
Lemma GetClipboardData_loop_served fuel :
  forall format size render st h st',
    GetClipboardData_loop P E fuel format size render st = (Done h, st') ->
    h = HNULL
    \/ exists st0 size0,
         let reply := fst (get_clipboard_data E format size0 (world st0)) in
         get_status reply = 0
         /\ get_total reply <> 0
         /\ h = unmarshal_data P format (bytes_at (get_data reply) size0)
                  (get_total reply)
         /\ st' = logged (ev_get_clipboard_data format size0)
                    (snd (get_clipboard_data E format size0 (world st0))) st0.
Proof.
  induction fuel as [|fuel IH]; intros format size render st h st' Hrun;
    [discriminate|].
  rewrite GetClipboardData_loop_step in Hrun. cbv zeta in Hrun.
  destruct (Z.eqb_spec
              (get_status (fst (get_clipboard_data E format size (world st))))
              0) as [Hs|Hs].
  - destruct (Z.eqb_spec
                (get_total (fst (get_clipboard_data E format size (world st))))
                0) as [Ht|Ht]; cbn [andb negb] in Hrun.
    + rewrite Hs in Hrun.
      change (0 =? STATUS_BUFFER_OVERFLOW) with false in Hrun.
      cbv iota in Hrun.
      destruct (render
                && negb (get_owner
                           (fst (get_clipboard_data E format size (world st)))
                         =? 0)).
      * apply IH in Hrun. exact Hrun.
      * left. congruence.
    + right. exists st, size. cbv zeta.
      injection Hrun as Hh Hst.
      split; [exact Hs|split; [exact Ht|split; congruence]].
  - cbn [andb] in Hrun.
    destruct (get_status (fst (get_clipboard_data E format size (world st)))
              =? STATUS_BUFFER_OVERFLOW).
    + apply IH in Hrun. exact Hrun.
    + cbn [negb] in Hrun. left. congruence.
Qed.

End ServedReplies.

(** C2 (as amended).  A failed marshal makes [SetClipboardData] return NULL
    with the state untouched.  A payload that fails the structural validation
    of [unmarshal_data] is not rebuilt into an object of its format:
    [GetClipboardData] hands the received bytes back as a memory handle.
    This holds when the first request is served, when the first request is
    answered with a short-buffer status and the second is served, and for
    every read that returns at all: what it returns is NULL or what
    [unmarshal_data] makes of the reply to its last request. *)
Theorem codec_failure_results (P : Platform) {World : Type} (E : Env World)
    (format : UINT) (st : state World) :
  (forall data,
     data <> HNULL -> fst (marshal_data P format data) = HNULL ->
     SetClipboardData P E format data st = (HNULL, st))
  /\ (forall fuel,
        let reply := fst (get_clipboard_data E format 1024 (world st)) in
        let data := bytes_at (get_data reply) 1024 in
        CF_MAX <= format
        \/ synthesized_from (synthesized_formats st) format = 0 ->
        get_status reply = 0 -> get_total reply <> 0 ->
        fails_validation P format data (get_total reply) ->
        GetClipboardData P E (S (S fuel)) format st
        = (Done (HGLOBAL (GlobalReAlloc data (get_total reply))),
           logged (ev_get_clipboard_data format 1024)
             (snd (get_clipboard_data E format 1024 (world st))) st))
  /\ (forall fuel,
        let reply := fst (get_clipboard_data E format 1024 (world st)) in
        let st1 :=
          logged (ev_get_clipboard_data format 1024)
            (snd (get_clipboard_data E format 1024 (world st))) st in
        let reply2 :=
          fst (get_clipboard_data E format (get_total reply) (world st1)) in
        let data2 := bytes_at (get_data reply2) (get_total reply) in
        CF_MAX <= format
        \/ synthesized_from (synthesized_formats st) format = 0 ->
        get_status reply = STATUS_BUFFER_OVERFLOW ->
        get_status reply2 = 0 -> get_total reply2 <> 0 ->
        fails_validation P format data2 (get_total reply2) ->
        GetClipboardData P E (S (S (S fuel))) format st
        = (Done (HGLOBAL (GlobalReAlloc data2 (get_total reply2))),
           logged (ev_get_clipboard_data format (get_total reply))
             (snd (get_clipboard_data E format (get_total reply) (world st1)))
             st1))
  /\ (forall fuel h st',
        CF_MAX <= format
        \/ synthesized_from (synthesized_formats st) format = 0 ->
        GetClipboardData P E fuel format st = (Done h, st') ->
        h = HNULL
        \/ exists st0 size0,
             let reply :=
               fst (get_clipboard_data E format size0 (world st0)) in
             let data := bytes_at (get_data reply) size0 in
             get_status reply = 0
             /\ get_total reply <> 0
             /\ st' = logged (ev_get_clipboard_data format size0)
                        (snd (get_clipboard_data E format size0 (world st0)))
                        st0
             /\ h = unmarshal_data P format data (get_total reply)
             /\ (fails_validation P format data (get_total reply) ->
                 h = HGLOBAL (GlobalReAlloc data (get_total reply)))).
Proof.
  split; [|split; [|split]].
  - intros data Hdata Hfail. apply SetClipboardData_no_marshal; assumption.
  - intros fuel reply data Hns Hs Ht Hbad.
    rewrite GetClipboardData_not_synthesized by exact Hns.
    rewrite GetClipboardData_loop_step. cbv zeta. fold reply. fold data.
    rewrite Hs. change (0 =? 0) with true.
    destruct (Z.eqb_spec (get_total reply) 0) as [|_]; [contradiction|].
    cbn [andb negb].
    rewrite unmarshal_data_rejected by exact Hbad. reflexivity.
  - intros fuel reply st1 reply2 data2 Hns Hover Hs Ht Hbad.
    rewrite GetClipboardData_not_synthesized by exact Hns.
    rewrite GetClipboardData_loop_step. cbv zeta. fold reply. fold st1.
    rewrite Hover.
    change (STATUS_BUFFER_OVERFLOW =? 0) with false.
    change (STATUS_BUFFER_OVERFLOW =? STATUS_BUFFER_OVERFLOW) with true.
    cbn [andb].
    rewrite GetClipboardData_loop_step. cbv zeta. fold reply2. fold data2.
    rewrite Hs. change (0 =? 0) with true.
    destruct (Z.eqb_spec (get_total reply2) 0) as [|_]; [contradiction|].
    cbn [andb negb].
    rewrite unmarshal_data_rejected by exact Hbad. reflexivity.
  - intros fuel h st' Hns Hrun.
    destruct fuel as [|fuel]; [discriminate|].
    rewrite GetClipboardData_not_synthesized in Hrun by exact Hns.
    destruct (GetClipboardData_loop_served P E fuel format 1024 true st h st'
                Hrun) as [Hnull|(st0 & size0 & Hs & Ht & Hh & Hst)];
      [left; exact Hnull|].
    right. exists st0, size0. cbv zeta.
    split; [exact Hs|split; [exact Ht|split; [exact Hst|split; [exact Hh|]]]].
    intros Hbad. rewrite Hh. apply unmarshal_data_rejected. exact Hbad.
Qed.

Lemma codec_failure_results_witness :
  SetClipboardData sample_platform Arbiter.quiet_env CF_PALETTE (HGDI 7)
    short_bitmap_session
  = (HNULL, short_bitmap_session)
  /\ fst (GetClipboardData sample_platform Arbiter.quiet_env 2 CF_BITMAP
            short_bitmap_session)
     = Done (HGLOBAL short_bitmap_payload)
  /\ fst (GetClipboardData sample_platform Arbiter.quiet_env 3 CF_BITMAP
            large_dib_section_session)
     = Done (HGLOBAL large_dib_section_payload).
Proof.
  split; [|split].
  - apply (proj1 (codec_failure_results sample_platform Arbiter.quiet_env
                    CF_PALETTE short_bitmap_session));
      [discriminate|reflexivity].
  - rewrite (proj1 (proj2 (codec_failure_results sample_platform
                             Arbiter.quiet_env CF_BITMAP
                             short_bitmap_session)) 0%nat);
      [reflexivity|right; reflexivity|reflexivity|discriminate|].
    left. split; [reflexivity|]. left. vm_compute. reflexivity.
  - rewrite (proj1 (proj2 (proj2 (codec_failure_results sample_platform
                                    Arbiter.quiet_env CF_BITMAP
                                    large_dib_section_session))) 0%nat);
      [reflexivity|right; reflexivity|reflexivity|reflexivity|discriminate|].
    left. split; [reflexivity|]. right. right. vm_compute. discriminate.
Defined.

(** C2 as stated fails: the three-byte CF_BITMAP payload does not pass the
    validation, and the caller of [GetClipboardData] receives it as a
    non-NULL handle on the raw bytes. *)
Lemma codec_failure_counterexample :
  fails_validation sample_platform CF_BITMAP
    (bytes_at short_bitmap_payload 1024) 3
  /\ GetClipboardData sample_platform Arbiter.quiet_env 2 CF_BITMAP
       short_bitmap_session
     = (Done (HGLOBAL [1; 2; 3]),
        mkState false no_synthesized_formats (world short_bitmap_session)
          [ev_get_clipboard_data CF_BITMAP 1024]).
Proof.
  split.
  - left. split; [reflexivity|]. left. vm_compute. reflexivity.
  - vm_compute. reflexivity.
Qed.

(** ** What a read of a synthesized format does *)

Section RenderFacts.

Context (P : Platform) {World : Type} (E : Env World).

Lemma same_client_refl (st : state World) : same_client st st.
Proof. repeat split. Qed.

Lemma same_client_trans (st1 st2 st3 : state World) :
  same_client st1 st2 -> same_client st2 st3 -> same_client st1 st3.
Proof.
  unfold same_client. intros (H1 & H2 & H3) (H4 & H5 & H6).
  repeat split; congruence.
Qed.

Lemma SetClipboardData_eq format data st :
  SetClipboardData P E format data st
  = match request_payload P format data with
    | None => (HNULL, st)
    | Some payload =>
        (if fst (set_clipboard_data E format payload (world st)) =? 0
         then data else HNULL,
         after_set_request E format payload st)
    end.
Proof.
  unfold SetClipboardData, request_payload.
  destruct (is_null data) eqn:Hd.
  - rewrite SetClipboardData_request_eq. reflexivity.
  - destruct (marshal_data P format data) as [handle size].
    destruct (is_null handle); [reflexivity|].
    destruct (GlobalLock handle) as [ptr|]; [|reflexivity].
    apply SetClipboardData_request_eq.
Qed.

(** If [SetClipboardData] changes the entry of its own format in the table,
    its request was sent and accepted. *)
Lemma SetClipboardData_accepted format data st :
  synthesized_from
    (synthesized_formats (snd (SetClipboardData P E format data st))) format
  <> synthesized_from (synthesized_formats st) format ->
  exists payload,
    request_payload P format data = Some payload
    /\ fst (set_clipboard_data E format payload (world st)) = 0
    /\ snd (SetClipboardData P E format data st)
       = after_set_request E format payload st.
Proof.
  rewrite SetClipboardData_eq.
  destruct (request_payload P format data) as [payload|];
    cbn [snd]; [|congruence].
  intros Hne. exists payload. split; [reflexivity|]. split; [|reflexivity].
  unfold after_set_request in Hne.
  destruct (set_clipboard_data E format payload (world st)) as [status w].
  cbn [fst synthesized_formats] in *.
  destruct (Z.eqb_spec status 0); [assumption|].
  cbn [andb] in Hne. congruence.
Qed.

Lemma GetClipboardData_same_client fuel format st :
  CF_MAX <= format \/ synthesized_from (synthesized_formats st) format = 0 ->
  same_client st (snd (GetClipboardData P E fuel format st)).
Proof.
  intros Hns. destruct fuel as [|fuel]; [apply same_client_refl|].
  rewrite GetClipboardData_not_synthesized by exact Hns.
  destruct (GetClipboardData_loop_frame P E fuel format 1024 true st)
    as (H1 & H2 & H3 & _).
  repeat split; assumption.
Qed.

Lemma bind_outcome_run {A B} (c : M (outcome A))
    (k : A -> M (World:=World) (outcome B)) st :
  bind_outcome c k st
  = match fst (c st) with
    | Done a => k a (snd (c st))
    | Crashed => (Crashed, snd (c st))
    | OutOfFuel => (OutOfFuel, snd (c st))
    end.
Proof.
  unfold bind_outcome. rewrite bind_run. destruct (fst (c st)); reflexivity.
Qed.

Lemma get_clipboard_locale_same_client fuel st :
  synthesized_from (synthesized_formats st) CF_LOCALE = 0 ->
  same_client st
    (snd (get_clipboard_locale P (GetClipboardData P E fuel) st)).
Proof.
  intros Hl. unfold get_clipboard_locale. rewrite bind_outcome_run.
  pose proof (GetClipboardData_same_client fuel CF_LOCALE st (or_intror Hl))
    as Hsame.
  destruct (fst (GetClipboardData P E fuel CF_LOCALE st)); exact Hsame.
Qed.

Lemma render_synthesized_textA_same_client fuel data format from st :
  synthesized_from (synthesized_formats st) CF_LOCALE = 0 ->
  same_client st
    (snd (render_synthesized_textA P (GetClipboardData P E fuel) data format
            from st)).
Proof.
  intros Hl. unfold render_synthesized_textA. rewrite bind_outcome_run.
  pose proof (get_clipboard_locale_same_client fuel st Hl) as Hsame.
  destruct (fst (get_clipboard_locale P (GetClipboardData P E fuel) st));
    [|exact Hsame|exact Hsame].
  destruct (GlobalLock data) as [src|]; [|exact Hsame].
  destruct (negb (from =? CF_UNICODETEXT)); exact Hsame.
Qed.

Lemma render_synthesized_textW_same_client fuel data from st :
  synthesized_from (synthesized_formats st) CF_LOCALE = 0 ->
  same_client st
    (snd (render_synthesized_textW P (GetClipboardData P E fuel) data from
            st)).
Proof.
  intros Hl. unfold render_synthesized_textW. rewrite bind_outcome_run.
  pose proof (get_clipboard_locale_same_client fuel st Hl) as Hsame.
  destruct (fst (get_clipboard_locale P (GetClipboardData P E fuel) st));
    [|exact Hsame|exact Hsame].
  destruct (GlobalLock data) as [src|]; exact Hsame.
Qed.

End RenderFacts.

Section RenderOnce.

Context (P : Platform) {World : Type} (E : Env World).

(** What a finished [render_synthesized_format] has done: either it gave up
    with NULL and left the table alone, or it ran one conversion and ended
    with [SetClipboardData] on the rendered handle. *)
Lemma render_synthesized_format_done fuel format from st data st1 :
  CF_MAX <= from \/ synthesized_from (synthesized_formats st) from = 0 ->
  synthesized_from (synthesized_formats st) CF_LOCALE = 0 ->
  render_synthesized_format P E (GetClipboardData P E fuel) format from st
  = (Done data, st1) ->
  (data = HNULL /\ synthesized_formats st1 = synthesized_formats st)
  \/ exists stb,
       synthesized_formats stb = synthesized_formats st
       /\ count_events is_convert (trace stb)
          = S (count_events is_convert (trace st))
       /\ data <> HNULL
       /\ st1 = snd (SetClipboardData P E format data stb).
Proof.
  intros Hfrom Hlocale. unfold render_synthesized_format.
  rewrite bind_outcome_run.
  pose proof (GetClipboardData_same_client P E fuel from st Hfrom)
    as (_ & Htbl0 & Hcount0).
  set (r0 := GetClipboardData P E fuel from st) in *.
  destruct (fst r0) as [data0| |]; [|discriminate|discriminate].
  destruct (is_null data0).
  { unfold ret. intros Heq. inversion Heq; subst. left. split; trivial. }
  rewrite bind_outcome_run.
  match goal with
  | |- context [fst (?sw (snd r0))] => set (switch := sw)
  end.
  assert (Hsw : synthesized_formats (snd (switch (snd r0)))
                = synthesized_formats st
                /\ forall d, fst (switch (snd r0)) = Done d ->
                     count_events is_convert (trace (snd (switch (snd r0))))
                     = S (count_events is_convert (trace st))).
  { assert (Hemit : forall e : event, is_convert e = true ->
              let s := snd (emit e (snd r0)) in
              synthesized_formats s = synthesized_formats st
              /\ count_events is_convert (trace s)
                 = S (count_events is_convert (trace st))).
    { intros e He. unfold emit. cbn [snd synthesized_formats trace].
      rewrite count_events_app. cbn [count_events]. rewrite He.
      split; [exact Htbl0|lia]. }
    unfold switch.
    destruct ((format =? CF_TEXT) || (format =? CF_OEMTEXT)).
    { rewrite bind_run.
      destruct (Hemit (ev_convert format from) eq_refl) as (Ht & Hc).
      destruct (render_synthesized_textA_same_client P E fuel data0 format
                  from (snd (emit (ev_convert format from) (snd r0))))
        as (_ & Ht' & Hc'); [rewrite Ht; exact Hlocale|].
      split; [congruence|intros; congruence]. }
    destruct (format =? CF_UNICODETEXT).
    { rewrite bind_run.
      destruct (Hemit (ev_convert format from) eq_refl) as (Ht & Hc).
      destruct (render_synthesized_textW_same_client P E fuel data0 from
                  (snd (emit (ev_convert format from) (snd r0))))
        as (_ & Ht' & Hc'); [rewrite Ht; exact Hlocale|].
      split; [congruence|intros; congruence]. }
    destruct (format =? CF_BITMAP).
    { rewrite bind_run. cbn [ret snd].
      destruct (Hemit (ev_convert format from) eq_refl) as (Ht & Hc).
      split; [exact Ht|intros; exact Hc]. }
    destruct ((format =? CF_DIB) || (format =? CF_DIBV5)).
    { rewrite bind_run. cbn [ret snd].
      destruct (Hemit (ev_convert format from) eq_refl) as (Ht & Hc).
      split; [exact Ht|intros; exact Hc]. }
    destruct (format =? CF_METAFILEPICT).
    { rewrite bind_run. cbn [ret snd].
      destruct (Hemit (ev_convert format from) eq_refl) as (Ht & Hc).
      split; [exact Ht|intros; exact Hc]. }
    destruct (format =? CF_ENHMETAFILE).
    { rewrite bind_run. cbn [ret snd].
      destruct (Hemit (ev_convert format from) eq_refl) as (Ht & Hc).
      split; [exact Ht|intros; exact Hc]. }
    cbn [ret fst snd]. split; [exact Htbl0|intros; discriminate]. }
  destruct Hsw as (Htbl1 & Hcount1).
  destruct (fst (switch (snd r0))) as [data1| |] eqn:Hres;
    [|discriminate|discriminate].
  specialize (Hcount1 data1 eq_refl).
  destruct (is_null data1) eqn:Hnull.
  { unfold ret. intros Heq. inversion Heq; subst. left. split; trivial. }
  rewrite bind_run. unfold ret. intros Heq. inversion Heq; subst.
  right. exists (snd (switch (snd r0))).
  repeat split; try assumption.
  intros ->. discriminate.
Qed.

End RenderOnce.

(** ** Reading a stored format back from the arbiter *)

Section ArbiterFacts.

Import Arbiter.

Context (P : Platform).
Context (driver : arbiter -> arbiter).
Context (wndproc : HWND -> UINT -> Z -> arbiter -> arbiter).

Let E : Env arbiter := arbiter_env driver wndproc.

Lemma unmarshal_data_bytes_at format (payload : list byte) size :
  Z.of_nat (length payload) <= size ->
  unmarshal_data P format (bytes_at payload size) (Z.of_nat (length payload))
  = unmarshal_data P format payload (Z.of_nat (length payload)).
Proof.
  intros Hle.
  assert (Hsame : GlobalReAlloc (bytes_at payload size)
                    (Z.of_nat (length payload))
                  = GlobalReAlloc payload (Z.of_nat (length payload))).
  { unfold GlobalReAlloc, bytes_at. apply resize_resize. lia. }
  unfold unmarshal_data. rewrite Hsame. reflexivity.
Qed.

Lemma dir_lookup_put format payload dir :
  dir_lookup format (dir_put format payload dir) = Some payload.
Proof.
  induction dir as [|[id old] dir IH]; cbn [dir_put dir_lookup].
  - rewrite Z.eqb_refl. reflexivity.
  - destruct (id =? format) eqn:Hid; cbn [dir_lookup]; rewrite Hid;
      [reflexivity|exact IH].
Qed.

(** A non-empty entry is fetched in at most two requests, and fetching it
    leaves the arbiter as it was. *)
Lemma GetClipboardData_loop_stored fuel format st payload hwnd :
  arb_opener (world st) = Some hwnd ->
  dir_lookup format (arb_directory (world st)) = Some payload ->
  payload <> [] ->
  fst (GetClipboardData_loop P E (S (S fuel)) format 1024 true st)
  = Done (unmarshal_data P format payload (Z.of_nat (length payload)))
  /\ world (snd (GetClipboardData_loop P E (S (S fuel)) format 1024 true st))
     = world st.
Proof.
  intros Hopen Hdir Hne.
  assert (Hlen : Z.of_nat (length payload) <> 0).
  { destruct payload; [congruence|]. cbn [length]. lia. }
  assert (Hget : forall size,
            get_clipboard_data E format size (world st)
            = (if Z.of_nat (length payload) <=? size
               then Build_get_reply 0 (Z.of_nat (length payload))
                      (arb_owner (world st)) payload
               else Build_get_reply STATUS_BUFFER_OVERFLOW
                      (Z.of_nat (length payload)) (arb_owner (world st)) [],
               world st)).
  { intros size. cbn [E arbiter_env get_clipboard_data]. unfold arb_get.
    rewrite Hopen, Hdir. cbv zeta.
    destruct (Z.of_nat (length payload) <=? size); reflexivity. }
  assert (Hfit : forall n size s,
            world s = world st ->
            Z.of_nat (length payload) <= size ->
            fst (GetClipboardData_loop P E (S n) format size true s)
            = Done (unmarshal_data P format payload
                      (Z.of_nat (length payload)))
            /\ world (snd (GetClipboardData_loop P E (S n) format size true s))
               = world st).
  { intros n size s Hw Hle. rewrite GetClipboardData_loop_step. cbv zeta.
    rewrite Hw, Hget.
    destruct (Z.leb_spec (Z.of_nat (length payload)) size); [|lia].
    cbn [fst snd get_status get_total get_data].
    change (0 =? 0) with true.
    destruct (Z.eqb_spec (Z.of_nat (length payload)) 0); [contradiction|].
    cbn [andb negb fst snd]. split; [|reflexivity].
    rewrite unmarshal_data_bytes_at by assumption. reflexivity. }
  destruct (Z.leb_spec (Z.of_nat (length payload)) 1024) as [Hsmall|Hbig].
  - apply Hfit; [reflexivity|assumption].
  - rewrite GetClipboardData_loop_step. cbv zeta. rewrite Hget.
    destruct (Z.leb_spec (Z.of_nat (length payload)) 1024); [lia|].
    cbn [fst snd get_status get_total get_data].
    change (STATUS_BUFFER_OVERFLOW =? 0) with false.
    rewrite Z.eqb_refl. cbn [andb].
    apply Hfit; [reflexivity|lia].
Qed.

End ArbiterFacts.

(** ** An invariant of the synthesis table *)

Lemma grounded_check_sound tbl :
  grounded_check tbl = true -> marks_grounded tbl.
Proof.
  unfold grounded_check, marks_grounded.
  intros H. apply andb_true_iff in H as [Hall Hlocale].
  split; [|apply Z.eqb_eq, Hlocale].
  intros f Hf Hne.
  unfold synthesized_from in Hne |- *.
  destruct (tbl !! Z.to_nat f) as [from|] eqn:Hl;
    cbn [default from_option id] in *; [|congruence].
  rewrite forallb_forall in Hall.
  specialize (Hall from).
  assert (Hin : In from tbl).
  { apply list_elem_of_In. apply list_elem_of_lookup. eauto. }
  apply Hall in Hin. apply orb_true_iff in Hin as [Hz|Hg].
  - apply Z.eqb_eq in Hz. congruence.
  - apply andb_true_iff in Hg as [H0 Hg].
    apply Z.leb_le in H0. apply Z.eqb_eq in Hg.
    unfold synthesized_from in Hg. split; assumption.
Qed.

Lemma cleared_refl tbl : cleared tbl tbl.
Proof. split; [reflexivity|]. intros f. left. reflexivity. Qed.

Lemma cleared_trans tbl1 tbl2 tbl3 :
  cleared tbl1 tbl2 -> cleared tbl2 tbl3 -> cleared tbl1 tbl3.
Proof.
  intros [Hl1 H1] [Hl2 H2]. split; [congruence|].
  intros f. destruct (H2 f) as [H|H]; [|right; exact H].
  rewrite H. apply H1.
Qed.

Lemma cleared_insert_zero tbl n : cleared tbl (<[n := 0]> tbl).
Proof.
  split; [apply length_insert|].
  intros f. unfold synthesized_from.
  destruct (decide (n = Z.to_nat f)) as [->|Hne].
  - destruct (decide (Z.to_nat f < length tbl)%nat) as [Hlt|Hge].
    + right. rewrite list_lookup_insert_eq by exact Hlt. reflexivity.
    + left. rewrite list_insert_ge by lia. reflexivity.
  - left. rewrite list_lookup_insert_ne by exact Hne. reflexivity.
Qed.

Lemma cleared_table_ok tbl tbl' :
  cleared tbl tbl' -> table_ok tbl -> table_ok tbl'.
Proof. unfold table_ok. intros [Hl _] Hok. rewrite Hl. exact Hok. Qed.

Lemma cleared_marks_grounded tbl tbl' :
  cleared tbl tbl' -> marks_grounded tbl -> marks_grounded tbl'.
Proof.
  intros [_ Hc] [Hg Hlocale]. split.
  - intros f Hf Hne.
    destruct (Hc f) as [Heq|Hz]; [|congruence].
    rewrite Heq in *. destruct (Hg f Hf Hne) as [H0 Hsrc].
    split; [exact H0|].
    destruct (Hc (synthesized_from tbl f)) as [Heq'|Hz']; congruence.
  - destruct (Hc CF_LOCALE) as [Heq|Hz]; congruence.
Qed.

Section InvariantFacts.

Context (P : Platform) {World : Type} (E : Env World).

Lemma SetClipboardData_cleared format data st :
  cleared (synthesized_formats st)
    (synthesized_formats (snd (SetClipboardData P E format data st))).
Proof.
  destruct (SetClipboardData_cases P E format data st) as [Hc|[p Hc]];
    rewrite Hc; cbn [snd]; [apply cleared_refl|].
  unfold after_set_request.
  destruct (set_clipboard_data E format p (world st)) as [status w].
  cbn [synthesized_formats].
  destruct ((status =? 0) && (format <? CF_MAX));
    [apply cleared_insert_zero|apply cleared_refl].
Qed.

Lemma add_synthesized_format_mark format from st :
  synthesized_formats (snd (add_synthesized_format P E format from st))
  = mark format from (synthesized_formats st).
Proof.
  rewrite add_synthesized_format_table, SetClipboardData_null_eq.
  cbn [snd]. unfold after_set_request, mark.
  destruct (set_clipboard_data E format [] (world st)) as [status w].
  cbn [synthesized_formats].
  destruct ((status =? 0) && (format <? CF_MAX)); [|reflexivity].
  apply list_insert_insert_eq.
Qed.

Lemma when_add_synthesized_format present format from st :
  synthesized_formats
    (snd (when (negb present) (add_synthesized_format P E format from) st))
  = mark_unless present format from (synthesized_formats st).
Proof.
  destruct present; cbn [negb when mark_unless]; [reflexivity|].
  apply add_synthesized_format_mark.
Qed.

Lemma text_pass_start_cleared st :
  cleared (synthesized_formats st)
    (synthesized_formats (text_pass_start P E st)).
Proof.
  unfold text_pass_start. cbv zeta.
  match goal with
  | |- context [when ?b _ ?s] =>
      assert (Hs : synthesized_formats s = synthesized_formats st)
        by (rewrite !IsClipboardFormatAvailable_table; reflexivity);
      destruct b; cbn [when]
  end.
  - unfold set_clipboard_locale. rewrite bind_run. cbn [ret snd].
    rewrite <- Hs. apply SetClipboardData_cleared.
  - cbn [ret snd]. rewrite Hs. apply cleared_refl.
Qed.

Lemma add_synthesized_text_marks st :
  exists has_text has_oemtext has_unicode tbl0,
    cleared (synthesized_formats st) tbl0
    /\ synthesized_formats (snd (add_synthesized_text P E st))
       = text_marks has_text has_oemtext has_unicode tbl0.
Proof.
  set (q1 := IsClipboardFormatAvailable E CF_TEXT st).
  set (q2 := IsClipboardFormatAvailable E CF_OEMTEXT (snd q1)).
  set (q3 := IsClipboardFormatAvailable E CF_UNICODETEXT (snd q2)).
  exists (fst q1), (fst q2), (fst q3).
  unfold add_synthesized_text, text_marks. rewrite !bind_run.
  fold q1. fold q2. fold q3.
  destruct (negb (fst q1) && negb (fst q2) && negb (fst q3)).
  { exists (synthesized_formats st). split; [apply cleared_refl|].
    cbn [ret snd]. unfold q3, q2, q1.
    rewrite !IsClipboardFormatAvailable_table. reflexivity. }
  exists (synthesized_formats (text_pass_start P E st)).
  split; [apply text_pass_start_cleared|].
  rewrite !bind_run.
  change (snd (when (negb (fst (IsClipboardFormatAvailable E CF_LOCALE
                                  (snd q3))))
                 (set_clipboard_locale P E)
                 (snd (IsClipboardFormatAvailable E CF_LOCALE (snd q3)))))
    with (text_pass_start P E st).
  destruct (fst q3); [|destruct (fst q1)];
    rewrite bind_run, !when_add_synthesized_format; reflexivity.
Qed.

Lemma add_synthesized_bitmap_marks st :
  exists has_dib has_dibv5 has_bitmap,
    synthesized_formats (snd (add_synthesized_bitmap P E st))
    = bitmap_marks has_dib has_dibv5 has_bitmap (synthesized_formats st).
Proof.
  set (q1 := IsClipboardFormatAvailable E CF_DIB st).
  set (q2 := IsClipboardFormatAvailable E CF_DIBV5 (snd q1)).
  set (q3 := IsClipboardFormatAvailable E CF_BITMAP (snd q2)).
  exists (fst q1), (fst q2), (fst q3).
  assert (Hq : synthesized_formats (snd q3) = synthesized_formats st)
    by (unfold q3, q2, q1; rewrite !IsClipboardFormatAvailable_table;
        reflexivity).
  unfold add_synthesized_bitmap, bitmap_marks. rewrite !bind_run.
  fold q1. fold q2. fold q3. rewrite <- Hq.
  destruct (negb (fst q3) && negb (fst q1) && negb (fst q2)); [reflexivity|].
  destruct (fst q3 && fst q1 && fst q2); [reflexivity|].
  destruct (fst q3); [|destruct (fst q1)];
    rewrite bind_run, !when_add_synthesized_format; reflexivity.
Qed.

Lemma add_synthesized_metafile_marks st :
  exists has_mf has_emf,
    synthesized_formats (snd (add_synthesized_metafile P E st))
    = metafile_marks has_mf has_emf (synthesized_formats st).
Proof.
  set (q1 := IsClipboardFormatAvailable E CF_METAFILEPICT st).
  set (q2 := IsClipboardFormatAvailable E CF_ENHMETAFILE (snd q1)).
  exists (fst q1), (fst q2).
  assert (Hq : synthesized_formats (snd q2) = synthesized_formats st)
    by (unfold q2, q1; rewrite !IsClipboardFormatAvailable_table;
        reflexivity).
  unfold add_synthesized_metafile, metafile_marks. rewrite !bind_run.
  fold q1. fold q2. rewrite <- Hq.
  destruct (negb (fst q1) && fst q2);
    [apply add_synthesized_format_mark|].
  destruct (negb (fst q2) && fst q1);
    [apply add_synthesized_format_mark|reflexivity].
Qed.

End InvariantFacts.

Lemma cleared_no_synthesized_formats tbl :
  cleared no_synthesized_formats tbl -> tbl = no_synthesized_formats.
Proof.
  intros [Hlen Hc]. apply list_eq. intros i.
  destruct (decide (i < length tbl)%nat) as [Hlt|Hge].
  - destruct (lookup_lt_is_Some_2 tbl i Hlt) as [v Hv].
    assert (Hz : v = 0).
    { specialize (Hc (Z.of_nat i)). unfold synthesized_from in Hc.
      rewrite Nat2Z.id, Hv in Hc. cbn [default from_option id] in Hc.
      destruct Hc as [Hc|Hc]; [|exact Hc].
      rewrite Hc.
      destruct (no_synthesized_formats !! i) as [u|] eqn:Hu;
        [|reflexivity].
      apply lookup_replicate in Hu. cbn [default from_option id]. tauto. }
    subst v. rewrite Hv. symmetry. apply lookup_replicate.
    split; [reflexivity|]. rewrite Hlen in Hlt.
    unfold no_synthesized_formats in Hlt. rewrite length_replicate in Hlt.
    exact Hlt.
  - rewrite !lookup_ge_None_2; [reflexivity| |]; lia.
Qed.

Lemma close_marks_checked b1 b2 b3 b4 b5 b6 b7 b8 :
  let tbl :=
    metafile_marks b7 b8
      (bitmap_marks b4 b5 b6 (text_marks b1 b2 b3 no_synthesized_formats)) in
  (length tbl =? Z.to_nat CF_MAX)%nat && grounded_check tbl = true.
Proof.
  destruct b1, b2, b3, b4, b5, b6, b7, b8; vm_compute; reflexivity.
Qed.

Section InvariantSteps.

Context (P : Platform) {World : Type} (E : Env World).

Lemma CloseClipboard_table st :
  synthesized_formats (snd (CloseClipboard P E st))
  = synthesized_formats st /\ bCBHasChanged st = false
  \/ exists b1 b2 b3 b4 b5 b6 b7 b8,
       synthesized_formats (snd (CloseClipboard P E st))
       = metafile_marks b7 b8
           (bitmap_marks b4 b5 b6
              (text_marks b1 b2 b3 no_synthesized_formats)).
Proof.
  unfold CloseClipboard. rewrite !bind_run. cbn [get_state fst snd].
  assert (Htail : forall s : state World,
            synthesized_formats
              (snd ((let '(status, viewer, owner) :=
                       fst (extern ev_close_clipboard (close_clipboard E) s) in
                     if status =? 0
                     then bind (set_bCBHasChanged false)
                            (fun _ =>
                               bind (when (negb (viewer =? 0))
                                       (send_message E viewer
                                          WM_DRAWCLIPBOARD owner))
                                 (fun _ => ret true))
                     else ret false)
                      (snd (extern ev_close_clipboard (close_clipboard E) s))))
            = synthesized_formats s).
  { intros s. unfold extern.
    destruct (close_clipboard E (world s)) as [[[status viewer] owner] w].
    cbn [fst snd]. destruct (status =? 0); [|reflexivity].
    rewrite !bind_run. cbn [set_bCBHasChanged fst snd].
    destruct (negb (viewer =? 0)); reflexivity. }
  rewrite Htail. clear Htail.
  destruct (bCBHasChanged st); [right|left; split; reflexivity].
  rewrite !bind_run. cbn [set_synthesized_formats fst snd].
  set (s0 := mkState _ no_synthesized_formats _ _).
  destruct (add_synthesized_text_marks P E s0)
    as (b1 & b2 & b3 & tbl0 & Hc & Ht).
  apply cleared_no_synthesized_formats in Hc. subst tbl0.
  destruct (add_synthesized_bitmap_marks P E
              (snd (add_synthesized_text P E s0))) as (b4 & b5 & b6 & Hb).
  destruct (add_synthesized_metafile_marks P E
              (snd (add_synthesized_bitmap P E
                      (snd (add_synthesized_text P E s0)))))
    as (b7 & b8 & Hm).
  exists b1, b2, b3, b4, b5, b6, b7, b8.
  rewrite Hm, Hb, Ht. reflexivity.
Qed.

Lemma CloseClipboard_invariant st :
  session_invariant st -> session_invariant (snd (CloseClipboard P E st)).
Proof.
  intros Hinv.
  destruct (CloseClipboard_table st)
    as [[Heq _]|(b1 & b2 & b3 & b4 & b5 & b6 & b7 & b8 & Heq)];
    unfold session_invariant; rewrite Heq; [exact Hinv|].
  pose proof (close_marks_checked b1 b2 b3 b4 b5 b6 b7 b8) as Hchk.
  cbv zeta in Hchk. apply andb_true_iff in Hchk as [Hlen Hg].
  split; [apply Nat.eqb_eq, Hlen|apply grounded_check_sound, Hg].
Qed.

Lemma no_synthesized_formats_invariant :
  table_ok no_synthesized_formats /\ marks_grounded no_synthesized_formats.
Proof.
  split; [reflexivity|]. apply grounded_check_sound. reflexivity.
Qed.

Lemma OpenClipboard_invariant hwnd st :
  session_invariant st -> session_invariant (snd (OpenClipboard E hwnd st)).
Proof.
  intros Hinv. unfold OpenClipboard. run_monad.
  destruct (open_clipboard E hwnd (pUpdateClipboard E (world st)))
    as [[status owner] w].
  destruct (status =? 0); [|exact Hinv].
  destruct (owner =? 0); [apply no_synthesized_formats_invariant|exact Hinv].
Qed.

Lemma EmptyClipboard_invariant st :
  session_invariant st -> session_invariant (snd (EmptyClipboard E st)).
Proof.
  intros Hinv. unfold EmptyClipboard, GetClipboardOwner. run_monad.
  destruct (get_clipboard_info E (world st)) as [[status owner] w].
  run_monad.
  destruct (negb ((if status =? 0 then owner else 0) =? 0)); run_monad;
    match goal with
    | |- context [empty_clipboard E ?a] =>
        destruct (empty_clipboard E a) as [status' w']
    end;
    destruct (status' =? 0);
    first [apply no_synthesized_formats_invariant|exact Hinv].
Qed.

Lemma SetClipboardData_invariant format data st :
  session_invariant st ->
  session_invariant (snd (SetClipboardData P E format data st)).
Proof.
  intros [Hok Hg].
  pose proof (SetClipboardData_cleared P E format data st) as Hc.
  split; [eapply cleared_table_ok|eapply cleared_marks_grounded]; eauto.
Qed.

End InvariantSteps.

Section ReadInvariant.

Context (P : Platform) {World : Type} (E : Env World).

Variable get : UINT -> M (World:=World) (outcome HANDLE).

Hypothesis get_cleared : forall format st,
  cleared (synthesized_formats st) (synthesized_formats (snd (get format st))).

Lemma get_clipboard_locale_cleared st :
  cleared (synthesized_formats st)
    (synthesized_formats (snd (get_clipboard_locale P get st))).
Proof.
  unfold get_clipboard_locale. rewrite bind_outcome_run.
  destruct (fst (get CF_LOCALE st)); apply get_cleared.
Qed.

Lemma render_synthesized_textA_cleared data format from st :
  cleared (synthesized_formats st)
    (synthesized_formats
       (snd (render_synthesized_textA P get data format from st))).
Proof.
  unfold render_synthesized_textA. rewrite bind_outcome_run.
  pose proof (get_clipboard_locale_cleared st) as Hc.
  destruct (fst (get_clipboard_locale P get st)); [|exact Hc|exact Hc].
  destruct (GlobalLock data) as [src|]; [|exact Hc].
  destruct (negb (from =? CF_UNICODETEXT)); exact Hc.
Qed.

Lemma render_synthesized_textW_cleared data from st :
  cleared (synthesized_formats st)
    (synthesized_formats (snd (render_synthesized_textW P get data from st))).
Proof.
  unfold render_synthesized_textW. rewrite bind_outcome_run.
  pose proof (get_clipboard_locale_cleared st) as Hc.
  destruct (fst (get_clipboard_locale P get st)); [|exact Hc|exact Hc].
  destruct (GlobalLock data) as [src|]; exact Hc.
Qed.

Lemma render_synthesized_format_cleared format from st :
  cleared (synthesized_formats st)
    (synthesized_formats
       (snd (render_synthesized_format P E get format from st))).
Proof.
  unfold render_synthesized_format. rewrite bind_outcome_run.
  pose proof (get_cleared from st) as Hc0.
  destruct (fst (get from st)) as [data0| |]; [|exact Hc0|exact Hc0].
  destruct (is_null data0); [exact Hc0|].
  rewrite bind_outcome_run.
  match goal with
  | |- context [fst (?sw (snd (get from st)))] => set (switch := sw)
  end.
  assert (Hsw : cleared (synthesized_formats st)
                  (synthesized_formats (snd (switch (snd (get from st)))))).
  { eapply cleared_trans; [exact Hc0|]. unfold switch.
    destruct ((format =? CF_TEXT) || (format =? CF_OEMTEXT)).
    { rewrite bind_run.
      apply (render_synthesized_textA_cleared data0 format from
               (snd (emit (ev_convert format from) (snd (get from st))))). }
    destruct (format =? CF_UNICODETEXT).
    { rewrite bind_run.
      apply (render_synthesized_textW_cleared data0 from
               (snd (emit (ev_convert format from) (snd (get from st))))). }
    destruct (format =? CF_BITMAP); [apply cleared_refl|].
    destruct ((format =? CF_DIB) || (format =? CF_DIBV5));
      [apply cleared_refl|].
    destruct (format =? CF_METAFILEPICT); [apply cleared_refl|].
    destruct (format =? CF_ENHMETAFILE); apply cleared_refl. }
  destruct (fst (switch (snd (get from st)))) as [data1| |];
    [|exact Hsw|exact Hsw].
  destruct (is_null data1); [exact Hsw|].
  rewrite bind_run. cbn [ret snd].
  eapply cleared_trans; [exact Hsw|apply SetClipboardData_cleared].
Qed.

End ReadInvariant.

Section Reachable.

Context (P : Platform) {World : Type} (E : Env World).

Lemma GetClipboardData_cleared fuel : forall format st,
  cleared (synthesized_formats st)
    (synthesized_formats (snd (GetClipboardData P E fuel format st))).
Proof.
  induction fuel as [|fuel IH]; intros format st; [apply cleared_refl|].
  cbn [GetClipboardData]. rewrite bind_run. cbn [get_state fst snd].
  destruct ((format <? CF_MAX)
            && negb (synthesized_from (synthesized_formats st) format =? 0)).
  - apply render_synthesized_format_cleared. exact IH.
  - destruct (GetClipboardData_loop_frame P E fuel format 1024 true st)
      as (_ & Heq & _).
    rewrite Heq. apply cleared_refl.
Qed.

Lemma run_call_invariant c st :
  session_invariant st -> session_invariant (run_call P E c st).
Proof.
  intros Hinv. destruct c as [hwnd| | |format data|fuel format];
    cbn [run_call].
  - apply OpenClipboard_invariant, Hinv.
  - apply CloseClipboard_invariant, Hinv.
  - apply EmptyClipboard_invariant, Hinv.
  - apply SetClipboardData_invariant, Hinv.
  - destruct Hinv as [Hok Hg].
    pose proof (GetClipboardData_cleared fuel format st) as Hc.
    split; [eapply cleared_table_ok|eapply cleared_marks_grounded]; eauto.
Qed.

(** X23.  Whatever sequence of entry points a client runs from a state with
    a clear table, the table keeps its size and its marks stay grounded. *)
Lemma session_invariant_reachable calls st :
  synthesized_formats st = no_synthesized_formats ->
  session_invariant (fold_left (fun s c => run_call P E c s) calls st).
Proof.
  intros Hinit.
  assert (Hinv : session_invariant st).
  { unfold session_invariant. rewrite Hinit.
    apply no_synthesized_formats_invariant. }
  clear Hinit. revert st Hinv.
  induction calls as [|c calls IH]; intros st Hinv; cbn [fold_left].
  - exact Hinv.
  - apply IH, run_call_invariant, Hinv.
Qed.

End Reachable.

(** X22.  For a format without a codec of its own, the payload of a memory
    handle is its bytes and unmarshalling them gives the same bytes back. *)
Lemma memory_format_roundtrip (P : Platform) (format : UINT)
    (mem : list byte) :
  format <> CF_BITMAP -> format <> CF_DSPBITMAP -> format <> CF_PALETTE ->
  format <> CF_ENHMETAFILE -> format <> CF_DSPENHMETAFILE ->
  format <> CF_METAFILEPICT -> format <> CF_DSPMETAFILEPICT ->
  mem <> [] -> Z.of_nat (length mem) < 2 ^ 32 ->
  request_payload P format (HGLOBAL mem) = Some mem
  /\ unmarshal_data P format mem (Z.of_nat (length mem)) = HGLOBAL mem.
Proof.
  intros H1 H2 H3 H4 H5 H6 H7 Hne Hlen.
  apply Z.eqb_neq in H1, H2, H3, H4, H5, H6, H7.
  assert (Hresize : resize (Z.to_nat (Z.of_nat (length mem))) 0 mem = mem)
    by (rewrite Nat2Z.id; apply resize_all).
  split.
  - unfold request_payload, marshal_data. cbn [is_null].
    rewrite H1, H2, H3, H4, H5, H6, H7. cbn [orb GlobalSize].
    destruct (Z.eqb_spec (Z.of_nat (length mem)) 0) as [Hz|_].
    { destruct mem; [congruence|]. cbn [length] in Hz. lia. }
    unfold wrap32. rewrite Z.mod_small by lia. rewrite Z.eqb_refl.
    cbn [negb is_null GlobalLock]. unfold bytes_at. rewrite Hresize.
    reflexivity.
  - unfold unmarshal_data, GlobalReAlloc.
    rewrite H1, H2, H3, H4, H5, H6, H7. cbn [orb]. rewrite Hresize.
    reflexivity.
Qed.

(** For a format without a codec of its own the request of a non-NULL handle
    never carries an empty payload, so the last hypothesis of [render_once]
    holds by itself for the text formats and the DIBs. *)
Lemma request_payload_nonempty (P : Platform) (format : UINT) (data : HANDLE) :
  format <> CF_BITMAP -> format <> CF_DSPBITMAP -> format <> CF_PALETTE ->
  format <> CF_ENHMETAFILE -> format <> CF_DSPENHMETAFILE ->
  format <> CF_METAFILEPICT -> format <> CF_DSPMETAFILEPICT ->
  data <> HNULL ->
  request_payload P format data <> Some [].
Proof.
  intros H1 H2 H3 H4 H5 H6 H7 Hdata.
  apply Z.eqb_neq in H1, H2, H3, H4, H5, H6, H7.
  unfold request_payload, marshal_data.
  destruct data as [|mem|obj]; [congruence| |]; cbn [is_null];
    rewrite H1, H2, H3, H4, H5, H6, H7; cbn [orb GlobalSize].
  - destruct (Z.eqb_spec (Z.of_nat (length mem)) 0) as [|Hne];
      [discriminate|].
    destruct (negb (wrap32 (Z.of_nat (length mem)) =? Z.of_nat (length mem)));
      [discriminate|].
    cbn [is_null GlobalLock]. unfold bytes_at. rewrite Nat2Z.id, resize_all.
    intros Heq. injection Heq as ->. apply Hne. reflexivity.
  - discriminate.
Qed.

(** ** A session from end to end *)

Example text_session_marks :
  synthesized_formats after_text_session
  = [0; 13; 0; 0; 0; 0; 0; 13; 0; 0; 0; 0; 0; 0; 0; 0; 0; 0]
  /\ Arbiter.arb_directory (world after_text_session)
     = [(13, [104; 0; 105; 0; 0; 0]); (16, [9; 4; 0; 0]); (1, []); (7, [])]
  /\ Arbiter.arb_owner (world after_text_session) = 1.
Proof. vm_compute. repeat split; reflexivity. Qed.

Example text_session_read :
  fst (GetClipboardData sample_platform Arbiter.quiet_env 4 CF_TEXT
         after_text_session)
  = Done (HGLOBAL [104; 105; 0]).
Proof. vm_compute. reflexivity. Qed.

(** * Further properties of the codec layer *)

(** ** Little-endian fields *)

Lemma length_le_encode n z : length (le_encode n z) = n.
Proof.
  revert z. induction n as [|n IH]; intros z; cbn [le_encode length];
    [reflexivity|]. rewrite IH. reflexivity.
Qed.

Lemma le_decode_encode n z :
  le_decode (le_encode n z) = z mod 256 ^ Z.of_nat n.
Proof.
  revert z. induction n as [|n IH]; intros z; cbn [le_encode le_decode].
  - rewrite Z.mod_1_r. reflexivity.
  - rewrite IH, Nat2Z.inj_succ, Z.pow_succ_r by lia.
    rewrite Z.rem_mul_r by lia. reflexivity.
Qed.

Lemma load_field (pre post : list Z) n v :
  load (Z.of_nat (length pre)) (Z.of_nat n) (pre ++ le_encode n v ++ post)
  = v mod 256 ^ Z.of_nat n.
Proof.
  unfold load. rewrite !Nat2Z.id, drop_app_length.
  rewrite take_app_length' by (symmetry; apply length_le_encode).
  apply le_decode_encode.
Qed.

Lemma sint32_small z : - 2 ^ 31 <= z < 2 ^ 31 -> sint32 z = z.
Proof. intros H. unfold sint32. rewrite Z.mod_small by lia. lia. Qed.


Lemma wrap32_small z : 0 <= z < 2 ^ 32 -> wrap32 z = z.
Proof. intros H. unfold wrap32. apply Z.mod_small. exact H. Qed.

Lemma c_abs_small z : - 2 ^ 31 < z < 2 ^ 31 -> c_abs z = Z.abs z.
Proof. intros H. unfold c_abs. apply sint32_small. lia. Qed.

(** ** The row stride of marshal_data *)

Lemma clear_low_bit x : Z.land x (Z.lnot 1) = 2 * (x / 2).
Proof.
  rewrite <- Z.ldiff_land. change 1 with (Z.ones 1) at 1.
  rewrite Z.ldiff_ones_r by lia.
  rewrite Z.shiftr_div_pow2, Z.shiftl_mul_pow2 by lia.
  change (2 ^ 1) with 2. lia.
Qed.

Lemma stride_closed_form bits :
  0 <= bits <= 2 ^ 31 - 16 ->
  Z.land (Z.shiftr (sint32 (sint32 bits + 15)) 3) (Z.lnot 1)
  = 2 * ((bits + 15) / 16).
Proof.
  intros H. rewrite !sint32_small by (rewrite ?sint32_small; lia).
  rewrite clear_low_bit, Z.shiftr_div_pow2 by lia.
  change (2 ^ 3) with 8. rewrite Z.div_div by lia. reflexivity.
Qed.

(** ** The BITMAP header on the wire *)


Lemma load_head n v (post : list Z) :
  load 0 (Z.of_nat n) (le_encode n v ++ post) = v mod 256 ^ Z.of_nat n.
Proof. apply (load_field [] post n v). Qed.

Lemma length_encode_BITMAP P bm :
  ptr_size P = 4 \/ ptr_size P = 8 ->
  Z.of_nat (length (encode_BITMAP P bm)) = sizeof_BITMAP P.
Proof.
  intros [Hp|Hp]; unfold encode_BITMAP, sizeof_BITMAP, offsetof_bmBits,
    align_up; rewrite Hp; rewrite !length_app, !length_le_encode,
    length_replicate; reflexivity.
Qed.


(** ** Bitmaps through marshal_data and unmarshal_data *)

Section BitmapCodec.

Context (P : Platform) (obj : Z) (bm : BITMAP).

Hypothesis ptr_size_ok : ptr_size P = 4 \/ ptr_size P = 8.
Hypothesis object_ok : GetObjectW P obj = Some bm.

Lemma sizeof_BITMAP_bounds : 24 <= sizeof_BITMAP P <= 32.
Proof.
  destruct ptr_size_ok as [Hp|Hp]; unfold sizeof_BITMAP, offsetof_bmBits,
    align_up; rewrite Hp; split; vm_compute; discriminate.
Qed.

(** What marshal_data makes of a bitmap whose sizes stay within [int]. *)
Lemma marshal_bitmap_block :
  0 <= bmWidth bm * bmBitsPixel bm <= 2 ^ 31 - 16 ->
  - 2 ^ 31 < bmHeight bm < 2 ^ 31 ->
  sizeof_BITMAP P + Z.abs (bmHeight bm) * bitmap_stride bm < 2 ^ 31 ->
  marshal_data P CF_BITMAP (HGDI obj)
  = (HGLOBAL
       (encode_BITMAP P bm
        ++ bytes_at (GetBitmapBits P obj
                       (Z.abs (bmHeight bm) * bitmap_stride bm))
             (Z.abs (bmHeight bm) * bitmap_stride bm)),
     sizeof_BITMAP P + Z.abs (bmHeight bm) * bitmap_stride bm).
Proof.
  intros Hrow Hh Htotal.
  pose proof sizeof_BITMAP_bounds as Hsz.
  assert (Hstride : 0 <= bitmap_stride bm).
  { unfold bitmap_stride. apply Z.mul_nonneg_nonneg; [lia|].
    apply Z.div_pos; lia. }
  assert (Hbits : 0 <= Z.abs (bmHeight bm) * bitmap_stride bm)
    by (apply Z.mul_nonneg_nonneg; lia).
  unfold marshal_data. rewrite Z.eqb_refl. cbn [orb gdi_obj].
  rewrite object_ok. cbv zeta.
  rewrite stride_closed_form by exact Hrow. fold (bitmap_stride bm).
  rewrite c_abs_small by exact Hh.
  rewrite (sint32_small (Z.abs (bmHeight bm) * bitmap_stride bm)) by lia.
  rewrite wrap32_small by lia.
  f_equal. f_equal. unfold bytes_at at 1.
  rewrite resize_app_ge
    by (apply Nat2Z.inj_le;
        rewrite length_encode_BITMAP, Z2Nat.id by (assumption || lia); lia).
  f_equal. unfold bytes_at. f_equal.
  apply Nat2Z.inj.
  rewrite Nat2Z.inj_sub
    by (apply Nat2Z.inj_le;
        rewrite length_encode_BITMAP, Z2Nat.id by (assumption || lia); lia).
  rewrite length_encode_BITMAP, !Z2Nat.id by (assumption || lia). lia.
Qed.


End BitmapCodec.

(** X1.  For a bitmap whose sizes stay within [int], marshal_data announces
    the header size plus |height| times the row stride, and that stride is
    the number of bits of a row rounded up to the next multiple of two
    bytes: it is even, it covers the row, and it exceeds it by less than 16
    bits. *)
Theorem marshal_bitmap_size (P : Platform) (obj : Z) (bm : BITMAP) :
  ptr_size P = 4 \/ ptr_size P = 8 ->
  GetObjectW P obj = Some bm ->
  0 <= bmWidth bm * bmBitsPixel bm <= 2 ^ 31 - 16 ->
  - 2 ^ 31 < bmHeight bm < 2 ^ 31 ->
  sizeof_BITMAP P + Z.abs (bmHeight bm) * bitmap_stride bm < 2 ^ 31 ->
  snd (marshal_data P CF_BITMAP (HGDI obj))
  = sizeof_BITMAP P + Z.abs (bmHeight bm) * bitmap_stride bm
  /\ bitmap_stride bm mod 2 = 0
  /\ bmWidth bm * bmBitsPixel bm <= 8 * bitmap_stride bm
     < bmWidth bm * bmBitsPixel bm + 16.
Proof.
  intros Hptr Hobj Hrow Hh Htotal.
  rewrite (marshal_bitmap_block P obj bm) by assumption.
  split; [reflexivity|]. unfold bitmap_stride. split.
  - rewrite Z.mul_comm. apply Z.mod_mul. lia.
  - pose proof (Z.div_mod (bmWidth bm * bmBitsPixel bm + 15) 16).
    pose proof (Z.mod_pos_bound (bmWidth bm * bmBitsPixel bm + 15) 16).
    lia.
Qed.

Lemma marshal_bitmap_size_witness :
  snd (marshal_data gdi_platform CF_BITMAP (HGDI 7)) = 28.
Proof.
  refine (proj1 (marshal_bitmap_size gdi_platform 7 sample_bitmap
                   _ _ _ _ _));
    [left; reflexivity|reflexivity|vm_compute; split; discriminate
    |vm_compute; split; reflexivity|vm_compute; reflexivity].
Defined.





(** ** Stores into a block *)





Lemma length_flat_map_le_encode n (l : list Z) :
  length (flat_map (le_encode n) l) = (n * length l)%nat.
Proof.
  induction l as [|x l IH]; cbn [flat_map length]; [lia|].
  rewrite length_app, length_le_encode, IH. lia.
Qed.

Lemma bytes_at_all (l : list Z) :
  bytes_at l (Z.of_nat (length l)) = l.
Proof. unfold bytes_at. rewrite Nat2Z.id. apply resize_all. Qed.

Lemma GlobalReAlloc_all (l : list Z) :
  GlobalReAlloc l (Z.of_nat (length l)) = l.
Proof. unfold GlobalReAlloc. rewrite Nat2Z.id. apply resize_all. Qed.

(** X4.  A palette survives the trip: marshal_data writes version 0x300, the
    entry count and the entries, four bytes each, and unmarshal_data accepts
    that block and hands all of it to CreatePalette. *)
Theorem palette_round_trip (P : Platform) (obj : Z) :
  let entries := GetPaletteEntries P obj in
  let n := Z.of_nat (length entries) in
  let payload :=
    le_encode 2 768 ++ le_encode 2 n ++ flat_map (le_encode 4) entries in
  0 < n < 2 ^ 16 ->
  request_payload P CF_PALETTE (HGDI obj) = Some payload
  /\ Z.of_nat (length payload) = 4 + 4 * n
  /\ unmarshal_data P CF_PALETTE payload (Z.of_nat (length payload))
     = gdi_handle (CreatePalette P payload).
Proof.
  cbv zeta. intros Hn.
  set (entries := GetPaletteEntries P obj) in *.
  set (n := Z.of_nat (length entries)) in *.
  set (payload := le_encode 2 768 ++ le_encode 2 n
                    ++ flat_map (le_encode 4) entries).
  assert (Hlen : Z.of_nat (length payload) = 4 + 4 * n).
  { unfold payload.
    rewrite !length_app, !length_le_encode, length_flat_map_le_encode.
    unfold n. lia. }
  split; [|split; [exact Hlen|]].
  - unfold request_payload, marshal_data. cbn [is_null gdi_obj].
    change (CF_PALETTE =? CF_BITMAP) with false.
    change (CF_PALETTE =? CF_DSPBITMAP) with false.
    change (CF_PALETTE =? CF_PALETTE) with true. cbn [orb].
    fold entries. fold n.
    assert (Hw : wrap32 n = n) by (unfold wrap32; apply Z.mod_small; lia).
    rewrite Hw.
    destruct (Z.eqb_spec n 0) as [Hz|_]; [lia|].
    assert (Hw16 : wrap16 n = n) by (unfold wrap16; apply Z.mod_small; lia).
    rewrite Hw16. fold payload.
    assert (Hoff : wrap32 (offsetof_palPalEntry n)
                   = Z.of_nat (length payload)).
    { rewrite Hlen. unfold offsetof_palPalEntry, wrap32.
      apply Z.mod_small. lia. }
    rewrite Hoff, bytes_at_all. cbn [is_null GlobalLock].
    rewrite bytes_at_all. reflexivity.
  - unfold unmarshal_data. rewrite GlobalReAlloc_all.
    change (CF_PALETTE =? CF_BITMAP) with false.
    change (CF_PALETTE =? CF_DSPBITMAP) with false.
    change (CF_PALETTE =? CF_PALETTE) with true. cbv iota.
    unfold sizeof_LOGPALETTE.
    destruct (Z.ltb_spec (Z.of_nat (length payload)) 8) as [Hlt|_]; [lia|].
    assert (Hcount : load 2 2 payload = n).
    { unfold payload.
      change 2 with (Z.of_nat (length (le_encode 2 768))) at 1.
      change 2 with (Z.of_nat 2) at 1.
      rewrite load_field. apply Z.mod_small. lia. }
    rewrite Hcount. unfold offsetof_palPalEntry.
    destruct (Z.ltb_spec (Z.of_nat (length payload)) (4 + 4 * n)) as [Hlt|_];
      [lia|reflexivity].
Qed.

Lemma palette_round_trip_witness :
  request_payload gdi_platform CF_PALETTE (HGDI 9)
  = Some [0; 3; 3; 0; 255; 0; 0; 0; 0; 255; 0; 0; 0; 0; 255; 0]
  /\ unmarshal_data gdi_platform CF_PALETTE
       [0; 3; 3; 0; 255; 0; 0; 0; 0; 255; 0; 0; 0; 0; 255; 0] 16
     = HGDI 4661.
Proof.
  destruct (palette_round_trip gdi_platform 9) as (Hp & _ & Hu);
    [vm_compute; split; reflexivity|].
  split; [exact Hp|exact Hu].
Defined.

(** Decides the comparisons between format constants in the goal. *)
Ltac decide_formats :=
  repeat match goal with
  | |- context [Z.eqb ?a ?b] =>
      is_const a; is_const b;
      let v := eval vm_compute in (Z.eqb a b) in
      match v with true => idtac | false => idtac end;
      change (Z.eqb a b) with v
  end.

(** X5.  An enhanced metafile survives the trip, under either of its two
    formats: the payload is exactly the bytes GetEnhMetaFileBits delivers,
    and unmarshal_data passes exactly those bytes to SetEnhMetaFileBits. *)
Theorem enhmetafile_round_trip (P : Platform) (format : UINT) (obj : Z) :
  format = CF_ENHMETAFILE \/ format = CF_DSPENHMETAFILE ->
  GetEnhMetaFileBits P obj <> [] ->
  Z.of_nat (length (GetEnhMetaFileBits P obj)) < 2 ^ 32 ->
  request_payload P format (HGDI obj) = Some (GetEnhMetaFileBits P obj)
  /\ unmarshal_data P format (GetEnhMetaFileBits P obj)
       (Z.of_nat (length (GetEnhMetaFileBits P obj)))
     = gdi_handle (SetEnhMetaFileBits P (GetEnhMetaFileBits P obj)).
Proof.
  intros Hformat Hne Hlen.
  set (bits := GetEnhMetaFileBits P obj) in *.
  assert (Hpos : 0 < Z.of_nat (length bits))
    by (destruct bits; [congruence|cbn [length]; lia]).
  assert (Hw : wrap32 (Z.of_nat (length bits)) = Z.of_nat (length bits))
    by (unfold wrap32; apply Z.mod_small; lia).
  split.
  - unfold request_payload, marshal_data. cbn [is_null gdi_obj]. fold bits.
    rewrite Hw.
    destruct (Z.eqb_spec (Z.of_nat (length bits)) 0) as [Hz|_]; [lia|].
    destruct Hformat as [-> | ->]; decide_formats; cbn [orb];
      rewrite bytes_at_all; cbn [is_null GlobalLock];
      rewrite bytes_at_all; reflexivity.
  - unfold unmarshal_data. rewrite GlobalReAlloc_all.
    destruct Hformat as [-> | ->]; decide_formats; reflexivity.
Qed.

Lemma enhmetafile_round_trip_witness :
  request_payload gdi_platform CF_ENHMETAFILE (HGDI 10) = Some [1; 0; 0; 0]
  /\ unmarshal_data gdi_platform CF_ENHMETAFILE [1; 0; 0; 0] 4 = HGDI 4662.
Proof.
  apply (enhmetafile_round_trip gdi_platform CF_ENHMETAFILE 10);
    [left; reflexivity|discriminate|reflexivity].
Defined.

Lemma METAFILEPICT_layout (P : Platform) :
  ptr_size P = 4 \/ ptr_size P = 8 ->
  12 <= offsetof_hMF P
  /\ sizeof_METAFILEPICT P = offsetof_hMF P + ptr_size P
  /\ 16 <= sizeof_METAFILEPICT P <= 24.
Proof.
  unfold sizeof_METAFILEPICT, offsetof_hMF, align_up.
  intros [Hp|Hp]; rewrite Hp; vm_compute; repeat split; discriminate.
Qed.



(** * Further properties of the synthesis passes *)

Section SynthesisSources.

Context (P : Platform) {World : Type} (E : Env World).

Lemma add_synthesized_bitmap_table st :
  synthesized_formats (snd (add_synthesized_bitmap P E st))
  = bitmap_marks
      (fst (IsClipboardFormatAvailable E CF_DIB st))
      (fst (IsClipboardFormatAvailable E CF_DIBV5
              (snd (IsClipboardFormatAvailable E CF_DIB st))))
      (fst (IsClipboardFormatAvailable E CF_BITMAP
              (snd (IsClipboardFormatAvailable E CF_DIBV5
                      (snd (IsClipboardFormatAvailable E CF_DIB st))))))
      (synthesized_formats st).
Proof.
  set (q1 := IsClipboardFormatAvailable E CF_DIB st).
  set (q2 := IsClipboardFormatAvailable E CF_DIBV5 (snd q1)).
  set (q3 := IsClipboardFormatAvailable E CF_BITMAP (snd q2)).
  assert (Hq : synthesized_formats (snd q3) = synthesized_formats st)
    by (unfold q3, q2, q1; rewrite !IsClipboardFormatAvailable_table;
        reflexivity).
  unfold add_synthesized_bitmap, bitmap_marks. rewrite !bind_run.
  fold q1. fold q2. fold q3. rewrite <- Hq.
  destruct (negb (fst q3) && negb (fst q1) && negb (fst q2)); [reflexivity|].
  destruct (fst q3 && fst q1 && fst q2); [reflexivity|].
  destruct (fst q3); [|destruct (fst q1)];
    rewrite bind_run, !when_add_synthesized_format; reflexivity.
Qed.

Lemma add_synthesized_metafile_table st :
  synthesized_formats (snd (add_synthesized_metafile P E st))
  = metafile_marks
      (fst (IsClipboardFormatAvailable E CF_METAFILEPICT st))
      (fst (IsClipboardFormatAvailable E CF_ENHMETAFILE
              (snd (IsClipboardFormatAvailable E CF_METAFILEPICT st))))
      (synthesized_formats st).
Proof.
  set (q1 := IsClipboardFormatAvailable E CF_METAFILEPICT st).
  set (q2 := IsClipboardFormatAvailable E CF_ENHMETAFILE (snd q1)).
  assert (Hq : synthesized_formats (snd q2) = synthesized_formats st)
    by (unfold q2, q1; rewrite !IsClipboardFormatAvailable_table;
        reflexivity).
  unfold add_synthesized_metafile, metafile_marks. rewrite !bind_run.
  fold q1. fold q2. rewrite <- Hq.
  destruct (negb (fst q1) && fst q2);
    [apply add_synthesized_format_mark|].
  destruct (negb (fst q2) && fst q1);
    [apply add_synthesized_format_mark|reflexivity].
Qed.

Lemma mark_table_ok format from tbl :
  table_ok tbl -> table_ok (mark format from tbl).
Proof. unfold table_ok, mark. rewrite length_insert. auto. Qed.

Lemma synthesized_from_mark_eq tbl format from :
  table_ok tbl -> 0 <= format < CF_MAX ->
  synthesized_from (mark format from tbl) format = from.
Proof. apply synthesized_from_insert_eq. Qed.

Lemma synthesized_from_mark_ne tbl f g from :
  0 <= f -> 0 <= g -> f <> g ->
  synthesized_from (mark f from tbl) g = synthesized_from tbl g.
Proof. apply synthesized_from_insert_ne. Qed.

End SynthesisSources.

(** Rewrites the entries of a table after a few marks. *)
Ltac read_marks :=
  repeat first
    [ rewrite synthesized_from_mark_eq
        by (first [assumption
                  | repeat apply mark_table_ok; assumption
                  | vm_compute; split; congruence])
    | rewrite synthesized_from_mark_ne
        by (first [assumption | vm_compute; congruence | lia]) ].

(** X7.  In add_synthesized_bitmap, when some but not all of CF_BITMAP,
    CF_DIB and CF_DIBV5 are reported available, every member reported
    missing is marked as synthesized from one source: CF_BITMAP if that is
    available, else CF_DIB if that is available, else CF_DIBV5.  The entries
    of the available members and of every other format are left as they
    were. *)
Theorem add_synthesized_bitmap_sources (P : Platform) {World : Type}
    (E : Env World) (st : state World) :
  table_ok (synthesized_formats st) ->
  let q1 := IsClipboardFormatAvailable E CF_DIB st in
  let q2 := IsClipboardFormatAvailable E CF_DIBV5 (snd q1) in
  let q3 := IsClipboardFormatAvailable E CF_BITMAP (snd q2) in
  let has_dib := fst q1 in
  let has_dibv5 := fst q2 in
  let has_bitmap := fst q3 in
  let source :=
    if has_bitmap then CF_BITMAP else if has_dib then CF_DIB else CF_DIBV5 in
  let tbl := synthesized_formats st in
  let tbl' := synthesized_formats (snd (add_synthesized_bitmap P E st)) in
  has_bitmap || has_dib || has_dibv5 = true ->
  synthesized_from tbl' CF_BITMAP
  = (if has_bitmap then synthesized_from tbl CF_BITMAP else source)
  /\ synthesized_from tbl' CF_DIB
     = (if has_dib then synthesized_from tbl CF_DIB else source)
  /\ synthesized_from tbl' CF_DIBV5
     = (if has_dibv5 then synthesized_from tbl CF_DIBV5 else source)
  /\ forall f, 0 <= f -> f <> CF_BITMAP -> f <> CF_DIB -> f <> CF_DIBV5 ->
       synthesized_from tbl' f = synthesized_from tbl f.
Proof.
  intros Hok q1 q2 q3 has_dib has_dibv5 has_bitmap source tbl tbl' Hsome.
  assert (Htbl' : tbl' = bitmap_marks has_dib has_dibv5 has_bitmap tbl)
    by apply add_synthesized_bitmap_table.
  rewrite Htbl'. clear Htbl'. unfold source, bitmap_marks, mark_unless.
  fold tbl in Hok.
  destruct has_bitmap, has_dib, has_dibv5; try discriminate Hsome;
    cbn [negb andb];
    (split; [|split; [|split; [|intros f Hf H1 H2 H3]]]);
    read_marks; reflexivity.
Qed.

Lemma add_synthesized_bitmap_sources_witness :
  synthesized_from
    (synthesized_formats
       (snd (add_synthesized_bitmap sample_platform Arbiter.quiet_env
               dib_session)))
    CF_BITMAP
  = CF_DIB
  /\ synthesized_from
       (synthesized_formats
          (snd (add_synthesized_bitmap sample_platform Arbiter.quiet_env
                  dib_session)))
       CF_DIBV5
     = CF_DIB.
Proof.
  destruct (add_synthesized_bitmap_sources sample_platform Arbiter.quiet_env
              dib_session eq_refl eq_refl) as (Hbitmap & _ & Hv5 & _).
  exact (conj Hbitmap Hv5).
Defined.

(** X8.  In add_synthesized_metafile, when exactly one of CF_METAFILEPICT
    and CF_ENHMETAFILE is reported available, the other is marked as
    synthesized from it; when both or neither are, the table is left as it
    was.  No other entry changes in either case. *)
Theorem add_synthesized_metafile_sources (P : Platform) {World : Type}
    (E : Env World) (st : state World) :
  table_ok (synthesized_formats st) ->
  let q1 := IsClipboardFormatAvailable E CF_METAFILEPICT st in
  let q2 := IsClipboardFormatAvailable E CF_ENHMETAFILE (snd q1) in
  let has_mf := fst q1 in
  let has_emf := fst q2 in
  let tbl := synthesized_formats st in
  let tbl' := synthesized_formats (snd (add_synthesized_metafile P E st)) in
  synthesized_from tbl' CF_METAFILEPICT
  = (if negb has_mf && has_emf then CF_ENHMETAFILE
     else synthesized_from tbl CF_METAFILEPICT)
  /\ synthesized_from tbl' CF_ENHMETAFILE
     = (if negb has_emf && has_mf then CF_METAFILEPICT
        else synthesized_from tbl CF_ENHMETAFILE)
  /\ (Bool.eqb has_mf has_emf = true -> tbl' = tbl)
  /\ forall f, 0 <= f -> f <> CF_METAFILEPICT -> f <> CF_ENHMETAFILE ->
       synthesized_from tbl' f = synthesized_from tbl f.
Proof.
  intros Hok q1 q2 has_mf has_emf tbl tbl'.
  assert (Htbl' : tbl' = metafile_marks has_mf has_emf tbl)
    by apply add_synthesized_metafile_table.
  rewrite Htbl'. clear Htbl'. unfold metafile_marks.
  fold tbl in Hok.
  destruct has_mf, has_emf; cbn [negb andb Bool.eqb];
    (split; [|split; [|split; [intros Hsame|intros f Hf H1 H2]]]);
    try discriminate Hsame; read_marks; reflexivity.
Qed.

Lemma add_synthesized_metafile_sources_witness :
  synthesized_from
    (synthesized_formats
       (snd (add_synthesized_metafile sample_platform Arbiter.quiet_env
               emf_session)))
    CF_METAFILEPICT
  = CF_ENHMETAFILE.
Proof.
  destruct (add_synthesized_metafile_sources sample_platform
              Arbiter.quiet_env emf_session eq_refl) as (Hmf & _).
  exact Hmf.
Defined.

(** * What unmarshal_data can return *)

(** X9.  unmarshal_data returns NULL only where it hands the block to gdi32
    and gdi32 refuses it: for every format other than CF_BITMAP, CF_PALETTE
    and the two enhanced-metafile formats its result is a memory handle,
    of exactly the size received, whatever the bytes. *)
Theorem unmarshal_data_not_null (P : Platform) (format : UINT)
    (data : list byte) (size : Z) :
  ptr_size P = 4 \/ ptr_size P = 8 ->
  format <> CF_BITMAP -> format <> CF_PALETTE ->
  format <> CF_ENHMETAFILE -> format <> CF_DSPENHMETAFILE ->
  exists mem,
    unmarshal_data P format data size = HGLOBAL mem
    /\ length mem = Z.to_nat size.
Proof.
  intros Hptr H1 H2 H3 H4. apply Z.eqb_neq in H1, H2, H3, H4.
  destruct (METAFILEPICT_layout P Hptr) as (Hoff & Hsum & _).
  assert (Hlen : length (GlobalReAlloc data size) = Z.to_nat size)
    by (unfold GlobalReAlloc; apply length_resize).
  unfold unmarshal_data. rewrite H1, H2, H3, H4. cbn [orb].
  destruct (format =? CF_DSPBITMAP); [eauto|].
  destruct ((format =? CF_METAFILEPICT) || (format =? CF_DSPMETAFILEPICT));
    [|eauto].
  destruct (Z.leb_spec size (sizeof_METAFILEPICT P)) as [Hle|Hgt]; [eauto|].
  eexists. split; [reflexivity|].
  unfold store.
  rewrite !length_app, length_take, length_le_encode, length_drop, Hlen.
  destruct Hptr; lia.
Qed.

Lemma unmarshal_data_not_null_witness :
  exists mem,
    unmarshal_data sample_platform CF_DSPBITMAP headless_bitmap_payload 24
    = HGLOBAL mem
    /\ length mem = Z.to_nat 24.
Proof.
  apply (unmarshal_data_not_null sample_platform CF_DSPBITMAP
           headless_bitmap_payload 24);
    first [discriminate|left; reflexivity].
Defined.

(** * Traces and frames of the entry points *)

Section Keeps.

Context {World : Type} (R : state World -> state World -> Prop).
Hypothesis R_refl : forall st, R st st.
Hypothesis R_trans : forall st1 st2 st3, R st1 st2 -> R st2 st3 -> R st1 st3.

Lemma keeps_ret {A} (a : A) : keeps R (ret a).
Proof. intros st. apply R_refl. Qed.

Lemma keeps_bind {A B} (c : M A) (k : A -> M (World:=World) B) :
  keeps R c -> (forall a, keeps R (k a)) -> keeps R (bind c k).
Proof.
  intros Hc Hk st. rewrite bind_run.
  eapply R_trans; [apply Hc|apply Hk].
Qed.

Lemma keeps_when b (c : M (World:=World) unit) :
  keeps R c -> keeps R (when b c).
Proof. intros Hc. destruct b; [exact Hc|apply keeps_ret]. Qed.

Lemma keeps_get_state : keeps R (get_state (World:=World)).
Proof. intros st. apply R_refl. Qed.

End Keeps.

Section Emits.

Context {World : Type} (p : event -> bool).

Lemma emits_refl (st : state World) : emits p st st.
Proof. exists []. rewrite app_nil_r. split; reflexivity. Qed.

Lemma emits_trans (st1 st2 st3 : state World) :
  emits p st1 st2 -> emits p st2 st3 -> emits p st1 st3.
Proof.
  intros (t1 & H1 & Hp1) (t2 & H2 & Hp2). exists (t1 ++ t2).
  rewrite H2, H1, <- app_assoc, forallb_app, Hp1, Hp2.
  split; reflexivity.
Qed.

Lemma emits_one (st st' : state World) e :
  trace st' = trace st ++ [e] -> p e = true -> emits p st st'.
Proof.
  intros Ht He. exists [e]. split; [exact Ht|].
  cbn [forallb]. rewrite He. reflexivity.
Qed.

Lemma emits_same (st st' : state World) :
  trace st' = trace st -> emits p st st'.
Proof.
  intros Ht. exists []. rewrite app_nil_r. split; [exact Ht|reflexivity].
Qed.

Lemma extern_emits {A} e (f : World -> A * World) :
  p e = true -> keeps (emits p) (extern e f).
Proof.
  intros He st. apply (emits_one _ _ e); [|exact He].
  unfold extern. destruct (f (world st)). reflexivity.
Qed.

Lemma emit_emits e : p e = true -> keeps (emits p) (emit (World:=World) e).
Proof. intros He st. apply (emits_one _ _ e); [reflexivity|exact He]. Qed.

Lemma set_bCBHasChanged_emits b :
  keeps (emits p) (set_bCBHasChanged (World:=World) b).
Proof. intros st. apply emits_same. reflexivity. Qed.

Lemma set_synthesized_formats_emits tbl :
  keeps (emits p) (set_synthesized_formats (World:=World) tbl).
Proof. intros st. apply emits_same. reflexivity. Qed.

End Emits.

Section FlagStays.

Context {World : Type}.

Lemma flag_stays_refl (st : state World) : flag_stays st st.
Proof. intros H. exact H. Qed.

Lemma flag_stays_trans (st1 st2 st3 : state World) :
  flag_stays st1 st2 -> flag_stays st2 st3 -> flag_stays st1 st3.
Proof. unfold flag_stays. auto. Qed.

Lemma extern_flag_stays {A} e (f : World -> A * World) :
  keeps flag_stays (extern e f).
Proof.
  intros st H. unfold extern. destruct (f (world st)). exact H.
Qed.

End FlagStays.

Section EntryPointTraces.

Context (P : Platform) {World : Type} (E : Env World).

Lemma IsClipboardFormatAvailable_emits p format :
  p ev_UpdateClipboard = true ->
  p (ev_get_clipboard_formats format) = true ->
  keeps (emits p) (IsClipboardFormatAvailable E format).
Proof.
  intros Hu Hq. unfold IsClipboardFormatAvailable.
  destruct (format =? 0);
    [apply keeps_ret, emits_refl|].
  apply keeps_bind; [apply emits_trans|apply extern_emits, Hu|intros _].
  apply keeps_bind; [apply emits_trans|apply extern_emits, Hq|].
  intros [status count]. apply keeps_ret, emits_refl.
Qed.

Lemma IsClipboardFormatAvailable_flag format st :
  bCBHasChanged (snd (IsClipboardFormatAvailable E format st))
  = bCBHasChanged st.
Proof.
  unfold IsClipboardFormatAvailable.
  destruct (format =? 0); [reflexivity|].
  unfold driver_update. rewrite !bind_run. unfold extern. cbn [world].
  repeat match goal with
         | |- context [let '(_, _) := ?x in _] => destruct x
         end.
  reflexivity.
Qed.

Lemma SetClipboardData_emits p format data :
  (forall payload, request_payload P format data = Some payload ->
     p (ev_set_clipboard_data format payload) = true) ->
  keeps (emits p) (SetClipboardData P E format data).
Proof.
  intros Hp st. rewrite SetClipboardData_eq.
  destruct (request_payload P format data) as [payload|];
    [|apply emits_refl].
  cbn [snd]. apply (emits_one _ _ _ (ev_set_clipboard_data format payload));
    [|apply Hp; reflexivity].
  unfold after_set_request.
  destruct (set_clipboard_data E format payload (world st)). reflexivity.
Qed.

Lemma SetClipboardData_flag_stays format data :
  keeps flag_stays (SetClipboardData P E format data).
Proof.
  intros st Hflag. rewrite SetClipboardData_eq.
  destruct (request_payload P format data) as [payload|]; [|exact Hflag].
  cbn [snd]. unfold after_set_request.
  destruct (set_clipboard_data E format payload (world st)) as [status w].
  cbn [bCBHasChanged]. rewrite Hflag. destruct (status =? 0); reflexivity.
Qed.

Lemma add_synthesized_format_emits p format from :
  p (ev_set_clipboard_data format []) = true ->
  keeps (emits p) (add_synthesized_format P E format from).
Proof.
  intros Hp. unfold add_synthesized_format.
  apply keeps_bind; [apply emits_trans| |intros _].
  - apply SetClipboardData_emits. intros payload Hpayload.
    cbn in Hpayload. injection Hpayload as <-. exact Hp.
  - apply keeps_bind; [apply emits_trans|apply keeps_get_state, emits_refl|].
    intros st0. apply set_synthesized_formats_emits.
Qed.

Lemma add_synthesized_format_flag_stays format from :
  keeps flag_stays (add_synthesized_format P E format from).
Proof.
  unfold add_synthesized_format.
  apply keeps_bind;
    [apply flag_stays_trans|apply SetClipboardData_flag_stays|intros _].
  intros st H. exact H.
Qed.

Lemma locale_payload :
  request_payload P CF_LOCALE (HGLOBAL (le_encode 4 (GetUserDefaultLCID P)))
  = Some (le_encode 4 (GetUserDefaultLCID P)).
Proof. reflexivity. Qed.

Lemma set_clipboard_locale_emits p :
  p (ev_set_clipboard_data CF_LOCALE (le_encode 4 (GetUserDefaultLCID P)))
  = true ->
  keeps (emits p) (set_clipboard_locale P E).
Proof.
  intros Hp. unfold set_clipboard_locale.
  apply keeps_bind; [apply emits_trans| |intros _; apply keeps_ret, emits_refl].
  apply SetClipboardData_emits. intros payload Hpayload.
  rewrite locale_payload in Hpayload. injection Hpayload as <-. exact Hp.
Qed.

Lemma set_clipboard_locale_flag_stays :
  keeps flag_stays (set_clipboard_locale P E).
Proof.
  unfold set_clipboard_locale.
  apply keeps_bind;
    [apply flag_stays_trans|apply SetClipboardData_flag_stays|intros _].
  apply keeps_ret, flag_stays_refl.
Qed.

End EntryPointTraces.

(** Walks through a computation built from [bind], [when], conditionals and
    the leaves that [leaf] knows, for a relation with the given proofs of
    transitivity and reflexivity. *)
Ltac walk trans refl leaf :=
  repeat first
    [ leaf
    | apply keeps_ret; apply refl
    | apply keeps_get_state; apply refl
    | apply keeps_when; [apply refl|]
    | apply keeps_bind; [apply trans| |intros ?]
    | match goal with
      | |- keeps _ (if ?b then _ else _) => destruct b
      | |- keeps _ (let '(_, _) := ?x in _) => destruct x
      end ].

Section CloseFacts.

Context (P : Platform) {World : Type} (E : Env World).

Lemma close_event_locale :
  close_event P
    (ev_set_clipboard_data CF_LOCALE (le_encode 4 (GetUserDefaultLCID P)))
  = true.
Proof.
  unfold close_event. apply orb_true_iff. right.
  rewrite bool_decide_eq_true_2 by reflexivity. reflexivity.
Qed.

Lemma synthesis_pass_emits :
  keeps (emits (close_event P))
    (bind (add_synthesized_text P E) (fun _ =>
     bind (add_synthesized_bitmap P E) (fun _ =>
     add_synthesized_metafile P E))).
Proof.
  unfold add_synthesized_text, add_synthesized_bitmap,
    add_synthesized_metafile.
  walk (@emits_trans World (close_event P))
       (@emits_refl World (close_event P))
       ltac:(first
               [ apply IsClipboardFormatAvailable_emits; reflexivity
               | apply add_synthesized_format_emits; reflexivity
               | apply set_clipboard_locale_emits, close_event_locale ]).
Qed.

Lemma synthesis_pass_flag_stays :
  keeps flag_stays
    (bind (add_synthesized_text P E) (fun _ =>
     bind (add_synthesized_bitmap P E) (fun _ =>
     add_synthesized_metafile P E))).
Proof.
  assert (Hq : forall format,
            keeps flag_stays (IsClipboardFormatAvailable E format)).
  { intros format st H. rewrite IsClipboardFormatAvailable_flag. exact H. }
  unfold add_synthesized_text, add_synthesized_bitmap,
    add_synthesized_metafile.
  walk (@flag_stays_trans World) (@flag_stays_refl World)
       ltac:(first
               [ apply Hq
               | apply add_synthesized_format_flag_stays
               | apply set_clipboard_locale_flag_stays ]).
Qed.

End CloseFacts.

(** X10.  CloseClipboard converts nothing and reads no data.  Whatever the
    state and the server, the events it causes are availability queries,
    set requests that announce a synthesizable format with no data (or
    store the four bytes of the user's locale under CF_LOCALE), the close
    request, and WM_DRAWCLIPBOARD for the viewer: the synthesized formats
    are left to be rendered on demand. *)
Theorem CloseClipboard_is_lazy (P : Platform) {World : Type} (E : Env World)
    (st : state World) :
  emits (close_event P) st (snd (CloseClipboard P E st)).
Proof.
  revert st. change (keeps (emits (close_event P)) (CloseClipboard P E)).
  unfold CloseClipboard.
  apply keeps_bind;
    [apply emits_trans|apply keeps_get_state, emits_refl|intros st0].
  apply keeps_bind; [apply emits_trans| |intros _].
  - destruct (bCBHasChanged st0); [|apply keeps_ret, emits_refl].
    apply keeps_bind;
      [apply emits_trans|apply set_synthesized_formats_emits|intros _].
    apply synthesis_pass_emits.
  - unfold send_message.
    walk (@emits_trans World (close_event P))
         (@emits_refl World (close_event P))
         ltac:(first
                 [ apply extern_emits; reflexivity
                 | apply set_bCBHasChanged_emits ]).
Qed.

(** X11.  CloseClipboard and its request.  The request is sent in the state
    the synthesis pass leaves (the state of the call when the changed-flag
    is clear).  The call returns TRUE exactly when the server answers that
    request with status 0; then the flag is clear afterwards and the viewer
    the server names, if any, is sent WM_DRAWCLIPBOARD with the owner.  When
    the server refuses, the call returns FALSE, the flag is as it was and
    nothing is sent, although the table is already the one the pass built. *)
Theorem CloseClipboard_flag (P : Platform) {World : Type} (E : Env World)
    (st : state World) :
  let st1 := close_pass P E st in
  let reply := close_clipboard E (world st1) in
  let status := fst (fst (fst reply)) in
  let viewer := snd (fst (fst reply)) in
  let owner := snd (fst reply) in
  fst (CloseClipboard P E st) = (status =? 0)
  /\ bCBHasChanged (snd (CloseClipboard P E st))
     = (if status =? 0 then false else bCBHasChanged st)
  /\ synthesized_formats (snd (CloseClipboard P E st))
     = synthesized_formats st1
  /\ trace (snd (CloseClipboard P E st))
     = trace st1
         ++ ev_close_clipboard
            :: (if (status =? 0) && negb (viewer =? 0)
                then [ev_SendMessage viewer WM_DRAWCLIPBOARD owner]
                else [])
  /\ (bCBHasChanged st = false -> st1 = st).
Proof.
  cbv zeta. unfold CloseClipboard. rewrite bind_run. cbn [get_state fst snd].
  rewrite bind_run.
  change (snd ((if bCBHasChanged st then _ else ret tt) st))
    with (close_pass P E st).
  assert (Hflag : bCBHasChanged (close_pass P E st) = bCBHasChanged st).
  { unfold close_pass. destruct (bCBHasChanged st) eqn:Hb; [|exact Hb].
    rewrite bind_run. apply synthesis_pass_flag_stays. exact Hb. }
  assert (Hsame : bCBHasChanged st = false -> close_pass P E st = st).
  { intros Hb. unfold close_pass. rewrite Hb. reflexivity. }
  revert Hflag Hsame. generalize (close_pass P E st). intros st1 Hflag Hsame.
  rewrite bind_run. unfold extern.
  destruct (close_clipboard E (world st1)) as [[[status viewer] owner] w].
  cbn [fst snd]. unfold send_message, extern.
  destruct (status =? 0); run_monad;
    destruct (negb (viewer =? 0)); run_monad;
    rewrite <- ?app_assoc; repeat split; auto.
Qed.

Lemma CloseClipboard_flag_witness :
  fst (CloseClipboard sample_platform Arbiter.quiet_env stale_client) = false
  /\ bCBHasChanged
       (snd (CloseClipboard sample_platform Arbiter.quiet_env stale_client))
     = true
  /\ fst (CloseClipboard sample_platform Arbiter.quiet_env owned_session)
     = true
  /\ bCBHasChanged
       (snd (CloseClipboard sample_platform Arbiter.quiet_env owned_session))
     = false.
Proof.
  destruct (CloseClipboard_flag sample_platform Arbiter.quiet_env
              stale_client) as (Hr & Hf & _).
  destruct (CloseClipboard_flag sample_platform Arbiter.quiet_env
              owned_session) as (Hr' & Hf' & _).
  exact (conj Hr (conj Hf (conj Hr' Hf'))).
Defined.

(** * Reads of formats that are not marked *)

Section PlainReads.

Context (P : Platform) {World : Type} (E : Env World).

Lemma logged_emits p e (w : World) st :
  p e = true -> emits p st (logged e w st).
Proof. intros He. apply (emits_one _ _ _ e); [reflexivity|exact He]. Qed.

Lemma GetClipboardData_loop_emits fuel : forall format size render st,
  emits (read_event format) st
    (snd (GetClipboardData_loop P E fuel format size render st)).
Proof.
  induction fuel as [|fuel IH]; intros format size render st.
  - apply emits_refl.
  - rewrite GetClipboardData_loop_step. cbv zeta.
    set (reply := fst (get_clipboard_data E format size (world st))).
    set (st1 := logged _ _ st).
    assert (H1 : emits (read_event format) st st1)
      by (apply logged_emits; cbn [read_event]; apply Z.eqb_refl).
    destruct ((get_status reply =? 0) && negb (get_total reply =? 0));
      [exact H1|].
    destruct (get_status reply =? STATUS_BUFFER_OVERFLOW);
      [eapply emits_trans; [exact H1|apply IH]|].
    destruct (negb (get_status reply =? 0)); [exact H1|].
    destruct (render && negb (get_owner reply =? 0)); [|exact H1].
    eapply emits_trans; [exact H1|].
    eapply emits_trans; [|apply IH].
    apply logged_emits. cbn [read_event]. rewrite !Z.eqb_refl. reflexivity.
Qed.


End PlainReads.

(** X12.  What a read of an unmarked format does itself.  The calls that
    GetClipboardData makes on a format that is not marked as synthesized
    are get_clipboard_data requests for that format and WM_RENDERFORMAT
    messages for that format, and nothing else.  When it sends no
    WM_RENDERFORMAT, so that no window procedure runs inside it, the
    changed-flag and the table are as they were and every call it made is a
    get_clipboard_data request.  (What the window procedure of an owner does
    when it is sent WM_RENDERFORMAT belongs to that owner.) *)
Theorem GetClipboardData_read_only (P : Platform) {World : Type}
    (E : Env World) (fuel : nat) (format : UINT) (st : state World) :
  CF_MAX <= format \/ synthesized_from (synthesized_formats st) format = 0 ->
  let st' := snd (GetClipboardData P E fuel format st) in
  emits (read_event format) st st'
  /\ (count_events is_render_request (trace st')
      = count_events is_render_request (trace st) ->
      bCBHasChanged st' = bCBHasChanged st
      /\ synthesized_formats st' = synthesized_formats st
      /\ emits is_get_request st st').
Proof.
  intros Hns st'. unfold st'. destruct fuel as [|fuel].
  - cbn [GetClipboardData ret snd].
    split; [apply emits_refl|]. intros _.
    split; [reflexivity|split; [reflexivity|apply emits_refl]].
  - rewrite GetClipboardData_not_synthesized by exact Hns.
    destruct (GetClipboardData_loop_frame P E fuel format 1024 true st)
      as (Hflag & Htbl & _).
    pose proof (GetClipboardData_loop_emits P E fuel format 1024 true st)
      as (t & Ht & Hp).
    split; [exists t; split; assumption|].
    intros Hcount. split; [exact Hflag|split; [exact Htbl|]].
    exists t. split; [exact Ht|].
    rewrite Ht, count_events_app in Hcount.
    assert (Hnone : count_events is_render_request t = 0%nat) by lia.
    clear - Hp Hnone. induction t as [|e t IH]; [reflexivity|].
    cbn [forallb count_events] in *.
    apply andb_true_iff in Hp as [He Hp].
    destruct (is_render_request e) eqn:Hr; [discriminate Hnone|].
    rewrite IH by (first [exact Hp|exact Hnone]).
    destruct e; cbn [read_event is_render_request is_get_request] in *;
      try discriminate He; try reflexivity.
    apply andb_true_iff in He as [He _]. congruence.
Qed.

Lemma GetClipboardData_read_only_witness :
  emits (read_event CF_TEXT) announced_text
    (snd (GetClipboardData sample_platform Arbiter.quiet_env 5 CF_TEXT
            announced_text))
  /\ emits is_get_request short_bitmap_session
       (snd (GetClipboardData sample_platform Arbiter.quiet_env 5 CF_BITMAP
               short_bitmap_session)).
Proof.
  split.
  - apply (GetClipboardData_read_only sample_platform Arbiter.quiet_env 5
             CF_TEXT announced_text).
    right. reflexivity.
  - apply (GetClipboardData_read_only sample_platform Arbiter.quiet_env 5
             CF_BITMAP short_bitmap_session);
      [right; reflexivity|reflexivity].
Defined.

(** X13.  The buffer is grown once.  When the server answers the first
    request (1024 bytes offered) with a short-buffer status and then serves
    the second, a read of an unmarked format makes exactly those two
    requests, the second offering the size the server announced, and returns
    what unmarshal_data builds from the second reply. *)
Theorem GetClipboardData_buffer_growth (P : Platform) {World : Type}
    (E : Env World) (fuel : nat) (format : UINT) (st : state World) :
  CF_MAX <= format \/ synthesized_from (synthesized_formats st) format = 0 ->
  let reply := fst (get_clipboard_data E format 1024 (world st)) in
  let st1 :=
    logged (ev_get_clipboard_data format 1024)
      (snd (get_clipboard_data E format 1024 (world st))) st in
  let reply2 :=
    fst (get_clipboard_data E format (get_total reply) (world st1)) in
  let st2 :=
    logged (ev_get_clipboard_data format (get_total reply))
      (snd (get_clipboard_data E format (get_total reply) (world st1))) st1 in
  get_status reply = STATUS_BUFFER_OVERFLOW ->
  get_status reply2 = 0 ->
  get_total reply2 <> 0 ->
  GetClipboardData P E (S (S (S fuel))) format st
  = (Done (unmarshal_data P format
             (bytes_at (get_data reply2) (get_total reply))
             (get_total reply2)),
     st2).
Proof.
  intros Hns reply st1 reply2 st2 Hover Hok Htotal.
  rewrite GetClipboardData_not_synthesized by exact Hns.
  rewrite GetClipboardData_loop_step. cbv zeta. fold reply. fold st1.
  rewrite Hover.
  change (STATUS_BUFFER_OVERFLOW =? 0) with false.
  change (STATUS_BUFFER_OVERFLOW =? STATUS_BUFFER_OVERFLOW) with true.
  cbn [andb].
  rewrite GetClipboardData_loop_step. cbv zeta. fold reply2. fold st2.
  rewrite Hok. apply Z.eqb_neq in Htotal. rewrite Htotal. reflexivity.
Qed.

Lemma GetClipboardData_buffer_growth_witness :
  fst (GetClipboardData sample_platform Arbiter.quiet_env 3 CF_UNICODETEXT
         large_text_session)
  = Done (HGLOBAL (replicate 1100 65)).
Proof.
  rewrite (GetClipboardData_buffer_growth sample_platform Arbiter.quiet_env
             0 CF_UNICODETEXT large_text_session);
    [reflexivity|right; reflexivity|reflexivity|reflexivity
    |vm_compute; discriminate].
Defined.



(** * The assertion in render_synthesized_format *)

Section NoAssertion.

Context (P : Platform) {World : Type} (E : Env World).

Lemma synthesizable_check_sound tbl : forall i,
  synthesizable_check i tbl = true ->
  forall n, default 0 (tbl !! n) <> 0 ->
            synthesizable (i + Z.of_nat n) = true.
Proof.
  induction tbl as [|from tbl IH]; intros i Hchk n Hn.
  - rewrite lookup_nil in Hn. cbn in Hn. congruence.
  - cbn [synthesizable_check] in Hchk.
    apply andb_true_iff in Hchk as [Hhere Hrest].
    destruct n as [|n].
    + cbn in Hn. rewrite Z.add_0_r.
      apply orb_true_iff in Hhere as [Hz|Hs]; [|exact Hs].
      apply Z.eqb_eq in Hz. congruence.
    + replace (i + Z.of_nat (S n)) with (i + 1 + Z.of_nat n) by lia.
      apply IH; assumption.
Qed.

Lemma synthesizable_check_marks tbl :
  synthesizable_check 0 tbl = true -> marks_synthesizable tbl.
Proof.
  intros Hchk f Hf Hmark. unfold synthesized_from in Hmark.
  pose proof (synthesizable_check_sound tbl 0 Hchk (Z.to_nat f) Hmark) as H.
  rewrite Z2Nat.id in H by exact Hf. exact H.
Qed.

Lemma cleared_marks_synthesizable tbl tbl' :
  cleared tbl tbl' -> marks_synthesizable tbl -> marks_synthesizable tbl'.
Proof.
  intros [_ Hc] Hs f Hf Hmark. apply Hs; [exact Hf|].
  destruct (Hc f) as [Heq|Hz]; congruence.
Qed.

Lemma no_synthesized_formats_synthesizable :
  marks_synthesizable no_synthesized_formats.
Proof. apply synthesizable_check_marks. reflexivity. Qed.

Lemma close_marks_synthesizable b1 b2 b3 b4 b5 b6 b7 b8 :
  synthesizable_check 0
    (metafile_marks b7 b8
       (bitmap_marks b4 b5 b6 (text_marks b1 b2 b3 no_synthesized_formats)))
  = true.
Proof.
  destruct b1, b2, b3, b4, b5, b6, b7, b8; vm_compute; reflexivity.
Qed.

Lemma OpenClipboard_table hwnd st :
  synthesized_formats (snd (OpenClipboard E hwnd st)) = synthesized_formats st
  \/ synthesized_formats (snd (OpenClipboard E hwnd st))
     = no_synthesized_formats.
Proof.
  unfold OpenClipboard. run_monad.
  destruct (open_clipboard E hwnd (pUpdateClipboard E (world st)))
    as [[status owner] w].
  destruct (status =? 0); [|left; reflexivity].
  destruct (owner =? 0); [right|left]; reflexivity.
Qed.

Lemma EmptyClipboard_table st :
  synthesized_formats (snd (EmptyClipboard E st)) = synthesized_formats st
  \/ synthesized_formats (snd (EmptyClipboard E st)) = no_synthesized_formats.
Proof.
  unfold EmptyClipboard, GetClipboardOwner. run_monad.
  destruct (get_clipboard_info E (world st)) as [[status owner] w].
  run_monad.
  destruct (negb ((if status =? 0 then owner else 0) =? 0)); run_monad;
    match goal with
    | |- context [empty_clipboard E ?a] =>
        destruct (empty_clipboard E a) as [status' w']
    end;
    destruct (status' =? 0); first [right; reflexivity|left; reflexivity].
Qed.

Lemma run_call_synthesizable c st :
  marks_synthesizable (synthesized_formats st) ->
  marks_synthesizable (synthesized_formats (run_call P E c st)).
Proof.
  intros Hs. destruct c as [hwnd| | |format data|fuel format];
    cbn [run_call].
  - destruct (OpenClipboard_table hwnd st) as [-> | ->];
      [exact Hs|apply no_synthesized_formats_synthesizable].
  - destruct (CloseClipboard_table P E st)
      as [[Heq _]|(b1 & b2 & b3 & b4 & b5 & b6 & b7 & b8 & Heq)];
      rewrite Heq; [exact Hs|].
    apply synthesizable_check_marks, close_marks_synthesizable.
  - destruct (EmptyClipboard_table st) as [-> | ->];
      [exact Hs|apply no_synthesized_formats_synthesizable].
  - eapply cleared_marks_synthesizable;
      [apply SetClipboardData_cleared|exact Hs].
  - eapply cleared_marks_synthesizable;
      [apply GetClipboardData_cleared|exact Hs].
Qed.

Lemma reachable_synthesizable calls : forall st,
  marks_synthesizable (synthesized_formats st) ->
  marks_synthesizable
    (synthesized_formats (fold_left (fun s c => run_call P E c s) calls st)).
Proof.
  induction calls as [|c calls IH]; intros st Hs; cbn [fold_left];
    [exact Hs|].
  apply IH, run_call_synthesizable, Hs.
Qed.

(** A mark on a slot below CF_MAX sits on a format with a case in the
    switch, also when the index is read from a negative number. *)
Lemma marked_synthesizable tbl format :
  marks_synthesizable tbl ->
  synthesized_from tbl format <> 0 ->
  synthesizable format = true.
Proof.
  intros Hs Hmark. destruct (Z.le_gt_cases 0 format) as [Hf|Hf];
    [apply Hs; assumption|].
  exfalso.
  assert (H0 : synthesized_from tbl 0 <> 0).
  { unfold synthesized_from in *.
    replace (Z.to_nat format) with (Z.to_nat 0) in Hmark by lia.
    exact Hmark. }
  pose proof (Hs 0 ltac:(lia) H0) as Habs. discriminate Habs.
Qed.

Section Dispatch.

Variable get : UINT -> M (World:=World) (outcome HANDLE).

Hypothesis get_cleared : forall format st,
  cleared (synthesized_formats st) (synthesized_formats (snd (get format st))).

Hypothesis get_runs : forall format st,
  marks_synthesizable (synthesized_formats st) ->
  fst (get format st) <> Crashed.

Lemma get_clipboard_locale_runs st :
  marks_synthesizable (synthesized_formats st) ->
  fst (get_clipboard_locale P get st) <> Crashed.
Proof.
  intros Hs. unfold get_clipboard_locale. rewrite bind_outcome_run.
  pose proof (get_runs CF_LOCALE st Hs) as Hrun.
  destruct (fst (get CF_LOCALE st)); [discriminate|congruence|discriminate].
Qed.

Lemma render_synthesized_format_runs format from st :
  synthesizable format = true ->
  marks_synthesizable (synthesized_formats st) ->
  fst (render_synthesized_format P E get format from st) <> Crashed.
Proof.
  intros Hf Hs. unfold render_synthesized_format. rewrite bind_outcome_run.
  pose proof (get_runs from st Hs) as Hrun.
  pose proof (get_cleared from st) as Hc.
  destruct (fst (get from st)) as [data0| |];
    [|congruence|discriminate].
  destruct (is_null data0); [discriminate|].
  rewrite bind_outcome_run.
  set (st1 := snd (get from st)) in *.
  assert (Hs1 : marks_synthesizable (synthesized_formats st1))
    by (eapply cleared_marks_synthesizable; eassumption).
  match goal with
  | |- context [fst (?sw st1)] => set (switch := sw)
  end.
  assert (Hsw : fst (switch st1) <> Crashed).
  { unfold switch. unfold synthesizable in Hf.
    destruct ((format =? CF_TEXT) || (format =? CF_OEMTEXT)) eqn:Htext.
    { rewrite bind_run. unfold render_synthesized_textA.
      rewrite bind_outcome_run.
      pose proof (get_clipboard_locale_runs
                    (snd (emit (ev_convert format from) st1)) Hs1) as Hl.
      destruct (fst (get_clipboard_locale P get
                       (snd (emit (ev_convert format from) st1))));
        [|congruence|discriminate].
      destruct (GlobalLock data0); [|discriminate].
      destruct (negb (from =? CF_UNICODETEXT)); discriminate. }
    destruct (format =? CF_UNICODETEXT) eqn:Hunicode.
    { rewrite bind_run. unfold render_synthesized_textW.
      rewrite bind_outcome_run.
      pose proof (get_clipboard_locale_runs
                    (snd (emit (ev_convert format from) st1)) Hs1) as Hl.
      destruct (fst (get_clipboard_locale P get
                       (snd (emit (ev_convert format from) st1))));
        [|congruence|discriminate].
      destruct (GlobalLock data0); discriminate. }
    destruct (format =? CF_BITMAP) eqn:Hbitmap; [discriminate|].
    destruct ((format =? CF_DIB) || (format =? CF_DIBV5)) eqn:Hdib;
      [discriminate|].
    destruct (format =? CF_METAFILEPICT) eqn:Hmf; [discriminate|].
    destruct (format =? CF_ENHMETAFILE) eqn:Hemf; [discriminate|].
    exfalso.
    apply orb_false_iff in Hdib as [H3 H4].
    rewrite H3, H4 in Hf. discriminate Hf. }
  destruct (fst (switch st1)) as [data1| |]; [|congruence|discriminate].
  destruct (is_null data1); [discriminate|].
  rewrite bind_run. discriminate.
Qed.

End Dispatch.

Lemma GetClipboardData_loop_runs fuel : forall format size render st,
  fst (GetClipboardData_loop P E fuel format size render st) <> Crashed.
Proof.
  induction fuel as [|fuel IH]; intros format size render st;
    [discriminate|].
  rewrite GetClipboardData_loop_step. cbv zeta.
  repeat match goal with
         | |- context [if ?b then _ else _] => destruct b
         end; first [discriminate|apply IH].
Qed.

Lemma GetClipboardData_runs fuel : forall format st,
  marks_synthesizable (synthesized_formats st) ->
  fst (GetClipboardData P E fuel format st) <> Crashed.
Proof.
  induction fuel as [|fuel IH]; intros format st Hs; [discriminate|].
  cbn [GetClipboardData]. rewrite bind_run. cbn [get_state fst snd].
  destruct (format <? CF_MAX); cbn [andb];
    [|apply GetClipboardData_loop_runs].
  destruct (Z.eqb_spec (synthesized_from (synthesized_formats st) format) 0)
    as [_|Hmark]; cbn [negb]; [apply GetClipboardData_loop_runs|].
  apply render_synthesized_format_runs.
  - intros f s. apply GetClipboardData_cleared.
  - exact IH.
  - eapply marked_synthesizable; eassumption.
  - exact Hs.
Qed.

End NoAssertion.

(** X15.  The assertion in render_synthesized_format cannot fire.  Whatever
    entry points a client has called, in whatever order and with whatever
    answers from the server, since its table was clear, every mark in the
    table sits on one of the eight formats the switch has a case for, so a
    read of any format never reaches the default case. *)
Theorem GetClipboardData_never_asserts (P : Platform) {World : Type}
    (E : Env World) (calls : list call) (st : state World) (fuel : nat)
    (format : UINT) :
  synthesized_formats st = no_synthesized_formats ->
  let st' := fold_left (fun s c => run_call P E c s) calls st in
  marks_synthesizable (synthesized_formats st')
  /\ fst (GetClipboardData P E fuel format st') <> Crashed.
Proof.
  intros Hinit st'.
  assert (Hs : marks_synthesizable (synthesized_formats st')).
  { apply reachable_synthesizable. rewrite Hinit.
    apply no_synthesized_formats_synthesizable. }
  split; [exact Hs|]. apply GetClipboardData_runs. exact Hs.
Qed.

Lemma GetClipboardData_never_asserts_witness :
  fst (GetClipboardData sample_platform Arbiter.quiet_env 4 CF_TEXT
         after_text_session)
  <> Crashed.
Proof.
  apply (GetClipboardData_never_asserts sample_platform Arbiter.quiet_env
           text_session
           (Arbiter.initial_state (Arbiter.mkArbiter [] 0 None 0 0))
           4 CF_TEXT).
  reflexivity.
Defined.

(** * GetPriorityClipboardFormat *)

Section PriorityFacts.

Context {World : Type} (E : Env World).

Hypothesis driver_quiet : forall w, pUpdateClipboard E w = w.
Hypothesis query_quiet : forall format w,
  snd (get_clipboard_formats E format w) = w.

Lemma IsClipboardFormatAvailable_quiet format st :
  fst (IsClipboardFormatAvailable E format st)
  = available_in E (world st) format
  /\ world (snd (IsClipboardFormatAvailable E format st)) = world st.
Proof.
  unfold IsClipboardFormatAvailable, available_in.
  destruct (format =? 0); [split; reflexivity|].
  unfold driver_update. rewrite !bind_run. unfold extern.
  cbn [fst snd world negb andb].
  pose proof (query_quiet format (pUpdateClipboard E (world st))) as Hq.
  destruct (get_clipboard_formats E format (pUpdateClipboard E (world st)))
    as [[status count] w].
  cbn [fst snd ret world] in *. rewrite driver_quiet in Hq.
  split; [destruct (status =? 0); reflexivity|exact Hq].
Qed.

Lemma priority_scan_quiet list : forall st,
  fst (priority_scan E list st)
  = match find (available_in E (world st)) list with
    | Some format => sint32 format
    | None => -1
    end.
Proof.
  induction list as [|format rest IH]; intros st;
    cbn [priority_scan find]; [reflexivity|].
  rewrite bind_run.
  destruct (IsClipboardFormatAvailable_quiet format st) as [Hans Hw].
  rewrite Hans.
  destruct (available_in E (world st) format); [reflexivity|].
  rewrite IH, Hw. reflexivity.
Qed.

Lemma CountClipboardFormats_quiet st :
  fst (CountClipboardFormats E st)
  = sint32 (snd (fst (get_clipboard_formats E 0 (world st))))
  /\ world (snd (CountClipboardFormats E st)) = world st.
Proof.
  unfold CountClipboardFormats, driver_update. rewrite !bind_run.
  unfold extern. cbn [fst snd world].
  pose proof (query_quiet 0 (pUpdateClipboard E (world st))) as Hq.
  rewrite driver_quiet in *.
  destruct (get_clipboard_formats E 0 (world st)) as [[status count] w].
  cbn [fst snd ret world] in *. split; [reflexivity|exact Hq].
Qed.

End PriorityFacts.

(** X16.  GetPriorityClipboardFormat, while nothing else changes the
    clipboard between its queries: on an empty clipboard it returns 0
    without looking at the list; otherwise it returns the first of the
    first nCount entries of the list that is available, and -1 when none
    of them is (in particular when nCount is not positive). *)
Theorem GetPriorityClipboardFormat_first_available {World : Type}
    (E : Env World) (list : list Z) (nCount : Z) (st : state World) :
  (forall w, pUpdateClipboard E w = w) ->
  (forall format w, snd (get_clipboard_formats E format w) = w) ->
  (Z.to_nat nCount <= length list)%nat ->
  fst (GetPriorityClipboardFormat E list nCount st)
  = if sint32 (snd (fst (get_clipboard_formats E 0 (world st)))) =? 0 then 0
    else
      match find (available_in E (world st)) (take (Z.to_nat nCount) list)
      with
      | Some format => sint32 format
      | None => -1
      end.
Proof.
  intros Hdriver Hquery _.
  unfold GetPriorityClipboardFormat. rewrite bind_run.
  destruct (CountClipboardFormats_quiet E Hdriver Hquery st) as [Hc Hw].
  rewrite Hc.
  destruct (sint32 (snd (fst (get_clipboard_formats E 0 (world st)))) =? 0);
    [reflexivity|].
  rewrite priority_scan_quiet by assumption. rewrite Hw. reflexivity.
Qed.

Lemma GetPriorityClipboardFormat_first_available_witness :
  fst (GetPriorityClipboardFormat Arbiter.quiet_env
         [CF_TEXT; CF_DIB; CF_BITMAP] 3 dib_session)
  = CF_DIB.
Proof.
  rewrite (GetPriorityClipboardFormat_first_available Arbiter.quiet_env
             [CF_TEXT; CF_DIB; CF_BITMAP] 3 dib_session);
    [reflexivity|reflexivity|reflexivity|vm_compute; lia].
Defined.

(** * render_synthesized_dib between CF_DIB and CF_DIBV5 *)

(** X17.  Converting between the two DIB formats rewrites the header and
    nothing else.  For a source block of at least sizeof(BITMAPINFO) bytes
    whose header, as gdi32 measures it, ends before the block does, the
    result is a block of the new header size plus the pixel bytes: its
    biSize field is the new header size (124 for CF_DIBV5, else 52 with
    BI_BITFIELDS compression and 40 without), the header bytes after biSize
    are the source's as far as both headers reach and zero beyond the
    source's, and the pixel bytes follow unchanged. *)
Theorem render_synthesized_dib_reheaders (D : DibOracle) (src : list byte)
    (format from : UINT) :
  let size := Z.of_nat (length src) in
  let src_size := bitmap_info_size D src in
  let header_size :=
    if format =? CF_DIBV5 then 124
    else if load 16 4 src =? BI_BITFIELDS then 52 else 40 in
  from <> CF_BITMAP ->
  sizeof_BITMAPINFO <= size ->
  0 <= src_size < size ->
  size + 124 < 2 ^ 32 ->
  exists out,
    render_synthesized_dib D (HGLOBAL src) format from = HGLOBAL out
    /\ Z.of_nat (length out) = header_size + (size - src_size)
    /\ load 0 4 out = header_size
    /\ drop (Z.to_nat header_size) out = drop (Z.to_nat src_size) src
    /\ (forall i : nat,
          4 <= Z.of_nat i < Z.min header_size src_size ->
          out !! i = src !! i)
    /\ (forall i : nat,
          4 <= Z.of_nat i -> src_size <= Z.of_nat i < header_size ->
          out !! i = Some 0).
Proof.
  cbv zeta. intros Hfrom Hsize Hsrc Hfit.
  unfold sizeof_BITMAPINFO in Hsize.
  set (size := Z.of_nat (length src)) in *.
  set (src_size := bitmap_info_size D src) in *.
  set (hs := if format =? CF_DIBV5 then 124
             else if load 16 4 src =? BI_BITFIELDS then 52 else 40).
  assert (Hhs : 40 <= hs <= 124).
  { unfold hs. destruct (format =? CF_DIBV5); [lia|].
    destruct (load 16 4 src =? BI_BITFIELDS); lia. }
  set (hdr := bytes_at (bytes_at src (Z.min hs src_size)) hs).
  assert (Hhdr : Z.of_nat (length hdr) = hs)
    by (unfold hdr, bytes_at; rewrite length_resize; lia).
  set (pixels := drop (Z.to_nat src_size) src).
  assert (Hpixels : Z.of_nat (length pixels) = size - src_size)
    by (unfold pixels; rewrite length_drop; lia).
  set (out := le_encode 4 hs ++ drop 4 hdr ++ pixels).
  assert (Hlen : Z.of_nat (length out) = hs + (size - src_size)).
  { unfold out. rewrite !length_app, length_le_encode, length_drop. lia. }
  assert (Hbmi : store 0 4 hs hdr = le_encode 4 hs ++ drop 4 hdr)
    by reflexivity.
  exists out. split; [|split; [exact Hlen|split; [|split; [|split]]]].
  - unfold render_synthesized_dib.
    apply Z.eqb_neq in Hfrom. rewrite Hfrom.
    cbn [GlobalSize GlobalLock]. fold size.
    unfold sizeof_BITMAPINFO.
    destruct (Z.ltb_spec size 44) as [Hlt|_]; [lia|].
    fold src_size.
    assert (Hw : wrap32 src_size = src_size)
      by (unfold wrap32; apply Z.mod_small; lia).
    rewrite Hw.
    destruct (Z.leb_spec size src_size) as [Hle|_]; [lia|].
    assert (Hw' : wrap32 (size - src_size) = size - src_size)
      by (unfold wrap32; apply Z.mod_small; lia).
    rewrite Hw'.
    change (if format =? CF_DIBV5 then sizeof_BITMAPV5HEADER
            else offsetof_bmiColors
                   (if load 16 4 src =? BI_BITFIELDS then 3 else 0))
      with (if format =? CF_DIBV5 then 124
            else offsetof_bmiColors
                   (if load 16 4 src =? BI_BITFIELDS then 3 else 0)).
    assert (Hhs' : (if format =? CF_DIBV5 then 124
                    else offsetof_bmiColors
                           (if load 16 4 src =? BI_BITFIELDS then 3 else 0))
                   = hs).
    { unfold hs. destruct (format =? CF_DIBV5); [reflexivity|].
      destruct (load 16 4 src =? BI_BITFIELDS); reflexivity. }
    rewrite Hhs'. fold hdr. rewrite Hbmi. fold pixels.
    assert (Hw2 : wrap32 (hs + (size - src_size)) = Z.of_nat (length out))
      by (rewrite Hlen; unfold wrap32; apply Z.mod_small; lia).
    rewrite Hw2. rewrite <- Hpixels, bytes_at_all.
    rewrite <- app_assoc. fold out. rewrite bytes_at_all. reflexivity.
  - unfold out. change 4 with (Z.of_nat 4) at 1.
    rewrite load_head. apply Z.mod_small. lia.
  - unfold out. rewrite app_assoc.
    replace (Z.to_nat hs) with (length (le_encode 4 hs ++ drop 4 hdr))
      by (rewrite length_app, length_le_encode, length_drop; lia).
    apply drop_app_length.
  - intros i Hi. unfold out.
    rewrite lookup_app_r by (rewrite length_le_encode; lia).
    rewrite length_le_encode.
    rewrite lookup_app_l by (rewrite length_drop; lia).
    rewrite lookup_drop. replace (4 + (i - 4))%nat with i by lia.
    unfold hdr, bytes_at.
    rewrite lookup_resize by (rewrite ?length_resize; lia).
    apply lookup_resize; lia.
  - intros i Hi4 Hi. unfold out.
    rewrite lookup_app_r by (rewrite length_le_encode; lia).
    rewrite length_le_encode.
    rewrite lookup_app_l by (rewrite length_drop; lia).
    rewrite lookup_drop. replace (4 + (i - 4))%nat with i by lia.
    unfold hdr, bytes_at.
    apply lookup_resize_new; rewrite ?length_resize; lia.
Qed.

Lemma render_synthesized_dib_reheaders_witness :
  exists out,
    render_synthesized_dib sample_dib_oracle (HGLOBAL sample_dib)
      CF_DIBV5 CF_DIB
    = HGLOBAL out
    /\ Z.of_nat (length out) = 128
    /\ drop 124 out = [1; 2; 3; 4].
Proof.
  destruct (render_synthesized_dib_reheaders sample_dib_oracle sample_dib
              CF_DIBV5 CF_DIB)
    as (out & Hout & Hlen & _ & Hpixels & _);
    [discriminate|vm_compute; discriminate|vm_compute; split; congruence
    |reflexivity|].
  exists out. split; [exact Hout|split; [exact Hlen|exact Hpixels]].
Defined.

(** * Outcomes of SetClipboardData and EmptyClipboard *)

(** X18.  SetClipboardData with a handle is all or nothing for the client.
    Either it returns NULL and leaves the changed-flag and the whole table
    as they were, or it returns the very handle it was given, the flag is
    set, and the table differs at most in the slot of the format, which is
    cleared when the format is below CF_MAX. *)
Theorem SetClipboardData_all_or_nothing (P : Platform) {World : Type}
    (E : Env World) (format : UINT) (data : HANDLE) (st : state World) :
  data <> HNULL ->
  let r := SetClipboardData P E format data st in
  (fst r = HNULL
   /\ bCBHasChanged (snd r) = bCBHasChanged st
   /\ synthesized_formats (snd r) = synthesized_formats st)
  \/ (fst r = data
      /\ bCBHasChanged (snd r) = true
      /\ synthesized_formats (snd r)
         = if format <? CF_MAX
           then <[Z.to_nat format := 0]> (synthesized_formats st)
           else synthesized_formats st).
Proof.
  intros Hdata r. unfold r. rewrite SetClipboardData_eq.
  destruct (request_payload P format data) as [payload|];
    [|left; repeat split; reflexivity].
  cbn [fst snd]. unfold after_set_request.
  destruct (set_clipboard_data E format payload (world st)) as [status w].
  cbn [fst bCBHasChanged synthesized_formats].
  destruct (status =? 0); cbn [andb];
    [right|left]; repeat split; reflexivity.
Qed.

Lemma SetClipboardData_all_or_nothing_witness :
  fst (SetClipboardData sample_platform Arbiter.quiet_env CF_UNICODETEXT
         (HGLOBAL [104; 0; 105; 0; 0; 0]) stale_client)
  = HNULL
  /\ synthesized_formats
       (snd (SetClipboardData sample_platform Arbiter.quiet_env
               CF_UNICODETEXT (HGLOBAL [104; 0; 105; 0; 0; 0]) stale_client))
     = synthesized_formats stale_client.
Proof.
  destruct (SetClipboardData_all_or_nothing sample_platform
              Arbiter.quiet_env CF_UNICODETEXT
              (HGLOBAL [104; 0; 105; 0; 0; 0]) stale_client)
    as [(Hres & _ & Htbl)|(Hres & _)];
    [discriminate|exact (conj Hres Htbl)|discriminate Hres].
Defined.

(** X19.  EmptyClipboard against any server.  It asks for the owner, sends
    the owner (if there is one) WM_DESTROYCLIPBOARD once, and only then
    sends the empty request, in the world the message left.  It returns
    TRUE exactly when the server answers that request with status 0; then
    the flag is set and the table cleared.  When the server refuses, it
    returns FALSE and the flag and the table are as they were, although the
    owner has already been told. *)
Theorem EmptyClipboard_protocol {World : Type} (E : Env World)
    (st : state World) :
  let info := get_clipboard_info E (world st) in
  let owner := if fst (fst info) =? 0 then snd (fst info) else 0 in
  let w1 :=
    if owner =? 0 then snd info
    else SendMessageW E owner WM_DESTROYCLIPBOARD 0 (snd info) in
  let status := fst (empty_clipboard E w1) in
  let r := EmptyClipboard E st in
  fst r = (status =? 0)
  /\ world (snd r) = snd (empty_clipboard E w1)
  /\ trace (snd r)
     = trace st ++ [ev_get_clipboard_info]
         ++ (if owner =? 0 then []
             else [ev_SendMessage owner WM_DESTROYCLIPBOARD 0])
         ++ [ev_empty_clipboard]
  /\ bCBHasChanged (snd r) = (if status =? 0 then true else bCBHasChanged st)
  /\ synthesized_formats (snd r)
     = (if status =? 0 then no_synthesized_formats
        else synthesized_formats st).
Proof.
  cbv zeta. unfold EmptyClipboard, GetClipboardOwner. run_monad.
  destruct (get_clipboard_info E (world st)) as [[status owner] w].
  run_monad.
  destruct ((if status =? 0 then owner else 0) =? 0); run_monad;
    match goal with
    | |- context [empty_clipboard E ?a] =>
        destruct (empty_clipboard E a) as [status' w']
    end;
    run_monad; destruct (status' =? 0); run_monad;
    rewrite <- ?app_assoc; repeat split; reflexivity.
Qed.

Lemma EmptyClipboard_protocol_witness :
  fst (EmptyClipboard Arbiter.quiet_env stale_client) = false
  /\ synthesized_formats (snd (EmptyClipboard Arbiter.quiet_env stale_client))
     = synthesized_formats stale_client
  /\ fst (EmptyClipboard Arbiter.quiet_env owned_session) = true
  /\ synthesized_formats (snd (EmptyClipboard Arbiter.quiet_env owned_session))
     = no_synthesized_formats
  /\ trace (snd (EmptyClipboard Arbiter.quiet_env owned_session))
     = [ev_get_clipboard_info; ev_SendMessage 9 WM_DESTROYCLIPBOARD 0;
        ev_empty_clipboard].
Proof.
  destruct (EmptyClipboard_protocol Arbiter.quiet_env stale_client)
    as (Hr & _ & _ & _ & Ht).
  destruct (EmptyClipboard_protocol Arbiter.quiet_env owned_session)
    as (Hr' & _ & Htr' & _ & Ht').
  exact (conj Hr (conj Ht (conj Hr' (conj Ht' Htr')))).
Defined.

Section SourceMissing.

Context (P : Platform) {World : Type} (E : Env World).

Lemma GetClipboardData_synthesized fuel format st :
  format < CF_MAX ->
  synthesized_from (synthesized_formats st) format <> 0 ->
  GetClipboardData P E (S fuel) format st
  = render_synthesized_format P E (GetClipboardData P E fuel) format
      (synthesized_from (synthesized_formats st) format) st.
Proof.
  intros Hf Hmark. cbn [GetClipboardData]. rewrite bind_run.
  cbn [get_state fst snd].
  destruct (Z.ltb_spec format CF_MAX); [|lia].
  destruct (Z.eqb_spec (synthesized_from (synthesized_formats st) format) 0);
    [congruence|reflexivity].
Qed.

End SourceMissing.

(** X20.  A synthesized format whose source cannot be read stays marked.
    When the read of the source returns NULL, the read of the marked format
    returns NULL too, in the state the read of the source left: no
    conversion has run, nothing has been stored, the flag is as it was and
    the mark is still in the table, so a later read tries again. *)
Theorem synthesized_read_source_missing (P : Platform) {World : Type}
    (E : Env World) (fuel : nat) (format : UINT) (st : state World) :
  let from := synthesized_from (synthesized_formats st) format in
  marks_grounded (synthesized_formats st) ->
  0 <= format < CF_MAX ->
  from <> 0 ->
  fst (GetClipboardData P E fuel from st) = Done HNULL ->
  GetClipboardData P E (S fuel) format st
  = (Done HNULL, snd (GetClipboardData P E fuel from st))
  /\ same_client st (snd (GetClipboardData P E (S fuel) format st))
  /\ synthesized_from
       (synthesized_formats (snd (GetClipboardData P E (S fuel) format st)))
       format
     = from.
Proof.
  intros from Hg Hf Hmark Hsrc.
  assert (Hread : GetClipboardData P E (S fuel) format st
                  = (Done HNULL, snd (GetClipboardData P E fuel from st))).
  { rewrite GetClipboardData_synthesized by (first [lia|exact Hmark]).
    fold from. unfold render_synthesized_format.
    rewrite bind_outcome_run, Hsrc. reflexivity. }
  assert (Hsame : same_client st (snd (GetClipboardData P E fuel from st))).
  { apply GetClipboardData_same_client. right.
    destruct Hg as [Hg _]. apply (Hg format); [lia|exact Hmark]. }
  rewrite Hread. cbn [snd].
  split; [reflexivity|split; [exact Hsame|]].
  destruct Hsame as (_ & Htbl & _). rewrite Htbl. reflexivity.
Qed.

Lemma synthesized_read_source_missing_witness :
  GetClipboardData sample_platform Arbiter.quiet_env 4 CF_TEXT stale_client
  = (Done HNULL,
     snd (GetClipboardData sample_platform Arbiter.quiet_env 3 CF_UNICODETEXT
            stale_client)).
Proof.
  apply (synthesized_read_source_missing sample_platform Arbiter.quiet_env
           3 CF_TEXT stale_client).
  - apply grounded_check_sound. reflexivity.
  - vm_compute. split; congruence.
  - discriminate.
  - reflexivity.
Defined.

(** * The clipboard locale *)

(** X21.  The locale crosses processes.  On any server, the one request
    set_clipboard_locale sends stores the four little-endian bytes of the
    writer's LCID under CF_LOCALE; and when a read of CF_LOCALE hands a
    reader what unmarshal_data makes of those bytes, get_clipboard_locale
    returns the writer's LCID, not the reader's own default. *)
Theorem clipboard_locale_round_trip (writer reader : Platform)
    {World World' : Type} (E : Env World) (st_w : state World)
    (get : UINT -> M (World:=World') (outcome HANDLE))
    (st_r : state World') :
  let payload := le_encode 4 (GetUserDefaultLCID writer) in
  0 <= GetUserDefaultLCID writer < 2 ^ 32 ->
  fst (get CF_LOCALE st_r)
  = Done (unmarshal_data reader CF_LOCALE payload 4) ->
  trace (snd (set_clipboard_locale writer E st_w))
  = trace st_w ++ [ev_set_clipboard_data CF_LOCALE payload]
  /\ world (snd (set_clipboard_locale writer E st_w))
     = snd (set_clipboard_data E CF_LOCALE payload (world st_w))
  /\ fst (get_clipboard_locale reader get st_r)
     = Done (GetUserDefaultLCID writer).
Proof.
  intros payload Hrange Hget. split; [|split].
  - unfold set_clipboard_locale. rewrite bind_run. cbn [ret snd].
    rewrite SetClipboardData_eq, locale_payload. cbn [snd].
    unfold after_set_request. fold payload.
    destruct (set_clipboard_data E CF_LOCALE payload (world st_w)).
    reflexivity.
  - unfold set_clipboard_locale. rewrite bind_run. cbn [ret snd].
    rewrite SetClipboardData_eq, locale_payload. cbn [snd].
    unfold after_set_request. fold payload.
    destruct (set_clipboard_data E CF_LOCALE payload (world st_w)).
    reflexivity.
  - unfold get_clipboard_locale. rewrite bind_outcome_run, Hget.
    assert (Hh : unmarshal_data reader CF_LOCALE payload 4 = HGLOBAL payload)
      by reflexivity.
    rewrite Hh. cbn [ret fst is_null GlobalLock GlobalSize].
    assert (Hlen : Z.of_nat (length payload) = 4) by reflexivity.
    rewrite Hlen. change (4 <=? 4) with true. cbv iota.
    f_equal. unfold payload.
    rewrite <- (app_nil_r (le_encode 4 (GetUserDefaultLCID writer))).
    change 4 with (Z.of_nat 4) at 1.
    rewrite load_head. apply Z.mod_small. exact Hrange.
Qed.

Lemma clipboard_locale_round_trip_witness :
  Arbiter.dir_lookup CF_LOCALE
    (Arbiter.arb_directory
       (world (snd (set_clipboard_locale sample_platform Arbiter.quiet_env
                      fresh_session))))
  = Some [9; 4; 0; 0]
  /\ fst (get_clipboard_locale french_reader
            (GetClipboardData french_reader Arbiter.quiet_env 3)
            locale_session)
     = Done 1033.
Proof.
  destruct (clipboard_locale_round_trip sample_platform french_reader
              Arbiter.quiet_env fresh_session
              (GetClipboardData french_reader Arbiter.quiet_env 3)
              locale_session)
    as (_ & Hw & Hr);
    [vm_compute; split; congruence|reflexivity|].
  split; [rewrite Hw; reflexivity|exact Hr].
Defined.

(** * Witnesses of earlier facts *)

Lemma memory_format_roundtrip_witness :
  request_payload sample_platform CF_UNICODETEXT
    (HGLOBAL [104; 0; 105; 0; 0; 0])
  = Some [104; 0; 105; 0; 0; 0]
  /\ unmarshal_data sample_platform CF_UNICODETEXT [104; 0; 105; 0; 0; 0] 6
     = HGLOBAL [104; 0; 105; 0; 0; 0].
Proof.
  apply (memory_format_roundtrip sample_platform CF_UNICODETEXT
           [104; 0; 105; 0; 0; 0]);
    first [discriminate|reflexivity].
Defined.

Lemma session_invariant_reachable_witness :
  session_invariant after_text_session.
Proof.
  apply (session_invariant_reachable sample_platform Arbiter.quiet_env
           text_session
           (Arbiter.initial_state (Arbiter.mkArbiter [] 0 None 0 0))).
  reflexivity.
Defined.

(** * Render once *)

Section RenderKeeps.

Context (P : Platform) {World : Type} (E : Env World).

Variable R : state World -> state World -> Prop.

Hypothesis R_refl : forall st, R st st.
Hypothesis R_trans : forall st1 st2 st3, R st1 st2 -> R st2 st3 -> R st1 st3.
Hypothesis emit_keeps : forall e, keeps R (emit (World:=World) e).
Hypothesis set_keeps : forall format data,
  keeps R (SetClipboardData P E format data).
Hypothesis loop_keeps : forall fuel format size render,
  keeps R (GetClipboardData_loop P E fuel format size render).

Section RenderDispatch.

Variable get : UINT -> M (World:=World) (outcome HANDLE).

Hypothesis get_keeps : forall format, keeps R (get format).

Lemma get_clipboard_locale_keeps : keeps R (get_clipboard_locale P get).
Proof.
  unfold get_clipboard_locale, bind_outcome. cbv zeta.
  apply keeps_bind; [exact R_trans|apply get_keeps|].
  intros [data| |]; apply keeps_ret, R_refl.
Qed.

Lemma render_synthesized_textA_keeps data format from :
  keeps R (render_synthesized_textA P get data format from).
Proof.
  unfold render_synthesized_textA, bind_outcome.
  apply keeps_bind; [exact R_trans|apply get_clipboard_locale_keeps|].
  intros [lcid| |]; try (apply keeps_ret, R_refl).
  cbv zeta. intros st.
  destruct (GlobalLock data); [|apply R_refl].
  destruct (negb (from =? CF_UNICODETEXT)); apply R_refl.
Qed.

Lemma render_synthesized_textW_keeps data from :
  keeps R (render_synthesized_textW P get data from).
Proof.
  unfold render_synthesized_textW, bind_outcome. cbv zeta.
  apply keeps_bind; [exact R_trans|apply get_clipboard_locale_keeps|].
  intros [lcid| |]; try (apply keeps_ret, R_refl).
  intros st. destruct (GlobalLock data); apply R_refl.
Qed.

Lemma render_synthesized_format_keeps format from :
  keeps R (render_synthesized_format P E get format from).
Proof.
  unfold render_synthesized_format, bind_outcome.
  apply keeps_bind; [exact R_trans|apply get_keeps|].
  intros [data0| |]; try (apply keeps_ret, R_refl).
  destruct (is_null data0); [apply keeps_ret, R_refl|].
  apply keeps_bind; [exact R_trans| |].
  - destruct ((format =? CF_TEXT) || (format =? CF_OEMTEXT)).
    { apply keeps_bind; [exact R_trans|apply emit_keeps|intros _].
      apply render_synthesized_textA_keeps. }
    destruct (format =? CF_UNICODETEXT).
    { apply keeps_bind; [exact R_trans|apply emit_keeps|intros _].
      apply render_synthesized_textW_keeps. }
    destruct (format =? CF_BITMAP).
    { apply keeps_bind; [exact R_trans|apply emit_keeps|intros _].
      apply keeps_ret, R_refl. }
    destruct ((format =? CF_DIB) || (format =? CF_DIBV5)).
    { apply keeps_bind; [exact R_trans|apply emit_keeps|intros _].
      apply keeps_ret, R_refl. }
    destruct (format =? CF_METAFILEPICT).
    { apply keeps_bind; [exact R_trans|apply emit_keeps|intros _].
      apply keeps_ret, R_refl. }
    destruct (format =? CF_ENHMETAFILE).
    { apply keeps_bind; [exact R_trans|apply emit_keeps|intros _].
      apply keeps_ret, R_refl. }
    apply keeps_ret, R_refl.
  - intros [data1| |]; try (apply keeps_ret, R_refl).
    destruct (is_null data1); [apply keeps_ret, R_refl|].
    apply keeps_bind; [exact R_trans|apply set_keeps|intros _].
    apply keeps_ret, R_refl.
Qed.

End RenderDispatch.

Lemma GetClipboardData_keeps fuel : forall format,
  keeps R (GetClipboardData P E fuel format).
Proof.
  induction fuel as [|fuel IH]; intros format st; [apply R_refl|].
  cbn [GetClipboardData]. rewrite bind_run. cbn [get_state fst snd].
  destruct ((format <? CF_MAX)
            && negb (synthesized_from (synthesized_formats st) format =? 0)).
  - apply render_synthesized_format_keeps. exact IH.
  - apply loop_keeps.
Qed.

End RenderKeeps.

Section StoredEntries.

Import Arbiter.

Context (P : Platform).
Context (driver : arbiter -> arbiter).
Context (wndproc : HWND -> UINT -> Z -> arbiter -> arbiter).

Let E : Env arbiter := arbiter_env driver wndproc.

Lemma arb_get_world format size a : snd (arb_get format size a) = a.
Proof.
  unfold arb_get. destruct (arb_opener a); [|reflexivity].
  destruct (dir_lookup format (arb_directory a)); [|reflexivity].
  cbv zeta. destruct (_ <=? size); reflexivity.
Qed.

Lemma arb_put_accepted format payload a hwnd :
  arb_opener a = Some hwnd ->
  arb_put format payload a
  = (0, mkArbiter (dir_put format payload (arb_directory a)) (arb_owner a)
          (arb_opener a) (arb_viewer a) (arb_seqno a + 1)).
Proof. intros Hopen. unfold arb_put. rewrite Hopen. reflexivity. Qed.

Lemma arb_put_opener format payload a :
  arb_opener (snd (arb_put format payload a)) = arb_opener a.
Proof. unfold arb_put. destruct (arb_opener a) eqn:H; [reflexivity|exact H]. Qed.

Lemma same_opener_refl st : same_opener st st.
Proof. reflexivity. Qed.

Lemma same_opener_trans st1 st2 st3 :
  same_opener st1 st2 -> same_opener st2 st3 -> same_opener st1 st3.
Proof. unfold same_opener. congruence. Qed.

Lemma SetClipboardData_same_opener format data :
  keeps same_opener (SetClipboardData P E format data).
Proof.
  intros st. unfold same_opener. rewrite SetClipboardData_eq.
  destruct (request_payload P format data) as [payload|]; [|reflexivity].
  cbn [snd]. unfold after_set_request.
  cbn [E set_clipboard_data arbiter_env].
  pose proof (arb_put_opener format payload (world st)) as Hput.
  destruct (arb_put format payload (world st)) as [status w].
  exact Hput.
Qed.

Section OpenSession.

Hypothesis wndproc_opener : forall hwnd msg wparam a,
  arb_opener (wndproc hwnd msg wparam a) = arb_opener a.

Lemma GetClipboardData_loop_same_opener fuel :
  forall format size render,
    keeps same_opener (GetClipboardData_loop P E fuel format size render).
Proof.
  induction fuel as [|fuel IH]; intros format size render st;
    [reflexivity|].
  rewrite GetClipboardData_loop_step. cbv zeta.
  cbn [E get_clipboard_data SendMessageW arbiter_env].
  rewrite arb_get_world.
  set (st1 := logged (ev_get_clipboard_data format size) (world st) st).
  assert (H1 : same_opener st st1) by reflexivity.
  repeat match goal with
         | |- context [if ?b then _ else _] => destruct b
         end;
    try exact H1;
    (eapply same_opener_trans; [|apply IH]); try exact H1.
  unfold same_opener, logged. cbn [world]. apply wndproc_opener.
Qed.

Lemma GetClipboardData_same_opener fuel format st :
  same_opener st (snd (GetClipboardData P E fuel format st)).
Proof.
  apply (GetClipboardData_keeps P E same_opener same_opener_refl
           same_opener_trans).
  - intros e s. reflexivity.
  - apply SetClipboardData_same_opener.
  - apply GetClipboardData_loop_same_opener.
Qed.

End OpenSession.

(** Reads of an unmarked format whose entry holds bytes, in an open session:
    each returns what [unmarshal_data] makes of the entry, converts nothing
    and leaves the table and the server as they are. *)
Lemma GetClipboardData_stored_reads format payload hwnd st1 :
  synthesized_from (synthesized_formats st1) format = 0 ->
  arb_opener (world st1) = Some hwnd ->
  dir_lookup format (arb_directory (world st1)) = Some payload ->
  payload <> [] ->
  forall m k,
    let st_k := reread P E (3 + m) format k st1 in
    fst (GetClipboardData P E (3 + m) format st_k)
    = Done (unmarshal_data P format payload (Z.of_nat (length payload)))
    /\ count_events is_convert (trace st_k)
       = count_events is_convert (trace st1)
    /\ synthesized_formats st_k = synthesized_formats st1
    /\ world st_k = world st1.
Proof.
  intros Hgone Hopen1 Hdir1 Hne m k. cbv zeta.
  assert (Hstored : forall s,
            synthesized_formats s = synthesized_formats st1 ->
            world s = world st1 ->
            fst (GetClipboardData P E (3 + m) format s)
            = Done (unmarshal_data P format payload
                      (Z.of_nat (length payload)))
            /\ same_client s (snd (GetClipboardData P E (3 + m) format s))
            /\ world (snd (GetClipboardData P E (3 + m) format s))
               = world st1).
  { intros s Hs1 Hs2.
    assert (Hns : CF_MAX <= format
                  \/ synthesized_from (synthesized_formats s) format = 0)
      by (right; rewrite Hs1; exact Hgone).
    split; [|split].
    - change (3 + m)%nat with (S (S (S m))).
      rewrite GetClipboardData_not_synthesized by exact Hns.
      apply (GetClipboardData_loop_stored P driver wndproc m format s
               payload hwnd); [congruence|congruence|assumption].
    - apply GetClipboardData_same_client. exact Hns.
    - change (3 + m)%nat with (S (S (S m))).
      rewrite GetClipboardData_not_synthesized by exact Hns.
      rewrite <- Hs2.
      apply (GetClipboardData_loop_stored P driver wndproc m format s
               payload hwnd); [congruence|congruence|assumption]. }
  assert (Hinv : forall s,
            synthesized_formats s = synthesized_formats st1 ->
            count_events is_convert (trace s)
            = count_events is_convert (trace st1) ->
            world s = world st1 ->
            synthesized_formats (reread P E (3 + m) format k s)
            = synthesized_formats st1
            /\ count_events is_convert
                 (trace (reread P E (3 + m) format k s))
               = count_events is_convert (trace st1)
            /\ world (reread P E (3 + m) format k s) = world st1).
  { induction k as [|k IHk]; intros s Hs1 Hs2 Hs3.
    - repeat split; assumption.
    - cbn [reread].
      destruct (Hstored s Hs1 Hs3) as (_ & (_ & Ht & Hc) & Hw).
      apply IHk; congruence. }
  destruct (Hinv st1 eq_refl eq_refl eq_refl) as (Hi1 & Hi2 & Hi3).
  split; [apply (Hstored _ Hi1 Hi3)|].
  split; [exact Hi2|]. split; [exact Hi1|exact Hi3].
Qed.

(** An accepted request of [SetClipboardData] in an open session: the entry
    holds the payload and a slot below CF_MAX is clear. *)
Lemma SetClipboardData_stored format data payload hwnd st :
  0 <= format < CF_MAX ->
  table_ok (synthesized_formats st) ->
  arb_opener (world st) = Some hwnd ->
  request_payload P format data = Some payload ->
  let r := SetClipboardData P E format data st in
  fst r = data
  /\ bCBHasChanged (snd r) = true
  /\ synthesized_formats (snd r)
     = <[Z.to_nat format := 0]> (synthesized_formats st)
  /\ synthesized_from (synthesized_formats (snd r)) format = 0
  /\ arb_opener (world (snd r)) = Some hwnd
  /\ dir_lookup format (arb_directory (world (snd r))) = Some payload
  /\ trace (snd r) = trace st ++ [ev_set_clipboard_data format payload].
Proof.
  intros Hformat Hok Hopen Hpayload. cbv zeta.
  rewrite SetClipboardData_eq, Hpayload. unfold after_set_request.
  cbn [E set_clipboard_data arbiter_env].
  rewrite (arb_put_accepted format payload (world st) hwnd Hopen).
  cbn [fst snd bCBHasChanged synthesized_formats world trace arb_opener
       arb_directory Z.eqb andb].
  destruct (Z.ltb_spec format CF_MAX) as [_|]; [|lia].
  repeat split; try reflexivity.
  - apply synthesized_from_insert_eq; assumption.
  - exact Hopen.
  - apply dir_lookup_put.
Qed.

End StoredEntries.

(** C4 (as amended).  Take an open session whose window procedures leave
    the session open, a table whose marks are grounded, and a format marked
    in it.  When a read of that format returns a handle that marshals to a
    non-empty payload, that read ran exactly one conversion, the mark is
    gone and the arbiter holds that payload: the entry is stored.  Every
    later read of the format returns what unmarshal_data makes of that
    payload (the marshalled image of the handle the first read returned),
    runs no conversion, and leaves the table and the arbiter as they are. *)
Theorem render_once (P : Platform)
    (driver : Arbiter.arbiter -> Arbiter.arbiter)
    (wndproc : HWND -> UINT -> Z -> Arbiter.arbiter -> Arbiter.arbiter)
    (fuel : nat) (format : UINT) (data : HANDLE) (payload : list byte)
    (hwnd : HWND) (st st1 : state Arbiter.arbiter) :
  let E := Arbiter.arbiter_env driver wndproc in
  (forall h msg wparam a,
     Arbiter.arb_opener (wndproc h msg wparam a) = Arbiter.arb_opener a) ->
  Arbiter.arb_opener (world st) = Some hwnd ->
  0 <= format < CF_MAX ->
  table_ok (synthesized_formats st) ->
  marks_grounded (synthesized_formats st) ->
  synthesized_from (synthesized_formats st) format <> 0 ->
  GetClipboardData P E fuel format st = (Done data, st1) ->
  request_payload P format data = Some payload ->
  payload <> [] ->
  synthesized_from (synthesized_formats st1) format = 0
  /\ Arbiter.dir_lookup format (Arbiter.arb_directory (world st1))
     = Some payload
  /\ count_events is_convert (trace st1)
     = S (count_events is_convert (trace st))
  /\ forall m k,
       let st_k := reread P E (3 + m) format k st1 in
       fst (GetClipboardData P E (3 + m) format st_k)
       = Done (unmarshal_data P format payload
                 (Z.of_nat (length payload)))
       /\ count_events is_convert (trace st_k)
          = count_events is_convert (trace st1)
       /\ synthesized_formats st_k = synthesized_formats st1
       /\ world st_k = world st1.
Proof.
  intros E Hwnd Hopen Hformat Hok Hgrounded Hfrom' Hread Hpayload Hne.
  set (tbl := synthesized_formats st) in *.
  set (from := synthesized_from tbl format) in *.
  assert (Hfrom : from <> 0) by exact Hfrom'.
  assert (Hlocale : synthesized_from tbl CF_LOCALE = 0)
    by exact (proj2 Hgrounded).
  assert (Hsource : CF_MAX <= from \/ synthesized_from tbl from = 0).
  { right. apply (proj1 Hgrounded format); [lia|exact Hfrom]. }
  assert (Hopen1 : Arbiter.arb_opener (world st1) = Some hwnd).
  { pose proof (GetClipboardData_same_opener P driver wndproc Hwnd fuel
                  format st) as Hsame.
    fold E in Hsame. rewrite Hread in Hsame. cbn [snd] in Hsame.
    unfold same_opener in Hsame. congruence. }
  destruct fuel as [|fuel]; [discriminate|].
  cbn [GetClipboardData] in Hread. rewrite bind_run in Hread.
  cbn [get_state fst snd] in Hread. fold tbl in Hread. fold from in Hread.
  destruct (Z.ltb_spec format CF_MAX) as [_|]; [|lia].
  destruct (Z.eqb_spec from 0) as [|_]; [contradiction|].
  cbn [andb negb] in Hread.
  destruct (render_synthesized_format_done P E fuel format from st data st1
              Hsource Hlocale Hread)
    as [[Hnull _]|(stb & Htbl & Hcount & Hdata & Hst1)].
  { exfalso. subst data. cbn in Hpayload. congruence. }
  assert (Hopenb : Arbiter.arb_opener (world stb) = Some hwnd).
  { pose proof (SetClipboardData_same_opener P driver wndproc format data
                  stb) as Hsame.
    fold E in Hsame. rewrite <- Hst1 in Hsame.
    unfold same_opener in Hsame. congruence. }
  destruct (SetClipboardData_stored P driver wndproc format data payload
              hwnd stb Hformat)
    as (_ & _ & _ & Hgone & _ & Hdir & Htrace);
    [rewrite Htbl; exact Hok|exact Hopenb|exact Hpayload|].
  fold E in Hgone, Hdir, Htrace. rewrite <- Hst1 in Hgone, Hdir, Htrace.
  split; [exact Hgone|]. split; [exact Hdir|]. split.
  { rewrite Htrace, count_events_app. cbn [count_events is_convert]. lia. }
  apply (GetClipboardData_stored_reads P driver wndproc format payload hwnd
           st1); assumption.
Qed.

Lemma render_once_witness :
  let first :=
    GetClipboardData sample_platform Arbiter.quiet_env 5 CF_TEXT
      owned_session in
  fst first = Done (HGLOBAL [104; 105; 0])
  /\ synthesized_from (synthesized_formats (snd first)) CF_TEXT = 0
  /\ fst (GetClipboardData sample_platform Arbiter.quiet_env 3 CF_TEXT
            (snd first))
     = Done (HGLOBAL [104; 105; 0])
  /\ fst (GetClipboardData sample_platform Arbiter.quiet_env 3 CF_TEXT
            (reread sample_platform Arbiter.quiet_env 3 CF_TEXT 1 (snd first)))
     = Done (HGLOBAL [104; 105; 0])
  /\ count_events is_convert
       (trace (reread sample_platform Arbiter.quiet_env 3 CF_TEXT 2
                 (snd first)))
     = 1%nat.
Proof.
  cbv zeta.
  set (st1 := snd (GetClipboardData sample_platform Arbiter.quiet_env 5
                     CF_TEXT owned_session)).
  assert (Hread : GetClipboardData sample_platform Arbiter.quiet_env 5
                    CF_TEXT owned_session
                  = (Done (HGLOBAL [104; 105; 0]), st1))
    by (vm_compute; reflexivity).
  destruct (render_once sample_platform (fun a => a) (fun _ _ _ a => a)
              5 CF_TEXT (HGLOBAL [104; 105; 0]) [104; 105; 0] 1
              owned_session st1)
    as (Hgone & _ & Hcount & Hlater);
    [reflexivity|reflexivity|vm_compute; split; congruence|reflexivity
    |apply grounded_check_sound; reflexivity
    |discriminate|exact Hread|reflexivity|discriminate|].
  split; [rewrite Hread; reflexivity|].
  split; [exact Hgone|].
  split; [exact (proj1 (Hlater 0%nat 0%nat))|].
  split; [exact (proj1 (Hlater 0%nat 1%nat))|].
  exact (eq_trans (proj1 (proj2 (Hlater 0%nat 2%nat))) Hcount).
Defined.

(** C4 as stated fails.  In an open session with grounded marks, CF_TEXT is
    marked as synthesized from a CF_UNICODETEXT entry of one byte.  The read
    of CF_TEXT renders: it returns a handle that is not NULL, after one
    conversion.  That handle is an empty block, which marshal_data refuses,
    so nothing is stored and the mark stays; the second read converts
    again. *)
Lemma render_once_counterexample :
  let first :=
    GetClipboardData sample_platform Arbiter.quiet_env 5 CF_TEXT
      odd_text_session in
  let second :=
    GetClipboardData sample_platform Arbiter.quiet_env 5 CF_TEXT
      (snd first) in
  grounded_check (synthesized_formats odd_text_session) = true
  /\ Arbiter.arb_opener (world odd_text_session) = Some 1
  /\ fst first = Done (HGLOBAL [])
  /\ HGLOBAL [] <> HNULL
  /\ request_payload sample_platform CF_TEXT (HGLOBAL []) = None
  /\ synthesized_from (synthesized_formats (snd first)) CF_TEXT
     = CF_UNICODETEXT
  /\ Arbiter.dir_lookup CF_TEXT (Arbiter.arb_directory (world (snd first)))
     = Some []
  /\ count_events is_convert (trace (snd first)) = 1%nat
  /\ fst second = Done (HGLOBAL [])
  /\ count_events is_convert (trace (snd second)) = 2%nat.
Proof. vm_compute. repeat split; discriminate. Qed.

(** * Writes and marks *)

Section UnbackedMarks.

Import Arbiter.

Context (P : Platform).
Context (driver : arbiter -> arbiter).
Context (wndproc : HWND -> UINT -> Z -> arbiter -> arbiter).

Let E : Env arbiter := arbiter_env driver wndproc.










Lemma same_directory_refl st : same_directory st st.
Proof. reflexivity. Qed.





Section QuietParties.

Hypothesis driver_directory : forall a,
  arb_directory (driver a) = arb_directory a.
Hypothesis wndproc_directory : forall hwnd msg wparam a,
  arb_directory (wndproc hwnd msg wparam a) = arb_directory a.






(** *** The synthesis passes *)







End QuietParties.

End UnbackedMarks.


Section ClosePasses.

Import Arbiter.

Context (P : Platform).
Context (driver : arbiter -> arbiter).
Context (wndproc : HWND -> UINT -> Z -> arbiter -> arbiter).

Let E : Env arbiter := arbiter_env driver wndproc.

Hypothesis driver_directory : forall a,
  arb_directory (driver a) = arb_directory a.
Hypothesis wndproc_directory : forall hwnd msg wparam a,
  arb_directory (wndproc hwnd msg wparam a) = arb_directory a.









End ClosePasses.


